(** * Quotex AI Trading Signals: technical-analysis and signal-fusion engine

    A shallow embedding of the numeric core of the extension, together
    with the properties its specification states:
    - the indicator library (the module "Technical Indicators", shipped
      after the data extractor in utils/dataExtractor.js);
    - the normalisation of raw candles (utils/dataExtractor.js);
    - the AI analysis module, with the pattern detector and the local
      fallback prediction;
    - the signal scorer and the accuracy tracker (background.js);
    - the timeframe followed by the content script and the history of
      signals kept by the popup.

    JavaScript numbers are IEEE-754 binary64 values; they are embedded as
    Rocq's primitive [float], whose operations are the same correctly
    rounded binary64 operations, so that every evaluation below yields the
    number the engine itself would yield, NaN and the infinities included.
    Array lengths, indices and periods are [nat]; where the source uses one
    of them in arithmetic it is converted by [n2f]. *)

From Stdlib Require Import ZArith Ascii String List Bool Lia.
From Stdlib Require Import Uint63 Floats.
Import ListNotations.

Set Warnings "-inexact-float,-register-all".

(* ================================================================== *)
(** * The JavaScript fragment the engine relies on *)
(* ================================================================== *)

Module JS.

Local Open Scope float_scope.

(** [a > b] and [a >= b] on numbers. Like [<] and [<=] they are false as
    soon as one operand is NaN. *)
Definition gtb (a b : float) : bool := b <? a.
Definition geb (a b : float) : bool := b <=? a.

Infix ">?" := gtb (at level 70, no associativity) : float_scope.
Infix ">=?" := geb (at level 70, no associativity) : float_scope.

(** A length, an index or a period used as a number. *)
Definition n2f (n : nat) : float := of_uint63 (Uint63.of_Z (Z.of_nat n)).

(** Truthiness of a number: [0], [-0] and [NaN] are falsy. *)
Definition truthy (x : float) : bool := negb (is_zero x || is_nan x).

(** [x || 0] on a number. *)
Definition or_zero (x : float) : float := if truthy x then x else 0.

(** [Math.min] and [Math.max] on two numbers: NaN as soon as one operand
    is NaN, and [-0] counts as smaller than [+0]. *)
Definition Math_min (a b : float) : float :=
  if is_nan a || is_nan b then nan
  else if a <? b then a
  else if b <? a then b
  else if get_sign a then a else b.

Definition Math_max (a b : float) : float :=
  if is_nan a || is_nan b then nan
  else if a <? b then b
  else if b <? a then a
  else if get_sign a then b else a.

Definition Math_abs (x : float) : float := abs x.
Definition Math_sqrt (x : float) : float := sqrt x.

(** [Math.pow(x, 2)]: the square, as one rounded multiplication. *)
Definition Math_pow2 (x : float) : float := x * x.

(** Reading a numeric array. Past either end JavaScript yields
    [undefined], which every arithmetic operator and comparison of the
    engine coerces to NaN, and which is falsy like NaN: the model reads
    NaN there. *)
Definition get (l : list float) (i : nat) : float := nth i l nan.

(** [l[l.length - k]] for [k >= 1]; the index is negative, hence the read
    out of range, when [k] exceeds the length. *)
Definition at_back (l : list float) (k : nat) : float :=
  if (k <=? length l)%nat then get l (length l - k) else nan.

(** Exceptions and the completion of a computation that may throw. *)
Inductive exn : Type :=
| RangeError
| TypeError
| SyntaxError
| NetworkError
| Error (message : string).

Inductive result (A : Type) : Type :=
| Ok (a : A)
| Throw (e : exn).

Arguments Ok {A} a.
Arguments Throw {A} e.

Definition bind {A B : Type} (c : result A) (k : A -> result B) : result B :=
  match c with
  | Ok a => k a
  | Throw e => Throw e
  end.

(** [try { body } catch (e) { handler }] around a computation whose
    handler itself completes with a result. *)
Definition try_catch {A : Type} (body : result A) (handler : exn -> result A)
  : result A :=
  match body with
  | Ok a => Ok a
  | Throw e => handler e
  end.

(** The same for a function both of whose paths [return] a value. *)
Definition recover {A : Type} (body : result A) (handler : exn -> A) : A :=
  match body with
  | Ok a => a
  | Throw e => handler e
  end.

(** Values decoded from JSON, as [response.json()] and [JSON.parse]
    produce them. *)
Inductive json : Type :=
| JsonNull
| JsonBool (b : bool)
| JsonNumber (x : float)
| JsonString (s : string)
| JsonArray (elements : list json)
| JsonObject (properties : list (string * json)).

(** A value read from such data: [None] is [undefined]. *)
Definition value : Type := option json.

Fixpoint lookup {A : Type} (key : string) (properties : list (string * A))
  : option A :=
  match properties with
  | [] => None
  | (k, v) :: rest => if String.eqb k key then Some v else lookup key rest
  end.

(** [v.key] for one of the keys the engine reads, none of which is a
    built-in property of arrays, strings, numbers or booleans. Reading a
    property of [undefined] or [null] throws a TypeError. *)
Definition prop (v : value) (key : string) : result value :=
  match v with
  | None => Throw TypeError
  | Some JsonNull => Throw TypeError
  | Some (JsonObject properties) => Ok (lookup key properties)
  | Some _ => Ok None
  end.

(** [v[0]]. *)
Definition first (v : value) : result value :=
  match v with
  | None => Throw TypeError
  | Some JsonNull => Throw TypeError
  | Some (JsonObject properties) => Ok (lookup "0" properties)
  | Some (JsonArray elements) => Ok (nth_error elements 0)
  | Some (JsonString (String c _)) => Ok (Some (JsonString (String c EmptyString)))
  | Some _ => Ok None
  end.

(** Truthiness: [undefined], [null], [false], [0], [NaN] and the empty
    string are falsy. *)
Definition truthy_value (v : value) : bool :=
  match v with
  | None => false
  | Some JsonNull => false
  | Some (JsonBool b) => b
  | Some (JsonNumber x) => truthy x
  | Some (JsonString s) => negb (String.eqb s "")
  | Some _ => true
  end.

(** [v || d] for a default [d] that is itself a value of JSON. *)
Definition or_default (v : value) (d : json) : json :=
  match v with
  | Some j => if truthy_value v then j else d
  | None => d
  end.

(** The suffix of [s] that starts at its first opening brace. *)
Fixpoint from_first_brace (s : string) : option string :=
  match s with
  | EmptyString => None
  | String c rest =>
      if Ascii.eqb c "{"%char then Some s else from_first_brace rest
  end.

(** The longest prefix of [s] that ends with a closing brace. *)
Fixpoint to_last_brace (s : string) : option string :=
  match s with
  | EmptyString => None
  | String c rest =>
      match to_last_brace rest with
      | Some prefix => Some (String c prefix)
      | None => if Ascii.eqb c "}"%char then Some (String c EmptyString) else None
      end
  end.

(** [text.match(/\{.*\}/s)[0]]: with the [s] flag the dot matches every
    character, so the leftmost greedy match runs from the first opening
    brace to the last closing brace after it; [None] is [null], no match. *)
Definition match_braces (text : string) : option string :=
  match from_first_brace text with
  | Some (String open rest) =>
      match to_last_brace rest with
      | Some inner => Some (String open inner)
      | None => None
      end
  | _ => None
  end.

(** [textContent.match(...)]: only a string has the method, on any other
    value the call throws a TypeError. *)
Definition match_text (textContent : value) : result (option string) :=
  match textContent with
  | Some (JsonString text) => Ok (match_braces text)
  | _ => Throw TypeError
  end.

(** What [await fetch(...)] and then [await response.json()] give: the
    request is rejected, or a response arrives with its [ok] flag, its
    status and a body that decodes or not. *)
Inductive fetch_outcome : Type :=
| Rejected (e : exn)
| Response (ok : bool) (status : nat) (body : result json).

End JS.

Declare Scope js_scope.
Delimit Scope js_scope with js.
Notation "x <- c ;; k" := (JS.bind c (fun x => k))
  (at level 61, c at next level, right associativity) : js_scope.

(* ================================================================== *)
(** * Data model: candles and indicator snapshots *)
(* ================================================================== *)

(** A candle as the indicator library and the pattern detector read it. *)
Module Candle.

Record t : Type := mk {
  timestamp : float;
  open : float;
  high : float;
  low : float;
  close : float;
  volume : float
}.

End Candle.

Abbreviation candle := Candle.t.

Module Model.

Record ema_t : Type := mkEma {
  ema20 : float;
  ema50 : float;
  crossover : string
}.

Record macd_t : Type := mkMacd {
  line : float;
  signal : float;
  histogram : float;
  previousHistogram : float
}.

Record rsi_t : Type := mkRsi { value : float }.

Record bb_t : Type := mkBb {
  upper : float;
  middle : float;
  lower : float;
  width : float;
  position : string
}.

Record volume_t : Type := mkVolume {
  current : float;
  average : float;
  trend : string
}.

Record indicators : Type := mkIndicators {
  ema : ema_t;
  macd : macd_t;
  rsi : rsi_t;
  bb : bb_t;
  volume : volume_t
}.

End Model.

(* ================================================================== *)
(** * The indicator library *)
(* ================================================================== *)

(** Every function of the library but [getEMA] wraps its body in
    [try ... catch] and returns its default from the handler. On an array
    of numbers nothing in these bodies throws, except [getEMA] for a period
    of zero: the model keeps the handler around the calls of [getEMA] and
    nowhere else. *)

Module Indicators.

Import JS Model.
Local Open Scope string_scope.
Local Open Scope list_scope.
Local Open Scope float_scope.
Local Open Scope js_scope.

Definition getEmptyIndicators : indicators :=
  {| ema := {| ema20 := 0; ema50 := 0; crossover := "none" |};
     macd := {| line := 0; signal := 0; histogram := 0; previousHistogram := 0 |};
     rsi := {| value := 50 |};
     bb := {| upper := 0; middle := 0; lower := 0; width := 0; position := "middle" |};
     volume := {| current := 0; average := 0; trend := "stable" |} |}.

(** One turn of the loop of [getEMA]: the new value is pushed after the
    values computed so far, from the last of them. *)
Definition ema_step (multiplier : float) (emaValues : list float) (price : float)
  : list float :=
  let prev := at_back emaValues 1 in
  emaValues ++ [(price - prev) * multiplier + prev].

(** The running sum [sum += x] of a loop over [xs], from [0]. *)
Definition sum_from_zero (xs : list float) : float :=
  fold_left (fun sum x => sum + x) xs 0.

(** [getEMA(prices, period)]. [Array(period - 1)] throws a RangeError for
    a period of zero, after the seed has been computed. *)
Definition getEMA (prices : list float) (period : nat) : result (list float) :=
  if (length prices <? period)%nat then Ok (map (fun _ => 0) prices)
  else
    let sum := sum_from_zero (firstn period prices) in
    let sma := sum / n2f period in
    let multiplier := 2 / (n2f period + 1) in
    match period with
    | O => Throw RangeError
    | S k =>
        let emaValues := repeat 0 k ++ [sma] in
        Ok (fold_left (ema_step multiplier) (skipn period prices) emaValues)
    end.

Definition calculateEMA (prices : list float) : ema_t :=
  recover
    (ema20 <- getEMA prices 20 ;;
     ema50 <- getEMA prices 50 ;;
     let crossover :=
       if (52 <=? length prices)%nat then
         let currentEma20 := at_back ema20 1 in
         let currentEma50 := at_back ema50 1 in
         let previousEma20 := at_back ema20 2 in
         let previousEma50 := at_back ema50 2 in
         if (previousEma20 <=? previousEma50) && (currentEma20 >? currentEma50)
         then "bullish"
         else if (previousEma20 >=? previousEma50) && (currentEma20 <? currentEma50)
         then "bearish"
         else "none"
       else "none" in
     Ok {| ema20 := at_back ema20 1; ema50 := at_back ema50 1; crossover := crossover |})
    (fun _ => {| ema20 := 0; ema50 := 0; crossover := "none" |}).

Definition calculateMACD (prices : list float) : macd_t :=
  recover
    (if (length prices <? 26)%nat
     then Ok {| line := 0; signal := 0; histogram := 0; previousHistogram := 0 |}
     else
       ema12 <- getEMA prices 12 ;;
       ema26 <- getEMA prices 26 ;;
       let macdLine :=
         map (fun i => if (i <? 25)%nat then 0 else get ema12 i - get ema26 i)
             (seq 0 (length prices)) in
       signalLine <- getEMA macdLine 9 ;;
       let histogram :=
         map (fun i => if (i <? 33)%nat then 0 else get macdLine i - get signalLine i)
             (seq 0 (length prices)) in
       Ok {| line := at_back macdLine 1;
             signal := at_back signalLine 1;
             histogram := at_back histogram 1;
             previousHistogram := or_zero (at_back histogram 2) |})
    (fun _ => {| line := 0; signal := 0; histogram := 0; previousHistogram := 0 |}).

(** [changes[i-1] = prices[i] - prices[i-1]] for [1 <= i < prices.length]. *)
Fixpoint price_changes (prices : list float) : list float :=
  match prices with
  | previous :: (price :: _) as rest => (price - previous) :: price_changes rest
  | _ => []
  end.

(** Wilder smoothing of one more gain or loss. *)
Definition smooth (period : nat) (avg x : float) : float :=
  ((avg * (n2f period - 1)) + x) / n2f period.

(** The smoothed average of [xs] (the gains, or the losses): the mean of
    the first [period] of them, then one smoothing step for each of the
    others. *)
Definition smoothed_average (period : nat) (xs : list float) : float :=
  let seed := sum_from_zero (map (get xs) (seq 0 period)) / n2f period in
  fold_left (smooth period) (skipn period xs) seed.

(** [calculateRSI(prices, period)]; every caller leaves [period] to its
    default, 14. *)
Definition calculateRSI (prices : list float) (period : nat) : rsi_t :=
  if (length prices <? period + 1)%nat then {| value := 50 |}
  else
    let changes := price_changes prices in
    let gains := map (fun change => if change >? 0 then change else 0) changes in
    let losses := map (fun change => if change <? 0 then Math_abs change else 0) changes in
    let avgGain := smoothed_average period gains in
    let avgLoss := smoothed_average period losses in
    let rs := avgGain / avgLoss in
    let rsi := 100 - (100 / (1 + rs)) in
    {| value := rsi |}.

(** The window [prices[i], prices[i-1], ..., prices[i-period+1]], in the
    order the inner loops of [calculateBollingerBands] visit it. *)
Definition window (prices : list float) (period i : nat) : list float :=
  map (fun j => get prices (i - j)) (seq 0 period).

(** The array [sma] of [calculateBollingerBands], one mean for each
    [i = period - 1 .. prices.length - 1]. *)
Definition bbSMA (prices : list float) (period : nat) : list float :=
  map (fun i => sum_from_zero (window prices period i) / n2f period)
      (seq (period - 1) (length prices - (period - 1))).

(** The array [stdDev], from the means. *)
Definition bbStdDev (prices : list float) (period : nat) (sma : list float)
  : list float :=
  map (fun i =>
         let mean := get sma (i - (period - 1)) in
         let sum := sum_from_zero
                      (map (fun price => Math_pow2 (price - mean))
                           (window prices period i)) in
         Math_sqrt (sum / n2f period))
      (seq (period - 1) (length prices - (period - 1))).

(** The position of the price with respect to the bands. *)
Definition bbPosition (currentPrice currentUpper currentLower : float) : string :=
  if currentPrice >=? currentUpper then "upper"
  else if currentPrice <=? currentLower then "lower"
  else "middle".

(** [calculateBollingerBands(prices, period, multiplier)] for a period of
    at least one; every caller leaves the period to its default, 20, and
    the multiplier to 2. *)
Definition calculateBollingerBands (prices : list float) (period : nat)
    (multiplier : float) : bb_t :=
  if (length prices <? period)%nat
  then {| upper := 0; middle := 0; lower := 0; width := 0; position := "middle" |}
  else
    let sma := bbSMA prices period in
    let stdDev := bbStdDev prices period sma in
    let upperBand :=
      map (fun i => get sma i + (multiplier * get stdDev i)) (seq 0 (length sma)) in
    let lowerBand :=
      map (fun i => get sma i - (multiplier * get stdDev i)) (seq 0 (length sma)) in
    let currentSMA := at_back sma 1 in
    let currentUpper := at_back upperBand 1 in
    let currentLower := at_back lowerBand 1 in
    let currentPrice := at_back prices 1 in
    let width := (currentUpper - currentLower) / currentSMA in
    {| upper := currentUpper;
       middle := currentSMA;
       lower := currentLower;
       width := width;
       position := bbPosition currentPrice currentUpper currentLower |}.

Definition analyzeVolume (volumes prices : list float) : volume_t :=
  if (length volumes <? 10)%nat
  then {| current := 0; average := 0; trend := "stable" |}
  else
    let sum := sum_from_zero (skipn (length volumes - 10) volumes) in
    let avgVolume := sum / 10 in
    let currentVolume := at_back volumes 1 in
    let trend :=
      if currentVolume >? avgVolume * 1.5 then
        let priceChange := at_back prices 1 - at_back prices 2 in
        if priceChange >? 0 then "increasing"
        else if priceChange <? 0 then "decreasing"
        else "high"
      else if currentVolume <? avgVolume * 0.5 then "low"
      else "stable" in
    {| current := currentVolume; average := avgVolume; trend := trend |}.

Definition calculateAllIndicators (candles : list candle) : indicators :=
  if (length candles <? 30)%nat then getEmptyIndicators
  else
    let closes := map Candle.close candles in
    let volumes := map (fun candle => or_zero (Candle.volume candle)) candles in
    {| ema := calculateEMA closes;
       macd := calculateMACD closes;
       rsi := calculateRSI closes 14;
       bb := calculateBollingerBands closes 20 2;
       volume := analyzeVolume volumes closes |}.

End Indicators.


(* ================================================================== *)
(** * The data extractor: normalising raw candle data *)
(* ================================================================== *)

Module DataExtractor.

Import JS.
Local Open Scope string_scope.
Local Open Scope list_scope.
Local Open Scope float_scope.
Local Open Scope js_scope.

(** A field of a raw candle, as scraped from the page: absent, or a
    primitive value. *)
Inductive field : Type :=
| Undefined
| Null
| Bool (b : bool)
| Num (x : float)
| Str (s : string).

Section Normalisation.

(** The conversion of a string to a number ([Number(s)]), a built-in of
    the host that [isNaN] applies to a string field. *)
Variable StringToNumber : string -> float.

Definition ToNumber (v : field) : float :=
  match v with
  | Undefined => nan
  | Null => 0
  | Bool true => 1
  | Bool false => 0
  | Num x => x
  | Str s => StringToNumber s
  end.

(** The global [isNaN], which converts its argument to a number first. *)
Definition isNaN (v : field) : bool := is_nan (ToNumber v).

Definition defined (v : field) : bool :=
  match v with
  | Undefined => false
  | _ => true
  end.

Definition truthy_field (v : field) : bool :=
  match v with
  | Undefined => false
  | Null => false
  | Bool b => b
  | Num x => truthy x
  | Str s => negb (String.eqb s "")
  end.

(** [a || b]. *)
Definition or (a b : field) : field := if truthy_field a then a else b.

(** An element of the raw data: an array, an object with its own
    properties, [null], or anything else (a number, a string, a boolean,
    [undefined]). *)
Inductive item : Type :=
| ItemArray (elements : list field)
| ItemObject (properties : list (string * field))
| ItemNull
| ItemOther.

(** [item[i]] and [item.key]: [undefined] when absent. *)
Definition element (elements : list field) (i : nat) : field :=
  nth i elements Undefined.

Definition property (properties : list (string * field)) (key : string) : field :=
  match lookup key properties with
  | Some v => v
  | None => Undefined
  end.

(** ['key' in item]. *)
Definition has (properties : list (string * field)) (key : string) : bool :=
  match lookup key properties with
  | Some _ => true
  | None => false
  end.

(** The candle object built for one element; [{}] has no field at all. *)
Record candle : Type := mkCandle {
  timestamp : field;
  open : field;
  high : field;
  low : field;
  close : field;
  volume : field
}.

Definition empty_candle : candle :=
  mkCandle Undefined Undefined Undefined Undefined Undefined Undefined.

Definition isValidCandle (candle : candle) : bool :=
  defined (open candle) &&
  defined (high candle) &&
  defined (low candle) &&
  defined (close candle) &&
  negb (isNaN (open candle)) &&
  negb (isNaN (high candle)) &&
  negb (isNaN (low candle)) &&
  negb (isNaN (close candle)).

Definition getTimeframeInMs (timeframe : string) : float :=
  if String.eqb timeframe "M1" then 60 * 1000
  else if String.eqb timeframe "M5" then 5 * 60 * 1000
  else if String.eqb timeframe "M15" then 15 * 60 * 1000
  else 60 * 1000.

(** The candle read from one element, for the running default
    [timestamp]. [typeof null] is ['object'], so that ['open' in item]
    is evaluated on [null] and throws a TypeError. *)
Definition candle_of_item (it : item) (timestamp : float) : result candle :=
  match it with
  | ItemArray elements =>
      Ok {| timestamp := or (element elements 0) (Num timestamp);
            open := element elements 1;
            high := element elements 2;
            low := element elements 3;
            close := element elements 4;
            volume := or (element elements 5) (Num 0) |}
  | ItemObject properties =>
      if has properties "open" then
        Ok {| timestamp := or (or (property properties "timestamp")
                                  (property properties "time")) (Num timestamp);
              open := property properties "open";
              high := property properties "high";
              low := property properties "low";
              close := property properties "close";
              volume := or (property properties "volume") (Num 0) |}
      else if has properties "o" then
        Ok {| timestamp := or (or (property properties "t")
                                  (property properties "ts")) (Num timestamp);
              open := property properties "o";
              high := property properties "h";
              low := property properties "l";
              close := property properties "c";
              volume := or (property properties "v") (Num 0) |}
      else Ok empty_candle
  | ItemNull => Throw TypeError
  | ItemOther => Ok empty_candle
  end.

(** The loop of [normalizeCandleData] over the remaining elements, with
    the running timestamp and the candles pushed so far. *)
Fixpoint normalize_loop (interval : float) (data : list item) (timestamp : float)
    (normalizedData : list candle) : result (list candle) :=
  match data with
  | [] => Ok normalizedData
  | it :: rest =>
      candle <- candle_of_item it timestamp ;;
      let normalizedData :=
        if isValidCandle candle then normalizedData ++ [candle] else normalizedData in
      normalize_loop interval rest (timestamp + interval) normalizedData
  end.

(** [normalizeCandleData(data, timeframe)], at the time [now] that
    [Date.now()] returns. *)
Definition normalizeCandleData (now : float) (data : list item) (timeframe : string)
  : list candle :=
  match data with
  | [] => []
  | _ =>
      recover
        (let interval := getTimeframeInMs timeframe in
         let timestamp := now - (n2f (length data) * interval) in
         normalize_loop interval data timestamp [])
        (fun _ => [])
  end.

(** [typeof v === 'number']. *)
Definition is_number (v : field) : bool :=
  match v with
  | Num _ => true
  | _ => false
  end.

(** [isCandleDataArray(arr)] for an array [arr], which is what every
    caller passes. Only the first element is looked at. An array has none
    of the properties [open], [o] and the like, so that it can only be of
    the third type. *)
Definition isCandleDataArray (arr : list item) : bool :=
  match arr with
  | [] => false
  | firstItem :: _ =>
      match firstItem with
      | ItemObject properties =>
          if has properties "open" && has properties "high" &&
             has properties "low" && has properties "close"
          then true
          else if has properties "o" && has properties "h" &&
                  has properties "l" && has properties "c"
          then true
          else false
      | ItemArray elements =>
          if (5 <=? length elements)%nat then
            is_number (element elements 0) &&
            is_number (element elements 1) &&
            is_number (element elements 2) &&
            is_number (element elements 3) &&
            is_number (element elements 4)
          else false
      | ItemNull => false
      | ItemOther => false
      end
  end.

(** [candleData && candleData.length], where [None] is [null]. *)
Definition found (candleData : option (list item)) : bool :=
  match candleData with
  | Some (_ :: _) => true
  | _ => false
  end.

(** The third method is a placeholder. *)
Definition extractFromNetworkRequests (timeframe : string) : option (list item) :=
  None.

(** [extractCandleData(timeframe)], for what [extractFromWindowObject()]
    and [extractFromDOM()] return when they are called; both catch what
    they throw and return [null] then. *)
Definition extractCandleData (now : float)
    (fromWindowObject fromDOM : option (list item)) (timeframe : string)
  : option (list candle) :=
  let candleData := fromWindowObject in
  let candleData := if negb (found candleData) then fromDOM else candleData in
  let candleData :=
    if negb (found candleData) then extractFromNetworkRequests timeframe
    else candleData in
  match candleData with
  | Some ((_ :: _) as data) => Some (normalizeCandleData now data timeframe)
  | _ => None
  end.

End Normalisation.

End DataExtractor.

(* ================================================================== *)
(** * The AI analysis module: fallback prediction and pattern detector *)
(* ================================================================== *)

Module AIAnalysis.

Import JS Model.
Local Open Scope string_scope.
Local Open Scope list_scope.
Local Open Scope float_scope.
Local Open Scope js_scope.

(** The object [{ score, confidence }] of the pattern detector. *)
Record pattern_t : Type := mkPattern {
  score : float;
  pattern_confidence : float
}.

(** The object [{ prediction, confidence, source }] of the fallback. *)
Record prediction_t : Type := mkPrediction {
  prediction : string;
  confidence : float;
  source : string
}.

(** The object [getAIPrediction] resolves to. What the model replied is
    passed on as it was decoded, whatever its type. *)
Record reply_t : Type := mkReply {
  reply_prediction : json;
  reply_confidence : json;
  reply_source : string
}.

Definition reply_of (p : prediction_t) : reply_t :=
  {| reply_prediction := JsonString (prediction p);
     reply_confidence := JsonNumber (confidence p);
     reply_source := source p |}.

(** [candles[i]] where the index is known to be in range; the candle
    given for the other indices is never read. *)
Definition candle_at (candles : list candle) (i : nat) : candle :=
  nth i candles (Candle.mk nan nan nan nan nan nan).

(** [candles.slice(-n)]. *)
Definition slice_last (n : nat) (candles : list candle) : list candle :=
  skipn (length candles - n) candles.

Definition detectTrend (candles : list candle) : string :=
  if (length candles <? 10)%nat then "sideways"
  else
    let recentCandles := slice_last 10 candles in
    let firstPrice := Candle.close (candle_at recentCandles 0) in
    let lastPrice := Candle.close (candle_at recentCandles (length recentCandles - 1)) in
    let priceChange := (lastPrice - firstPrice) / firstPrice * 100 in
    if priceChange >? 2 then "uptrend"
    else if priceChange <? -2 then "downtrend"
    else "sideways".

(** The three-candle part of the detector, written apart for its length:
    three white soldiers, then three black crows, then no pattern. *)
Definition detectThree (lastCandle previousCandle thirdLastCandle : candle)
    (lastBullish prevBullish : bool) : pattern_t :=
  if lastBullish && prevBullish &&
     (Candle.close thirdLastCandle >? Candle.open thirdLastCandle) &&
     ((Candle.close lastCandle >? Candle.close previousCandle) &&
      (Candle.close previousCandle >? Candle.close thirdLastCandle))
  then {| score := 10; pattern_confidence := 0.05 |}
  else if negb lastBullish && negb prevBullish &&
     (Candle.close thirdLastCandle <? Candle.open thirdLastCandle) &&
     ((Candle.close lastCandle <? Candle.close previousCandle) &&
      (Candle.close previousCandle <? Candle.close thirdLastCandle))
  then {| score := -10; pattern_confidence := 0.05 |}
  else {| score := 0; pattern_confidence := 0 |}.

(** The engulfing part and what follows it. *)
Definition detectEngulfing (recent : list candle) (lastCandle : candle) : pattern_t :=
  let previousCandle := candle_at recent (length recent - 2) in
  let lastBullish := Candle.close lastCandle >? Candle.open lastCandle in
  let prevBullish := Candle.close previousCandle >? Candle.open previousCandle in
  let next :=
    if (3 <=? length recent)%nat then
      detectThree lastCandle previousCandle (candle_at recent (length recent - 3))
                  lastBullish prevBullish
    else {| score := 0; pattern_confidence := 0 |} in
  if lastBullish && negb prevBullish then
    if (Candle.open lastCandle <? Candle.close previousCandle) &&
       (Candle.close lastCandle >? Candle.open previousCandle)
    then {| score := 10; pattern_confidence := 0.05 |}
    else next
  else if negb lastBullish && prevBullish then
    if (Candle.open lastCandle >? Candle.close previousCandle) &&
       (Candle.close lastCandle <? Candle.open previousCandle)
    then {| score := -10; pattern_confidence := 0.05 |}
    else next
  else next.

Definition detectCandlestickPatterns (candles : list candle) : pattern_t :=
  if (length candles <? 5)%nat then {| score := 0; pattern_confidence := 0 |}
  else
    let recent := slice_last 5 candles in
    let lastCandle := candle_at recent (length recent - 1) in
    let bodySize := Math_abs (Candle.close lastCandle - Candle.open lastCandle) in
    let totalSize := Candle.high lastCandle - Candle.low lastCandle in
    if bodySize / totalSize <? 0.1 then {| score := 0; pattern_confidence := 0.02 |}
    else
      let lowerWick :=
        Math_min (Candle.open lastCandle) (Candle.close lastCandle) - Candle.low lastCandle in
      let upperWick :=
        Candle.high lastCandle - Math_max (Candle.open lastCandle) (Candle.close lastCandle) in
      if (lowerWick >? bodySize * 2) && (upperWick <? bodySize * 0.5) then
        let trend := detectTrend candles in
        if String.eqb trend "downtrend"
        then {| score := 10; pattern_confidence := 0.04 |}
        else if String.eqb trend "uptrend"
        then {| score := -10; pattern_confidence := 0.04 |}
        else detectEngulfing recent lastCandle
      else detectEngulfing recent lastCandle.

(** The two running totals of [getPatternBasedPrediction], as they stand
    once the candlestick patterns have been added: [predictionScore] and
    [confidenceScore]. *)
Definition patternScores (candles : list candle) (indicators : indicators)
  : float * float :=
  let predictionScore := 0 in
  let confidenceScore := 0.5 in
  (* 1. EMA crossover *)
  let '(predictionScore, confidenceScore) :=
    if String.eqb (crossover (ema indicators)) "bullish"
    then (predictionScore + 25, confidenceScore + 0.1)
    else if String.eqb (crossover (ema indicators)) "bearish"
    then (predictionScore - 25, confidenceScore + 0.1)
    else (predictionScore, confidenceScore) in
  (* 2. MACD *)
  let '(predictionScore, confidenceScore) :=
    if (histogram (macd indicators) >? 0) &&
       (histogram (macd indicators) >? previousHistogram (macd indicators))
    then (predictionScore + 20, confidenceScore + 0.08)
    else if (histogram (macd indicators) <? 0) &&
            (histogram (macd indicators) <? previousHistogram (macd indicators))
    then (predictionScore - 20, confidenceScore + 0.08)
    else (predictionScore, confidenceScore) in
  (* 3. RSI *)
  let '(predictionScore, confidenceScore) :=
    if Model.value (rsi indicators) <? 30
    then (predictionScore + 15, confidenceScore + 0.06)
    else if Model.value (rsi indicators) >? 70
    then (predictionScore - 15, confidenceScore + 0.06)
    else (predictionScore, confidenceScore) in
  (* 4. Bollinger Bands *)
  let '(predictionScore, confidenceScore) :=
    if String.eqb (position (bb indicators)) "lower"
    then (predictionScore + 20, confidenceScore + 0.08)
    else if String.eqb (position (bb indicators)) "upper"
    then (predictionScore - 20, confidenceScore + 0.08)
    else (predictionScore, confidenceScore) in
  (* 5. Volume *)
  let '(predictionScore, confidenceScore) :=
    if String.eqb (trend (volume indicators)) "increasing" then
      if predictionScore >? 0
      then (predictionScore + 10, confidenceScore + 0.04)
      else if predictionScore <? 0
      then (predictionScore - 10, confidenceScore + 0.04)
      else (predictionScore, confidenceScore)
    else (predictionScore, confidenceScore) in
  (* 6. candlestick patterns *)
  let patternResult := detectCandlestickPatterns candles in
  (predictionScore + score patternResult,
   confidenceScore + pattern_confidence patternResult).

Definition getPatternBasedPrediction (candles : list candle) (indicators : indicators)
  : prediction_t :=
  let '(predictionScore, confidenceScore) := patternScores candles indicators in
  let prediction :=
    if predictionScore >? 15 then "up"
    else if predictionScore <? -15 then "down"
    else "neutral" in
  let confidenceScore := Math_min (Math_max confidenceScore 0.3) 0.85 in
  {| prediction := prediction; confidence := confidenceScore; source := "pattern" |}.

(** The object [prepareDataForAI] returns, and its [statistics]. *)
Record statistics_t : Type := mkStatistics {
  priceChange : float;
  priceChangePercent : float;
  volatility : float
}.

Record analysisData_t : Type := mkAnalysisData {
  data_timeframe : string;
  recentCandles : list candle;
  data_indicators : indicators;
  statistics : statistics_t
}.

(** [prepareDataForAI(candles, indicators, timeframe)]. The divisor
    [closes.length - 1] is a number, [-1] when there is no candle. *)
Definition prepareDataForAI (candles : list candle) (indicators : indicators)
    (timeframe : string) : analysisData_t :=
  let recentCandles :=
    map (fun candle =>
           Candle.mk (Candle.timestamp candle) (Candle.open candle)
                     (Candle.high candle) (Candle.low candle)
                     (Candle.close candle) (or_zero (Candle.volume candle)))
        (slice_last 20 candles) in
  let closes := map Candle.close recentCandles in
  let priceChange := at_back closes 1 - get closes 0 in
  let priceChangePercent := (priceChange / get closes 0) * 100 in
  let volatility :=
    fold_left
      (fun volatility i =>
         volatility + Math_abs (get closes i - get closes (i - 1)) / get closes (i - 1))
      (seq 1 (length closes - 1)) 0 in
  let volatility := (volatility / (n2f (length closes) - 1)) * 100 in
  {| data_timeframe := timeframe;
     recentCandles := recentCandles;
     data_indicators := indicators;
     statistics :=
       {| priceChange := priceChange;
          priceChangePercent := priceChangePercent;
          volatility := volatility |} |}.

Section Prediction.

(** [JSON.parse], a built-in of the host: the decoded value, or [None]
    when it throws a SyntaxError. *)
Variable JSON_parse : string -> option json.

Definition parse (text : string) : result json :=
  match JSON_parse text with
  | Some v => Ok v
  | None => Throw SyntaxError
  end.

(** The inner [try] block of [getAIPrediction]: [Some] of the object it
    returns, or [None] when it runs to its end without returning. *)
Definition parseReply (result : json) : JS.result (option reply_t) :=
  candidates <- prop (Some result) "candidates" ;;
  candidate <- first candidates ;;
  content <- prop candidate "content" ;;
  parts <- prop content "parts" ;;
  part <- first parts ;;
  textContent <- prop part "text" ;;
  jsonMatch <- match_text textContent ;;
  match jsonMatch with
  | Some matched =>
      aiResponse <- parse matched ;;
      prediction <- prop (Some aiResponse) "prediction" ;;
      confidence <- prop (Some aiResponse) "confidence" ;;
      Ok (Some {| reply_prediction := or_default prediction (JsonString "neutral");
                  reply_confidence := or_default confidence (JsonNumber 0.5);
                  reply_source := "gemini" |})
  | None => Ok None
  end.

(** [getAIPrediction(apiKey, candles, indicators, timeframe)], for what
    the request to the model comes to. [prepareDataForAI] builds a summary
    that the request does not use, from the candles alone and without
    throwing; the request itself is built from plain data. *)
Definition getAIPrediction (fetch : fetch_outcome) (apiKey : string)
    (candles : list candle) (indicators : indicators) (timeframe : string)
  : result reply_t :=
  try_catch
    (if String.eqb apiKey ""
     then Ok (reply_of (getPatternBasedPrediction candles indicators))
     else
       result <-
         match fetch with
         | Rejected e => Throw e
         | Response ok status body =>
             if negb ok then Throw (Error "Gemini API error") else body
         end ;;
       match recover (parseReply result) (fun parseError => None) with
       | Some reply => Ok reply
       | None => Ok (reply_of (getPatternBasedPrediction candles indicators))
       end)
    (fun error => Ok (reply_of (getPatternBasedPrediction candles indicators))).

End Prediction.

End AIAnalysis.

(* ================================================================== *)
(** * background.js: the signal scorer and the accuracy tracker *)
(* ================================================================== *)

Module Background.

Import JS Model.
Local Open Scope string_scope.
Local Open Scope list_scope.
Local Open Scope float_scope.
Local Open Scope js_scope.

Record accuracyStats_t : Type := mkStats {
  totalSignals : nat;
  correctSignals : nat
}.

(** The part of the global [state] that the accuracy tracker reads and
    writes, and the copy of it kept by [chrome.storage.local]. The
    counters are numbers that only ever hold counts; they are [nat], used
    as numbers through [n2f]. *)
Record state_t : Type := mkState {
  isActive : bool;
  selectedTimeframe : string;
  accuracyStats : accuracyStats_t;
  stored_accuracyStats : option accuracyStats_t
}.

Definition initial_state : state_t :=
  {| isActive := false;
     selectedTimeframe := "M1";
     accuracyStats := {| totalSignals := 0; correctSignals := 0 |};
     stored_accuracyStats := None |}.

Definition GEMINI_API_KEY : string := "".

(** The object [{ prediction, confidence }] that the scorer reads. *)
Record aiAnalysis_t : Type := mkAnalysis {
  prediction : string;
  confidence : float
}.

(** The object this file's [getAIPrediction] resolves to; a reply of the
    model is passed on as it was decoded. *)
Record reply_t : Type := mkReply {
  reply_prediction : json;
  reply_confidence : json
}.

Definition neutral_reply : reply_t :=
  {| reply_prediction := JsonString "neutral"; reply_confidence := JsonNumber 0.5 |}.

Section Prediction.

Variable JSON_parse : string -> option json.

Definition parse (text : string) : result json :=
  match JSON_parse text with
  | Some v => Ok v
  | None => Throw SyntaxError
  end.

Definition parseReply (result : json) : JS.result (option reply_t) :=
  candidates <- prop (Some result) "candidates" ;;
  candidate <- first candidates ;;
  content <- prop candidate "content" ;;
  parts <- prop content "parts" ;;
  part <- first parts ;;
  textContent <- prop part "text" ;;
  jsonMatch <- match_text textContent ;;
  match jsonMatch with
  | Some matched =>
      aiResponse <- parse matched ;;
      prediction <- prop (Some aiResponse) "prediction" ;;
      confidence <- prop (Some aiResponse) "confidence" ;;
      Ok (Some {| reply_prediction := or_default prediction (JsonString "neutral");
                  reply_confidence := or_default confidence (JsonNumber 0.5) |})
  | None => Ok None
  end.

(** The body of [getAIPrediction(candleData, indicators, timeframe)] of
    background.js for a given value of the key, and for what the request
    comes to. *)
Definition getAIPredictionWith (key : string) (fetch : fetch_outcome)
    (candleData : list candle) (indicators : indicators) (timeframe : string)
  : result reply_t :=
  if String.eqb key "" then Ok neutral_reply
  else
    try_catch
      (result <-
         match fetch with
         | Rejected e => Throw e
         | Response ok status body =>
             if negb ok then Throw (Error "Gemini API error") else body
         end ;;
       match recover (parseReply result) (fun parseError => None) with
       | Some reply => Ok reply
       | None => Ok neutral_reply
       end)
      (fun error => Ok neutral_reply).

(** The function itself reads the constant of the file. *)
Definition getAIPrediction : fetch_outcome -> list candle -> indicators -> string
                             -> result reply_t :=
  getAIPredictionWith GEMINI_API_KEY.

End Prediction.

Record details_t : Type := mkDetails {
  details_ema : string;
  details_macd : string;
  details_rsi : float;
  details_bb : string;
  details_volume : string
}.

Record signal_t : Type := mkSignal {
  type : string;
  strength : float;
  recommendation : string;
  aiConfidence : float;
  details : details_t
}.

(** The running total [signalPoints] of [generateSignal] once the five
    indicators have been counted, before the AI prediction is. *)
Definition indicatorPoints (indicators : indicators) : float :=
  let signalPoints := 0 in
  (* EMA crossover *)
  let signalPoints :=
    if String.eqb (crossover (ema indicators)) "bullish" then signalPoints + 20
    else if String.eqb (crossover (ema indicators)) "bearish" then signalPoints - 20
    else signalPoints in
  (* MACD *)
  let signalPoints :=
    if (histogram (macd indicators) >? 0) &&
       (histogram (macd indicators) >? previousHistogram (macd indicators))
    then signalPoints + 20
    else if (histogram (macd indicators) <? 0) &&
            (histogram (macd indicators) <? previousHistogram (macd indicators))
    then signalPoints - 20
    else signalPoints in
  (* RSI *)
  let signalPoints :=
    if Model.value (rsi indicators) <? 30 then signalPoints + 15
    else if Model.value (rsi indicators) >? 70 then signalPoints - 15
    else signalPoints in
  (* Bollinger Bands *)
  let signalPoints :=
    if String.eqb (position (bb indicators)) "lower" then signalPoints + 15
    else if String.eqb (position (bb indicators)) "upper" then signalPoints - 15
    else signalPoints in
  (* Volume confirmation *)
  if String.eqb (trend (volume indicators)) "increasing" then
    if signalPoints >? 0 then signalPoints + 10
    else if signalPoints <? 0 then signalPoints - 10
    else signalPoints
  else signalPoints.

(** The same total with the AI prediction counted, as it stands when the
    type of the signal is decided. *)
Definition signalPoints (indicators : indicators) (aiAnalysis : aiAnalysis_t) : float :=
  let signalPoints := indicatorPoints indicators in
  if String.eqb (prediction aiAnalysis) "up"
  then signalPoints + 20 * confidence aiAnalysis
  else if String.eqb (prediction aiAnalysis) "down"
  then signalPoints - 20 * confidence aiAnalysis
  else signalPoints.

Definition generateSignal (indicators : indicators) (aiAnalysis : aiAnalysis_t)
  : signal_t :=
  let signalPoints := signalPoints indicators aiAnalysis in
  let '(signalType, strength, recommendation) :=
    if signalPoints >? 30
    then ("buy", Math_min (Math_abs signalPoints) 100, "Buy")
    else if signalPoints <? -30
    then ("sell", Math_min (Math_abs signalPoints) 100, "Sell")
    else ("neutral", Math_min (Math_abs signalPoints) 100, "Hold") in
  {| type := signalType;
     strength := strength;
     recommendation := recommendation;
     aiConfidence := confidence aiAnalysis;
     details :=
       {| details_ema := crossover (ema indicators);
          details_macd := if histogram (macd indicators) >? 0 then "bullish" else "bearish";
          details_rsi := Model.value (rsi indicators);
          details_bb := position (bb indicators);
          details_volume := trend (volume indicators) |} |}.

(** [trackSignalAccuracy(signalType, result)]: the new state, the stored
    copy included, and the number returned. *)
Definition trackSignalAccuracy (state : state_t) (signalType result : string)
  : state_t * float :=
  let stats := accuracyStats state in
  let stats :=
    {| totalSignals := totalSignals stats + 1;
       correctSignals := correctSignals stats |} in
  let stats :=
    if (String.eqb signalType "buy" && String.eqb result "win") ||
       (String.eqb signalType "sell" && String.eqb result "win")
    then {| totalSignals := totalSignals stats;
            correctSignals := correctSignals stats + 1 |}
    else stats in
  ({| isActive := isActive state;
      selectedTimeframe := selectedTimeframe state;
      accuracyStats := stats;
      stored_accuracyStats := Some stats |},
   (n2f (correctSignals stats) / n2f (totalSignals stats)) * 100).

End Background.

(* ================================================================== *)
(** * The content script: following the timeframe of the page *)
(* ================================================================== *)

Module ContentScript.

Import JS.
Local Open Scope string_scope.

(** [text.startsWith(pattern)] and [text.includes(pattern)]. *)
Fixpoint startsWith (text pattern : string) : bool :=
  match pattern, text with
  | EmptyString, _ => true
  | String p pattern', String t text' => Ascii.eqb t p && startsWith text' pattern'
  | String _ _, EmptyString => false
  end.

Fixpoint includes (text pattern : string) : bool :=
  startsWith text pattern ||
  match text with
  | EmptyString => false
  | String _ rest => includes rest pattern
  end.

(** The value [newTimeframe] has in [checkTimeframe] once the text of
    the active selector has been looked at. *)
Definition newTimeframe (currentTimeframe timeframeText : string) : string :=
  if includes timeframeText "1m" || includes timeframeText "1M" then "M1"
  else if includes timeframeText "5m" || includes timeframeText "5M" then "M5"
  else if includes timeframeText "15m" || includes timeframeText "15M" then "M15"
  else currentTimeframe.

(** [checkTimeframe()]: the new value of [state.currentTimeframe] and the
    timeframe the background script is told of, if any. [activeTimeframe]
    is the trimmed text of the selector that is active on the page, [None]
    when there is none. *)
Definition checkTimeframe (currentTimeframe : string) (activeTimeframe : option string)
  : string * option string :=
  match activeTimeframe with
  | Some timeframeText =>
      let newTimeframe := newTimeframe currentTimeframe timeframeText in
      if negb (String.eqb newTimeframe currentTimeframe)
      then (newTimeframe, Some newTimeframe)
      else (currentTimeframe, None)
  | None => (currentTimeframe, None)
  end.

End ContentScript.

(* ================================================================== *)
(** * The popup: the history of the signals it has shown *)
(* ================================================================== *)

Module Popup.

Local Open Scope list_scope.

(** What the history keeps of a signal: [{ timestamp, type, strength }]. *)
Record entry_t : Type := mkEntry {
  timestamp : float;
  type : string;
  strength : float
}.

(** [addSignalToHistory(signal)] on [state.signalHistory], for the three
    fields of the signal that it reads. *)
Definition addSignalToHistory (signalHistory : list entry_t) (signal : entry_t)
  : list entry_t :=
  let signalHistory :=
    if (20 <=? length signalHistory)%nat then tl signalHistory else signalHistory in
  signalHistory ++ [ {| timestamp := timestamp signal;
                        type := type signal;
                        strength := strength signal |} ].

End Popup.

(* ================================================================== *)
(** * Notions used to state the properties *)
(* ================================================================== *)

Module Notions.

Import JS Model.
Local Open Scope string_scope.
Local Open Scope list_scope.
Local Open Scope float_scope.
Local Open Scope js_scope.

(** Shapes of the specification of a number. *)
Definition sf_is_nan (x : spec_float) : bool :=
  match x with S754_nan => true | _ => false end.

Definition sf_finite (x : spec_float) : bool :=
  match x with S754_zero _ | S754_finite _ _ _ => true | _ => false end.

(** A zero, a finite number or an infinity of sign [s]. *)
Definition sf_signed (s : bool) (x : spec_float) : Prop :=
  match x with
  | S754_zero s' | S754_infinity s' | S754_finite s' _ _ => s' = s
  | S754_nan => False
  end.

(** A number of at least one, the positive infinity included: the
    mantissa [m] has [Zdigits2 m] bits, so that [m * 2^e >= 1] exactly
    when that count plus [e] is at least one. *)
Definition ge_one (x : spec_float) : Prop :=
  match x with
  | S754_infinity false => True
  | S754_finite false m e => (1 <= Zdigits2 (Zpos m) + e)%Z
  | _ => False
  end.

(** The invariant of the data model on the four prices of a candle:
    [low <= min(open, close) <= max(open, close) <= high]. *)
Definition ohlc_invariant (o h l c : float) : bool :=
  (l <=? Math_min o c) && (Math_min o c <=? Math_max o c) && (Math_max o c <=? h).

(** The four prices of a raw candle are numbers, none of them NaN. *)
Definition numeric_ohlc (candle : DataExtractor.candle) : Prop :=
  exists o h l c,
    DataExtractor.open candle = DataExtractor.Num o /\
    DataExtractor.high candle = DataExtractor.Num h /\
    DataExtractor.low candle = DataExtractor.Num l /\
    DataExtractor.close candle = DataExtractor.Num c /\
    is_nan o = false /\ is_nan h = false /\ is_nan l = false /\ is_nan c = false.

(** The candles read from the elements of the raw data, one for each
    element and whether valid or not, with the timestamp that the loop of
    [normalizeCandleData] has reached at each of them. *)
Fixpoint read_candles (interval : float) (data : list DataExtractor.item)
    (timestamp : float) : result (list DataExtractor.candle) :=
  match data with
  | [] => Ok []
  | it :: rest =>
      candle <- DataExtractor.candle_of_item it timestamp ;;
      candles <- read_candles interval rest (timestamp + interval) ;;
      Ok (candle :: candles)
  end.

(** The request to the model failed: it was rejected, the response was
    not OK, or its body did not decode. *)
Definition request_failed (fetch : fetch_outcome) : Prop :=
  match fetch with
  | Rejected _ => True
  | Response ok _ body => ok = false \/ exists e, body = Throw e
  end.

(** A signal and an outcome that count as a correct signal. *)
Definition counted (signalType result : string) : Prop :=
  (signalType = "buy" \/ signalType = "sell") /\ result = "win".

(** ** Inputs of the examples *)

(** Fifteen closes that go up and down by one in turn. *)
Definition alternating : list float :=
  [1; 2; 1; 2; 1; 2; 1; 2; 1; 2; 1; 2; 1; 2; 1].

(** Three closes, too few for any indicator. *)
Definition three_closes : list float := [1; 2; 3].

(** Twenty-five closes at 0.1, and twenty at one. *)
Definition tenths : list float := repeat 0.1 25.


(** A candle with all four prices at one. *)
Definition flat_candle : candle := Candle.mk 0 1 1 1 1 0.

(** A raw candle whose low is above its high, and the object it is read
    from. *)
Definition inverted : DataExtractor.candle :=
  {| DataExtractor.timestamp := DataExtractor.Num 1000;
     DataExtractor.open := DataExtractor.Num 1;
     DataExtractor.high := DataExtractor.Num 0;
     DataExtractor.low := DataExtractor.Num 5;
     DataExtractor.close := DataExtractor.Num 2;
     DataExtractor.volume := DataExtractor.Num 0 |}.

Definition inverted_item : DataExtractor.item :=
  DataExtractor.ItemObject
    [("timestamp", DataExtractor.Num 1000); ("open", DataExtractor.Num 1);
     ("high", DataExtractor.Num 0); ("low", DataExtractor.Num 5);
     ("close", DataExtractor.Num 2)].

(** A raw candle whose high is NaN, one that has no close, and the
    objects they are read from. *)
Definition nan_high : DataExtractor.candle :=
  {| DataExtractor.timestamp := DataExtractor.Num 2000;
     DataExtractor.open := DataExtractor.Num 1;
     DataExtractor.high := DataExtractor.Num nan;
     DataExtractor.low := DataExtractor.Num 0.5;
     DataExtractor.close := DataExtractor.Num 1.5;
     DataExtractor.volume := DataExtractor.Num 0 |}.

Definition nan_high_item : DataExtractor.item :=
  DataExtractor.ItemObject
    [("timestamp", DataExtractor.Num 2000); ("open", DataExtractor.Num 1);
     ("high", DataExtractor.Num nan); ("low", DataExtractor.Num 0.5);
     ("close", DataExtractor.Num 1.5)].

Definition no_close : DataExtractor.candle :=
  {| DataExtractor.timestamp := DataExtractor.Num 3000;
     DataExtractor.open := DataExtractor.Num 1;
     DataExtractor.high := DataExtractor.Num 2;
     DataExtractor.low := DataExtractor.Num 0.5;
     DataExtractor.close := DataExtractor.Undefined;
     DataExtractor.volume := DataExtractor.Num 0 |}.

Definition no_close_item : DataExtractor.item :=
  DataExtractor.ItemObject
    [("timestamp", DataExtractor.Num 3000); ("open", DataExtractor.Num 1);
     ("high", DataExtractor.Num 2); ("low", DataExtractor.Num 0.5)].
(** A conversion of strings to numbers that knows no numeral; the
    examples hold no string. *)
Definition no_numeral (s : string) : float := nan.

(** A reply of the model whose text is an empty JSON object, and the one
    value of [JSON.parse] that reading it takes. *)
Definition empty_object_body : json :=
  JsonObject
    [("candidates",
      JsonArray
        [JsonObject
           [("content",
             JsonObject
               [("parts", JsonArray [JsonObject [("text", JsonString "{}")]])])]])].

Definition parse_empty_object (text : string) : option json :=
  if String.eqb text "{}" then Some (JsonObject []) else None.

(** A snapshot that holds nothing but a bullish crossover. *)
Definition bullish_indicators : indicators :=
  {| ema := {| ema20 := 0; ema50 := 0; crossover := "bullish" |};
     macd := macd Indicators.getEmptyIndicators;
     rsi := rsi Indicators.getEmptyIndicators;
     bb := bb Indicators.getEmptyIndicators;
     volume := volume Indicators.getEmptyIndicators |}.

(** Sixty candles whose close rises by one from one candle to the next,
    with a constant volume. *)
Definition rising : list candle :=
  map (fun i => let c := n2f i in Candle.mk c (c - 1) (c + 0.5) (c - 1.5) c 100)
      (seq 1 60).

(** An estimate that points nowhere. *)
Definition neutral_estimate : Background.aiAnalysis_t :=
  {| Background.prediction := "neutral"; Background.confidence := 0.5 |}.

(** An estimate that points up with a confidence of 0.8. *)
Definition confident_up : Background.aiAnalysis_t :=
  {| Background.prediction := "up"; Background.confidence := 0.8 |}.

(** ** Notions for the data extractor *)

(** A row [[timestamp, open, high, low, close]] of numbers, the element
    of the raw data that holds it and the candle it stands for; no volume
    comes with it. *)
Definition row : Type := (float * float * float * float * float)%type.

Definition row_item (r : row) : DataExtractor.item :=
  let '(t, o, h, l, c) := r in
  DataExtractor.ItemArray
    [DataExtractor.Num t; DataExtractor.Num o; DataExtractor.Num h;
     DataExtractor.Num l; DataExtractor.Num c].

Definition row_candle (r : row) : DataExtractor.candle :=
  let '(t, o, h, l, c) := r in
  {| DataExtractor.timestamp := DataExtractor.Num t;
     DataExtractor.open := DataExtractor.Num o;
     DataExtractor.high := DataExtractor.Num h;
     DataExtractor.low := DataExtractor.Num l;
     DataExtractor.close := DataExtractor.Num c;
     DataExtractor.volume := DataExtractor.Num 0 |}.

(** The timestamp of the row is a number other than zero, and none of
    its prices is NaN. *)
Definition row_ok (r : row) : bool :=
  let '(t, o, h, l, c) := r in
  truthy t && negb (is_nan o) && negb (is_nan h) && negb (is_nan l) && negb (is_nan c).

(** ** Notions for the replies of the model *)

(** The character [c] occurs in [s]. *)
Fixpoint occurs (c : ascii) (s : string) : bool :=
  match s with
  | EmptyString => false
  | String c' rest => Ascii.eqb c' c || occurs c rest
  end.

(** [result.candidates[0].content.parts[0].text], the text of a reply of
    the model: it throws when a step of the path reads [undefined] or
    [null], and is [undefined] when the last object has no text. *)
Definition reply_text (result : json) : JS.result JS.value :=
  candidates <- prop (Some result) "candidates" ;;
  candidate <- first candidates ;;
  content <- prop candidate "content" ;;
  parts <- prop content "parts" ;;
  part <- first parts ;;
  prop part "text".

(** A body of the shape the model answers with, holding [text]. *)
Definition body_with_text (text : string) : json :=
  JsonObject
    [("candidates",
      JsonArray
        [JsonObject
           [("content",
             JsonObject
               [("parts", JsonArray [JsonObject [("text", JsonString text)]])])]])].

(** [matched] is what stands in [text] from its first opening brace to
    its last closing brace, the two braces included. *)
Definition braced (text matched : string) : Prop :=
  exists before inner after,
    text = (before ++ "{" ++ inner ++ "}" ++ after)%string /\
    matched = ("{" ++ inner ++ "}")%string /\
    occurs "{" before = false /\ occurs "}" after = false.

(** The reply of the AI module without its source, as background.js
    builds it. *)
Definition without_source (reply : AIAnalysis.reply_t) : Background.reply_t :=
  {| Background.reply_prediction := AIAnalysis.reply_prediction reply;
     Background.reply_confidence := AIAnalysis.reply_confidence reply |}.

(** The estimate that the scorer reads from a prediction of the
    fallback: its prediction and its confidence. *)
Definition as_estimate (p : AIAnalysis.prediction_t) : Background.aiAnalysis_t :=
  {| Background.prediction := AIAnalysis.prediction p;
     Background.confidence := AIAnalysis.confidence p |}.

(** ** Notions for the accuracy tracker *)

(** The state after a series of calls of [trackSignalAccuracy], each
    given as the pair of its arguments. *)
Definition record_all (state : Background.state_t) (calls : list (string * string))
  : Background.state_t :=
  fold_left
    (fun state call => fst (Background.trackSignalAccuracy state (fst call) (snd call)))
    calls state.

(** A call that records a correct signal: a buy or a sell, won. *)
Definition is_counted (call : string * string) : bool :=
  (String.eqb (fst call) "buy" || String.eqb (fst call) "sell") &&
  String.eqb (snd call) "win".

(** ** More inputs of the examples *)

(** The closes 1, 2, ..., 15, the closes 19, 18, ..., 5 and the closes
    1, 2, ..., 30. *)
Definition rising_closes : list float := map n2f (seq 1 15).

Definition falling_closes : list float := map (fun i => n2f (20 - i)) (seq 1 15).

Definition thirty_closes : list float := map n2f (seq 1 30).

(** A candle that closes where it opened, between a low and a high, and
    five candles of which it is the last. *)
Definition doji_candle : candle := Candle.mk 0 1 2 0.5 1 0.

Definition ending_in_doji : list candle :=
  [flat_candle; flat_candle; flat_candle; flat_candle; doji_candle].

(** A snapshot in which every category points up. *)
Definition all_bullish : indicators :=
  {| ema := {| ema20 := 0; ema50 := 0; crossover := "bullish" |};
     macd := {| line := 0; signal := 0; histogram := 2; previousHistogram := 1 |};
     rsi := {| value := 20 |};
     bb := {| upper := 0; middle := 0; lower := 0; width := 0; position := "lower" |};
     volume := {| current := 0; average := 0; trend := "increasing" |} |}.

(** Two rows of raw data. *)
Definition two_rows : list row := [(1000, 1, 2, 0.5, 1.5); (2000, 1.5, 3, 1, 2)].

(** The double quote, and a word between double quotes. *)
Definition double_quote : string := String "034"%char EmptyString.

Definition quoted (word : string) : string :=
  (double_quote ++ word ++ double_quote)%string.

(** The JSON text of an object that predicts up with a confidence of
    zero: an opening brace, the key prediction and the string up, a comma,
    the key confidence and the numeral 0, a closing brace, every key and
    string between double quotes. *)
Definition zero_confidence_text : string :=
  ("{" ++ quoted "prediction" ++ ":" ++ quoted "up" ++ ","
       ++ quoted "confidence" ++ ":0}")%string.

(** A reply of the model whose text is that object, and the one value of
    [JSON.parse] that reading it takes. *)
Definition zero_confidence_body : json :=
  JsonObject
    [("candidates",
      JsonArray
        [JsonObject
           [("content",
             JsonObject
               [("parts",
                 JsonArray [JsonObject [("text", JsonString zero_confidence_text)]])])]])].

Definition parse_zero_confidence (text : string) : option json :=
  if String.eqb text zero_confidence_text
  then Some (JsonObject [("prediction", JsonString "up"); ("confidence", JsonNumber 0)])
  else None.

End Notions.

(* ================================================================== *)
(** * Facts about binary64 arithmetic *)
(* ================================================================== *)

(** The facts below are read off the specification of the primitive
    operations: [Prim2SF] and the [_spec] statements of the library. *)

(** Linear arithmetic over the exponents of binary64. *)
Ltac fexp_lia := unfold fexp, emin, prec, emax in *; lia.

(** ** Rounding *)

Section Rounding.

Import Notions.
Local Open Scope Z_scope.

(** The number of bits of a mantissa, [Zdigits2], is one more than its
    binary logarithm; it grows with the mantissa, by one at most when one
    is added, and by [s] when the mantissa is shifted left by [s]. *)
Lemma digits2_pos_log2 p : Zpos (digits2_pos p) = Z.log2 (Zpos p) + 1.
Proof.
  destruct p as [p|p|]; simpl; try reflexivity;
    rewrite Pos2Z.inj_succ; f_equal;
    (induction p as [p IH|p IH|]; simpl; [| |reflexivity];
     rewrite ?Pos2Z.inj_succ; lia).
Qed.

Lemma Zdigits2_log2 m : 0 < m -> Zdigits2 m = Z.log2 m + 1.
Proof.
  destruct m as [|p|p]; try lia. intros _. apply digits2_pos_log2.
Qed.

Lemma Zdigits2_nonneg m : 0 <= Zdigits2 m.
Proof. destruct m; simpl; lia. Qed.

Lemma Zdigits2_pos m : 0 < m -> 0 < Zdigits2 m.
Proof. destruct m; simpl; lia. Qed.

Lemma Zdigits2_mono a b : 0 <= a <= b -> Zdigits2 a <= Zdigits2 b.
Proof.
  intros [Ha Hab]. destruct (Z.eq_dec a 0) as [->|Hne].
  - apply Zdigits2_nonneg.
  - rewrite !Zdigits2_log2 by lia. pose proof (Z.log2_le_mono a b Hab). lia.
Qed.

Lemma Zdigits2_succ a : 0 <= a -> Zdigits2 (a + 1) <= Zdigits2 a + 1.
Proof.
  intros Ha. destruct (Z.eq_dec a 0) as [->|Hne]; [simpl; lia|].
  rewrite !Zdigits2_log2 by lia.
  pose proof (Z.log2_succ_le a). unfold Z.succ in *. lia.
Qed.

Lemma shiftl_positive m s : 0 < m -> 0 <= s -> 0 < Z.shiftl m s.
Proof.
  intros Hm Hs. rewrite Z.shiftl_mul_pow2 by lia.
  apply Z.mul_pos_pos; [lia | apply Z.pow_pos_nonneg; lia].
Qed.

Lemma Zdigits2_shiftl m s : 0 < m -> 0 <= s -> Zdigits2 (Z.shiftl m s) = Zdigits2 m + s.
Proof.
  intros Hm Hs. pose proof (shiftl_positive m s Hm Hs).
  rewrite !Zdigits2_log2 by lia. rewrite Z.log2_shiftl by lia. lia.
Qed.

Lemma iter_xO_shiftl m d : Zpos (Pos.iter xO m d) = Z.shiftl (Zpos m) (Zpos d).
Proof.
  rewrite Z.shiftl_mul_pow2 by lia.
  induction d as [|d IH] using Pos.peano_ind.
  - simpl. lia.
  - rewrite Pos.iter_succ, Pos2Z.inj_xO, IH, Pos2Z.inj_succ, Z.pow_succ_r by lia. lia.
Qed.

Lemma Zdigits2_iter_xO m d :
  Zdigits2 (Zpos (Pos.iter xO m d)) = Zdigits2 (Zpos m) + Zpos d.
Proof. rewrite iter_xO_shiftl. apply Zdigits2_shiftl; lia. Qed.

(** Shifting a mantissa right by one bit takes one bit off it, and by [n]
    bits [n] of them. *)
Lemma shr_1_digits mrs :
  0 <= shr_m mrs ->
  0 <= shr_m (shr_1 mrs) /\
  Zdigits2 (shr_m (shr_1 mrs)) = Z.max 0 (Zdigits2 (shr_m mrs) - 1).
Proof.
  destruct mrs as [m r s]. cbn [shr_m]. intros Hm.
  destruct m as [|p|p]; try lia; [cbn; lia|].
  destruct p as [p|p|]; cbn [shr_1 shr_m Zdigits2 digits2_pos];
    rewrite ?Pos2Z.inj_succ; lia.
Qed.

Lemma iter_shr_1_digits p mrs :
  0 <= shr_m mrs ->
  0 <= shr_m (iter_pos shr_1 p mrs) /\
  Zdigits2 (shr_m (iter_pos shr_1 p mrs)) = Z.max 0 (Zdigits2 (shr_m mrs) - Zpos p).
Proof.
  revert mrs. induction p as [p IH|p IH|]; intros mrs Hm; simpl.
  - destruct (shr_1_digits mrs Hm) as [H1 E1].
    destruct (IH _ H1) as [H2 E2]. destruct (IH _ H2) as [H3 E3].
    split; [assumption|]. rewrite E3, E2, E1.
    pose proof (Zdigits2_nonneg (shr_m mrs)). lia.
  - destruct (IH _ Hm) as [H2 E2]. destruct (IH _ H2) as [H3 E3].
    split; [assumption|]. rewrite E3, E2.
    pose proof (Zdigits2_nonneg (shr_m mrs)). lia.
  - apply shr_1_digits, Hm.
Qed.

(** What [shr_fexp] does to the exponent and to the number of bits. *)
Lemma shr_fexp_digits m e l :
  0 <= m ->
  let n := fexp prec emax (Zdigits2 m + e) - e in
  let '(mrs, e') := shr_fexp prec emax m e l in
  0 <= shr_m mrs /\
  e' = Z.max e (e + n) /\
  Zdigits2 (shr_m mrs) = (if 0 <? n then Z.max 0 (Zdigits2 m - n) else Zdigits2 m).
Proof.
  intros Hm n. unfold shr_fexp, shr. fold n.
  assert (Hrec : shr_m (shr_record_of_loc m l) = m) by (destruct l as [|[]]; reflexivity).
  destruct n as [|p|p] eqn:En.
  - rewrite Hrec. simpl. repeat split; lia.
  - destruct (iter_shr_1_digits p (shr_record_of_loc m l)) as [H1 E1]; [rewrite Hrec; lia|].
    rewrite Hrec in E1. repeat split; [assumption | lia | exact E1].
  - rewrite Hrec. simpl. repeat split; lia.
Qed.

Lemma round_nearest_even_bounds m l :
  0 <= m -> m <= round_nearest_even m l <= m + 1.
Proof.
  intros H. unfold round_nearest_even. destruct l as [|[]]; try lia.
  destruct (Z.even m); lia.
Qed.

(** Rounding a mantissa that is not negative never gives NaN: it gives a
    zero, a finite number or an infinity of the sign asked for. *)
Lemma binary_round_aux_signed sx mx ex lx :
  0 <= mx -> sf_signed sx (binary_round_aux prec emax sx mx ex lx).
Proof.
  intros Hm. unfold binary_round_aux.
  pose proof (shr_fexp_digits mx ex lx Hm) as H1. cbv zeta in H1.
  destruct (shr_fexp prec emax mx ex lx) as [mrs' e'].
  destruct H1 as (Hm1 & _ & _).
  pose proof (round_nearest_even_bounds (shr_m mrs') (loc_of_shr_record mrs') Hm1) as Hr.
  set (m2 := round_nearest_even (shr_m mrs') (loc_of_shr_record mrs')) in *.
  pose proof (shr_fexp_digits m2 e' loc_Exact ltac:(lia)) as H2. cbv zeta in H2.
  destruct (shr_fexp prec emax m2 e' loc_Exact) as [mrs'' e''].
  destruct H2 as (Hm2 & _ & _).
  destruct (shr_m mrs'') as [|p|p]; try lia; [reflexivity|].
  destruct (Z.leb e'' (emax - prec)); reflexivity.
Qed.

(** Rounding a mantissa that is not too large gives a zero or a finite
    number. *)
Lemma binary_round_aux_finite sx mx ex lx :
  0 <= mx -> Zdigits2 mx + ex <= 1022 -> ex <= 971 ->
  sf_finite (binary_round_aux prec emax sx mx ex lx) = true.
Proof.
  intros Hm HD He. unfold binary_round_aux.
  pose proof (shr_fexp_digits mx ex lx Hm) as H1. cbv zeta in H1.
  destruct (shr_fexp prec emax mx ex lx) as [mrs' e'].
  destruct H1 as (Hm1 & He1 & Hd1).
  pose proof (round_nearest_even_bounds (shr_m mrs') (loc_of_shr_record mrs') Hm1) as Hr.
  set (m2 := round_nearest_even (shr_m mrs') (loc_of_shr_record mrs')) in *.
  assert (Hd2 : Zdigits2 m2 <= Zdigits2 (shr_m mrs') + 1).
  { transitivity (Zdigits2 (shr_m mrs' + 1));
      [apply Zdigits2_mono; lia | apply Zdigits2_succ; lia]. }
  pose proof (shr_fexp_digits m2 e' loc_Exact ltac:(lia)) as H2. cbv zeta in H2.
  destruct (shr_fexp prec emax m2 e' loc_Exact) as [mrs'' e''].
  destruct H2 as (Hm2 & He2 & _).
  pose proof (Zdigits2_nonneg mx).
  assert (Hsum : Zdigits2 (shr_m mrs') + e' <= 1022).
  { destruct (0 <? fexp prec emax (Zdigits2 mx + ex) - ex) eqn:E;
      [apply Z.ltb_lt in E | apply Z.ltb_ge in E]; fexp_lia. }
  assert (He'' : e'' <= 971) by fexp_lia.
  destruct (shr_m mrs'') as [|p|p]; try lia; try reflexivity.
  destruct (Z.leb_spec e'' (emax - prec)) as [_|Hgt]; [reflexivity|].
  unfold prec, emax in *. lia.
Qed.

(** Rounding a mantissa that stands for a number of at least one gives a
    number of at least one, or the positive infinity. *)
Lemma binary_round_aux_ge_one mx ex lx :
  0 < mx -> 1 <= Zdigits2 mx + ex ->
  ge_one (binary_round_aux prec emax false mx ex lx).
Proof.
  intros Hm HD. unfold binary_round_aux.
  pose proof (shr_fexp_digits mx ex lx ltac:(lia)) as H1. cbv zeta in H1.
  destruct (shr_fexp prec emax mx ex lx) as [mrs' e'].
  destruct H1 as (Hm1 & He1 & Hd1).
  pose proof (Zdigits2_pos mx Hm) as Hdpos.
  assert (Hsum1 : Zdigits2 (shr_m mrs') + e' = Zdigits2 mx + ex /\ 1 <= Zdigits2 (shr_m mrs')).
  { destruct (0 <? fexp prec emax (Zdigits2 mx + ex) - ex) eqn:E;
      [apply Z.ltb_lt in E | apply Z.ltb_ge in E]; fexp_lia. }
  destruct Hsum1 as [Hsum1 Hd1pos].
  pose proof (round_nearest_even_bounds (shr_m mrs') (loc_of_shr_record mrs') Hm1) as Hr.
  set (m2 := round_nearest_even (shr_m mrs') (loc_of_shr_record mrs')) in *.
  assert (Hd2 : Zdigits2 (shr_m mrs') <= Zdigits2 m2 <= Zdigits2 (shr_m mrs') + 1).
  { split; [apply Zdigits2_mono; lia|].
    transitivity (Zdigits2 (shr_m mrs' + 1));
      [apply Zdigits2_mono; lia | apply Zdigits2_succ; lia]. }
  pose proof (shr_fexp_digits m2 e' loc_Exact ltac:(lia)) as H2. cbv zeta in H2.
  destruct (shr_fexp prec emax m2 e' loc_Exact) as [mrs'' e''].
  destruct H2 as (Hm2 & He2 & Hd2').
  assert (Hfinal : 1 <= Zdigits2 (shr_m mrs'') + e'' /\ 1 <= Zdigits2 (shr_m mrs'')).
  { destruct (0 <? fexp prec emax (Zdigits2 m2 + e') - e') eqn:E;
      [apply Z.ltb_lt in E | apply Z.ltb_ge in E]; fexp_lia. }
  destruct Hfinal as [Hf1 Hf2].
  destruct (shr_m mrs'') as [|p|p]; try (simpl in Hf2; lia).
  destruct (Z.leb e'' (emax - prec)); simpl; [exact Hf1 | exact I].
Qed.

(** Aligning a mantissa on a smaller exponent keeps the number it stands
    for. *)
Lemma shl_align_digits m e e0 :
  Zdigits2 (Zpos (fst (shl_align m e e0))) + snd (shl_align m e e0)
  = Zdigits2 (Zpos m) + e.
Proof.
  unfold shl_align. destruct (e0 - e) as [|d|d] eqn:E; cbn [fst snd]; try reflexivity.
  rewrite Zdigits2_iter_xO. lia.
Qed.

Lemma shl_align_snd m e e0 : e0 <= e -> snd (shl_align m e e0) = e0.
Proof.
  intros H. unfold shl_align. destruct (e0 - e) as [|d|d] eqn:E; cbn [snd]; lia.
Qed.

Lemma binary_round_signed sx m e :
  sf_signed sx (binary_round prec emax sx m e).
Proof.
  unfold binary_round. destruct (shl_align _ _ _) as [mz ez].
  apply binary_round_aux_signed. lia.
Qed.

Lemma binary_normalize_nonneg z e :
  0 <= z -> sf_signed false (binary_normalize prec emax z e false).
Proof.
  intros Hz. unfold binary_normalize.
  destruct z as [|p|p]; try lia; [reflexivity | apply binary_round_signed].
Qed.

Lemma binary_normalize_not_nan m e szero :
  sf_is_nan (binary_normalize prec emax m e szero) = false.
Proof.
  unfold binary_normalize.
  destruct m as [|p|p]; try reflexivity;
    match goal with
    | |- sf_is_nan (binary_round _ _ ?s _ _) = false =>
        pose proof (binary_round_signed s p e) as H;
        destruct (binary_round prec emax s p e); [reflexivity .. | contradiction | reflexivity]
    end.
Qed.

Lemma binary_round_ge_one m e :
  1 <= Zdigits2 (Zpos m) + e -> ge_one (binary_round prec emax false m e).
Proof.
  intros H. unfold binary_round.
  pose proof (shl_align_digits m e (fexp prec emax (Zpos (digits2_pos m) + e))) as Hs.
  destruct (shl_align m e _) as [mz ez]. cbn [fst snd] in Hs.
  apply binary_round_aux_ge_one; [lia | rewrite Hs; exact H].
Qed.

End Rounding.

(** ** Comparisons *)

Section Comparisons.

Import Notions.
Local Open Scope float_scope.

(** The comparison of the specification is reflexive and antisymmetric,
    and defined on all numbers but NaN. *)
Lemma SFcompare_refl x : sf_is_nan x = false -> SFcompare x x = Some Eq.
Proof.
  destruct x as [s|s| |s m e]; simpl; try discriminate; intros _.
  - reflexivity.
  - destruct s; reflexivity.
  - destruct s; rewrite Z.compare_refl, Pos.compare_cont_refl; reflexivity.
Qed.

Lemma SFcompare_antisym x y :
  SFcompare y x = option_map CompOpp (SFcompare x y).
Proof.
  destruct x as [sx|sx| |sx mx ex], y as [sy|sy| |sy my ey]; simpl;
    try reflexivity;
    try (destruct sx; reflexivity); try (destruct sy; reflexivity);
    try (destruct sx, sy; reflexivity).
  assert (HP : Pos.compare_cont Eq my mx = CompOpp (Pos.compare_cont Eq mx my))
    by (rewrite Pos.compare_cont_antisym; reflexivity).
  destruct sx, sy; simpl; try reflexivity;
    rewrite (Z.compare_antisym ex ey), HP; destruct (ex ?= ey)%Z; simpl; try reflexivity;
    destruct (Pos.compare_cont Eq mx my); reflexivity.
Qed.

Lemma SFcompare_defined x y :
  sf_is_nan x = false -> sf_is_nan y = false -> SFcompare x y <> None.
Proof.
  destruct x as [sx|sx| |sx mx ex], y as [sy|sy| |sy my ey]; simpl; congruence.
Qed.

(** [is_nan] and [is_finite] in terms of the specification. *)
Lemma is_nan_spec x : is_nan x = sf_is_nan (Prim2SF x).
Proof.
  unfold is_nan. rewrite eqb_spec. unfold SFeqb.
  destruct (sf_is_nan (Prim2SF x)) eqn:E.
  - destruct (Prim2SF x); try discriminate. reflexivity.
  - rewrite SFcompare_refl by assumption. reflexivity.
Qed.

Lemma is_finite_spec x : is_finite x = sf_finite (Prim2SF x).
Proof.
  unfold is_finite, is_infinity. rewrite is_nan_spec, eqb_spec, abs_spec.
  change (Prim2SF infinity) with (S754_infinity false).
  destruct (Prim2SF x) as [s|s| |s m e]; reflexivity.
Qed.

Lemma is_finite_not_nan x : is_finite x = true -> is_nan x = false.
Proof.
  rewrite is_finite_spec, is_nan_spec. destruct (Prim2SF x); simpl; congruence.
Qed.

Lemma ltb_leb x y : (x <? y) = true -> (x <=? y) = true.
Proof.
  rewrite ltb_spec, leb_spec. unfold SFltb, SFleb.
  destruct (SFcompare _ _) as [[]|]; congruence.
Qed.

Lemma not_ltb_leb x y :
  is_nan x = false -> is_nan y = false ->
  (x <? y) = false -> (y <? x) = false -> (x <=? y) = true.
Proof.
  rewrite !is_nan_spec, !ltb_spec, leb_spec. unfold SFltb, SFleb.
  intros Hx Hy. pose proof (SFcompare_defined _ _ Hx Hy) as Hc.
  rewrite (SFcompare_antisym (Prim2SF x) (Prim2SF y)).
  destruct (SFcompare (Prim2SF x) (Prim2SF y)) as [[]|]; simpl; congruence.
Qed.

(** No number is both below a negative bound and above a positive one. *)
Lemma ltb_negative_positive x lo hi mlo elo mhi ehi :
  Prim2SF lo = S754_finite true mlo elo ->
  Prim2SF hi = S754_finite false mhi ehi ->
  (x <? lo) = true -> (hi <? x) = false.
Proof.
  intros Hlo Hhi. rewrite !ltb_spec, Hlo, Hhi. unfold SFltb.
  destruct (Prim2SF x) as [s|s| |s m e]; cbn [SFcompare];
    try discriminate; destruct s; congruence.
Qed.

Lemma abs_nonneg x : is_nan x = false -> (0 <=? abs x) = true.
Proof.
  rewrite is_nan_spec, leb_spec, abs_spec.
  change (Prim2SF 0) with (S754_zero false).
  destruct (Prim2SF x) as [s|s| |s m e]; simpl; try discriminate; reflexivity.
Qed.

Lemma abs_not_nan x : is_nan x = false -> is_nan (abs x) = false.
Proof.
  rewrite !is_nan_spec, abs_spec.
  destruct (Prim2SF x); simpl; congruence.
Qed.

(** Equality of numbers ([===]) with a finite nonzero number is identity;
    with a zero it only says that the other number is a zero too. *)
Lemma SFeqb_finite_eq x s m e :
  SFeqb x (S754_finite s m e) = true -> x = S754_finite s m e.
Proof.
  unfold SFeqb.
  destruct x as [sx|sx| |sx mx ex]; cbn [SFcompare]; try discriminate.
  - destruct s; discriminate.
  - destruct sx; discriminate.
  - destruct sx, s; try discriminate;
      destruct (Z.compare_spec ex e) as [->| |]; try discriminate;
      destruct (Pos.compare_cont Eq mx m) eqn:Hm; try discriminate;
      apply Pos.compare_eq in Hm; subst; reflexivity.
Qed.

Lemma SFeqb_zero_shape x s :
  SFeqb x (S754_zero s) = true -> exists sx, x = S754_zero sx.
Proof.
  unfold SFeqb.
  destruct x as [sx|sx| |sx mx ex]; cbn [SFcompare]; try discriminate.
  - eauto.
  - destruct sx; discriminate.
  - destruct sx; discriminate.
Qed.

(** [Math.min(a, 100)] of a number that is not negative. *)
Lemma Math_min_hundred a :
  is_nan a = false -> (0 <=? a) = true ->
  (0 <=? JS.Math_min a 100) = true /\ (JS.Math_min a 100 <=? 100) = true.
Proof.
  intros Hnan Hpos. unfold JS.Math_min. rewrite Hnan.
  change (is_nan 100) with false. cbn [orb].
  destruct (a <? 100) eqn:Hlt.
  - split; [assumption | apply ltb_leb, Hlt].
  - destruct (100 <? a) eqn:Hgt.
    + split; reflexivity.
    + destruct (get_sign a).
      * split; [assumption | apply not_ltb_leb; auto].
      * split; reflexivity.
Qed.

End Comparisons.

(** ** Sums, products and quotients *)

Section Operations.

Import Notions.
Local Open Scope float_scope.

(** A finite number plus or minus a number, and a finite nonzero number
    times a number, are numbers. *)
Lemma SF64add_not_nan x y :
  sf_finite x = true -> sf_is_nan y = false -> sf_is_nan (SF64add x y) = false.
Proof.
  unfold SF64add, SFadd.
  destruct x as [sx|sx| |sx mx ex], y as [sy|sy| |sy my ey]; simpl;
    try discriminate; intros _ _; try reflexivity.
  - destruct sx, sy; reflexivity.
  - apply binary_normalize_not_nan.
Qed.

Lemma SF64sub_not_nan x y :
  sf_finite x = true -> sf_is_nan y = false -> sf_is_nan (SF64sub x y) = false.
Proof.
  unfold SF64sub, SFsub.
  destruct x as [sx|sx| |sx mx ex], y as [sy|sy| |sy my ey]; simpl;
    try discriminate; intros _ _; try reflexivity.
  - destruct sx, sy; reflexivity.
  - apply binary_normalize_not_nan.
Qed.

Lemma SF64mul_not_nan sx mx ex y :
  sf_is_nan y = false -> sf_is_nan (SF64mul (S754_finite sx mx ex) y) = false.
Proof.
  unfold SF64mul, SFmul.
  destruct y as [sy|sy| |sy my ey]; simpl; try discriminate; intros _; try reflexivity.
  match goal with
  | |- sf_is_nan (binary_round_aux _ _ ?s ?m ?e ?l) = false =>
      pose proof (binary_round_aux_signed s m e l ltac:(lia)) as H;
      destruct (binary_round_aux prec emax s m e l);
      [reflexivity .. | contradiction | reflexivity]
  end.
Qed.

Lemma add_not_nan x y :
  is_finite x = true -> is_nan y = false -> is_nan (x + y) = false.
Proof.
  rewrite is_finite_spec, !is_nan_spec, add_spec. apply SF64add_not_nan.
Qed.

Lemma sub_not_nan x y :
  is_finite x = true -> is_nan y = false -> is_nan (x - y) = false.
Proof.
  rewrite is_finite_spec, !is_nan_spec, sub_spec. apply SF64sub_not_nan.
Qed.

Lemma mul_twenty_not_nan y : is_nan y = false -> is_nan (20 * y) = false.
Proof.
  rewrite !is_nan_spec, mul_spec.
  assert (H20 : Prim2SF 20 = S754_finite false 5629499534213120 (-48)) by reflexivity.
  rewrite H20. apply SF64mul_not_nan.
Qed.

Local Open Scope Z_scope.

(** A number that is not negative, plus one, is at least one. *)
Lemma SF64add_one_ge_one x :
  sf_signed false x -> ge_one (SF64add x (S754_finite false 4503599627370496 (-52))).
Proof.
  unfold SF64add, SFadd.
  destruct x as [[]|[]| |[] mx ex]; cbn [sf_signed]; intros Hs;
    try discriminate Hs; try (exfalso; exact Hs); clear Hs.
  - cbn. lia.
  - exact I.
  - set (ez := Z.min ex (-52)).
    pose proof (shl_align_digits 4503599627370496 (-52) ez) as Hb.
    rewrite (shl_align_snd 4503599627370496 (-52) ez) in Hb by (unfold ez; lia).
    cbn [cond_Zopp].
    set (a := fst (shl_align mx ex ez)) in *.
    set (b := fst (shl_align 4503599627370496 (-52) ez)) in *.
    change (Zpos a + Zpos b) with (Zpos (a + b)). cbn [binary_normalize].
    apply binary_round_ge_one.
    assert (Zdigits2 (Zpos b) <= Zdigits2 (Zpos (a + b)))
      by (apply Zdigits2_mono; lia).
    change (Zdigits2 (Zpos 4503599627370496)) with 53 in Hb. lia.
Qed.

(** The quotient of two mantissas, before it is rounded. *)
Lemma SFdiv_core_binary_bounds m1 e1 m2 e2 :
  let '(q, e', l) := SFdiv_core_binary prec emax (Zpos m1) e1 (Zpos m2) e2 in
  0 <= q /\ Zdigits2 q + e' <= Zdigits2 (Zpos m1) + e1 - e2 /\ e' <= e1 - e2.
Proof.
  unfold SFdiv_core_binary.
  remember (Z.min (fexp prec emax (Zdigits2 (Zpos m1) + e1 - (Zdigits2 (Zpos m2) + e2)))
                  (e1 - e2)) as e' eqn:Ee'.
  assert (He' : e' <= e1 - e2) by lia.
  remember (e1 - e2 - e') as s eqn:Es.
  remember (match s with
            | Z0 => Zpos m1
            | Zpos _ => Z.shiftl (Zpos m1) s
            | Zneg _ => 0
            end) as m' eqn:Em'.
  assert (Hm' : 0 < m' /\ Zdigits2 m' = Zdigits2 (Zpos m1) + s).
  { destruct s as [|p|p]; try lia; subst m'.
    - split; lia.
    - split; [apply shiftl_positive; lia | apply Zdigits2_shiftl; lia]. }
  destruct Hm' as [Hpos Hdig].
  destruct (Z.div_eucl m' (Zpos m2)) as [q r] eqn:E.
  assert (Hq : q = m' / Zpos m2) by (unfold Z.div; rewrite E; reflexivity).
  assert (Hq0 : 0 <= q) by (rewrite Hq; apply Z.div_pos; lia).
  assert (Hqm : q <= m') by (rewrite Hq; apply Z.div_le_upper_bound; nia).
  pose proof (Zdigits2_mono q m' (conj Hq0 Hqm)).
  repeat split; lia.
Qed.

(** Two divided by a number of at least one is finite. *)
Lemma SF64div_two_finite y :
  SpecFloat.valid_binary prec emax y = true -> ge_one y ->
  sf_finite (SF64div (S754_finite false 4503599627370496 (-51)) y) = true.
Proof.
  unfold SF64div, SFdiv.
  destruct y as [[]|[]| |[] my ey]; cbn [ge_one]; try contradiction; intros Hv Hy.
  - reflexivity.
  - pose proof (SFdiv_core_binary_bounds 4503599627370496 (-51) my ey) as Hb.
    destruct (SFdiv_core_binary prec emax _ _ _ _) as [[mz ez] lz].
    destruct Hb as (Hq & Hd & He).
    change (Zdigits2 (Zpos 4503599627370496)) with 53 in Hd.
    cbn [SpecFloat.valid_binary] in Hv. unfold bounded, canonical_mantissa in Hv.
    apply andb_true_iff in Hv. destruct Hv as [Hc _]. apply Z.eqb_eq in Hc.
    assert (Hey : -52 <= ey).
    { change (Zdigits2 (Zpos my)) with (Zpos (digits2_pos my)) in Hy. fexp_lia. }
    apply binary_round_aux_finite; lia.
Qed.

Local Open Scope float_scope.

(** The smoothing factor of the EMA is a finite number, whatever the
    period. *)
Lemma multiplier_finite (period : nat) :
  is_finite (2 / (JS.n2f period + 1)) = true.
Proof.
  rewrite is_finite_spec, div_spec.
  assert (H2 : Prim2SF 2 = S754_finite false 4503599627370496 (-51)) by reflexivity.
  rewrite H2. apply SF64div_two_finite; [apply Prim2SF_valid|].
  rewrite add_spec.
  assert (H1 : Prim2SF 1 = S754_finite false 4503599627370496 (-52)) by reflexivity.
  rewrite H1. apply SF64add_one_ge_one.
  unfold JS.n2f. rewrite of_uint63_spec. apply binary_normalize_nonneg.
  apply Uint63.to_Z_bounded.
Qed.

End Operations.

(* ================================================================== *)
(** * Facts about arrays *)
(* ================================================================== *)

Section Arrays.

Import JS.
Local Open Scope list_scope.
Local Open Scope float_scope.

Lemma at_back_last (l : list float) (x : float) : at_back (l ++ [x]) 1 = x.
Proof.
  unfold at_back, get. rewrite length_app.
  replace (length l + length [x])%nat with (S (length l)) by (simpl; lia).
  cbn [Nat.leb]. replace (S (length l) - 1)%nat with (length l) by lia.
  apply nth_middle.
Qed.

Lemma at_back_get (l : list float) :
  (1 <= length l)%nat -> at_back l 1 = get l (length l - 1).
Proof.
  intros H. unfold at_back. destruct (Nat.leb_spec 1 (length l)); [reflexivity | lia].
Qed.

Lemma at_back_map_seq (f : nat -> float) (n : nat) :
  (1 <= n)%nat -> at_back (map f (seq 0 n)) 1 = f (n - 1)%nat.
Proof.
  intros H. unfold at_back, get. rewrite length_map, length_seq.
  destruct (Nat.leb_spec 1 n) as [_|]; [|lia].
  rewrite (nth_indep _ nan (f 0%nat)) by (rewrite length_map, length_seq; lia).
  rewrite map_nth, seq_nth by lia. reflexivity.
Qed.

Lemma firstn_repeat_le {A : Type} (x : A) (p n : nat) :
  (p <= n)%nat -> firstn p (repeat x n) = repeat x p.
Proof.
  intros H. replace n with (p + (n - p))%nat by lia.
  rewrite repeat_app, firstn_app, repeat_length, Nat.sub_diag. simpl.
  rewrite app_nil_r. rewrite <- (repeat_length x p) at 1. apply firstn_all.
Qed.

Lemma skipn_repeat_le {A : Type} (x : A) (p n : nat) :
  (p <= n)%nat -> skipn p (repeat x n) = repeat x (n - p).
Proof.
  intros H. replace n with (p + (n - p))%nat at 1 by lia.
  rewrite repeat_app, skipn_app, repeat_length, Nat.sub_diag. simpl.
  rewrite <- (repeat_length x p) at 1. rewrite skipn_all. reflexivity.
Qed.

Lemma at_back_two_map_seq (f : nat -> float) (n : nat) :
  (2 <= n)%nat -> at_back (map f (seq 0 n)) 2 = f (n - 2)%nat.
Proof.
  intros H. unfold at_back, get. rewrite length_map, length_seq.
  destruct (Nat.leb_spec 2 n) as [_|]; [|lia].
  rewrite (nth_indep _ nan (f 0%nat)) by (rewrite length_map, length_seq; lia).
  rewrite map_nth, seq_nth by lia. reflexivity.
Qed.

Lemma at_back_zeros {A : Type} (l : list A) :
  (1 <= length l)%nat -> at_back (map (fun _ => 0) l) 1 = 0.
Proof.
  intros H. unfold at_back, get. rewrite length_map.
  destruct (Nat.leb_spec 1 (length l)) as [_|]; [|lia].
  rewrite (nth_indep _ nan 0) by (rewrite length_map; lia).
  destruct l as [|a l]; [simpl in H; lia|].
  rewrite (map_nth (fun _ => 0) (a :: l) a). reflexivity.
Qed.

Lemma get_repeat (v : float) (k i : nat) : (i < k)%nat -> get (repeat v k) i = v.
Proof.
  intros H. unfold get. rewrite (nth_indep _ nan v) by (rewrite repeat_length; lia).
  apply nth_repeat.
Qed.

Lemma at_back_repeat (v : float) (k : nat) : (1 <= k)%nat -> at_back (repeat v k) 1 = v.
Proof.
  intros H. rewrite at_back_get by (rewrite repeat_length; lia).
  rewrite repeat_length. apply get_repeat. lia.
Qed.

(** A function that takes one value on a whole list maps it to a
    constant list. *)
Lemma map_const {A B : Type} (f : A -> B) (v : B) (l : list A) :
  Forall (fun x => f x = v) l -> map f l = repeat v (length l).
Proof.
  induction 1 as [|x l Hx _ IH]; [reflexivity|].
  simpl. rewrite Hx, IH. reflexivity.
Qed.

Lemma in_skipn {A : Type} (x : A) (n : nat) (l : list A) :
  In x (skipn n l) -> In x l.
Proof.
  intros H. rewrite <- (firstn_skipn n l). apply in_or_app. right. exact H.
Qed.

Lemma Forall_repeat {A : Type} (P : A -> Prop) (x : A) (n : nat) :
  P x -> Forall P (repeat x n).
Proof.
  intros H. apply Forall_forall. intros y Hy. apply repeat_spec in Hy. subst y. exact H.
Qed.


End Arrays.

(* ================================================================== *)
(** * The indicator library *)
(* ================================================================== *)

Section IndicatorLibrary.

Import JS Model Notions Indicators.
Local Open Scope string_scope.
Local Open Scope list_scope.
Local Open Scope float_scope.

(** ** The EMA of a constant series *)

(** The recurrence of the EMA leaves a value equal to the price where it
    is. *)
Lemma ema_fixed_point v prev multiplier :
  is_finite v = true -> is_finite multiplier = true ->
  (prev =? v) = true ->
  ((v - prev) * multiplier + prev =? v) = true.
Proof.
  rewrite !is_finite_spec, !eqb_spec, add_spec, mul_spec, sub_spec.
  unfold SF64add, SF64mul, SF64sub.
  destruct (Prim2SF v) as [sv|sv| |sv mv ev]; try discriminate; intros _ Hm Hp.
  - destruct (SFeqb_zero_shape _ _ Hp) as [sp ->].
    destruct (Prim2SF multiplier) as [sm|sm| |sm mm em]; try discriminate;
      destruct sv, sp, sm; reflexivity.
  - rewrite (SFeqb_finite_eq _ _ _ _ Hp).
    assert (Hsub : SFsub prec emax (S754_finite sv mv ev) (S754_finite sv mv ev)
                   = S754_zero false).
    { unfold SFsub. rewrite Z.sub_diag. reflexivity. }
    rewrite Hsub.
    destruct (Prim2SF multiplier) as [sm|sm| |sm mm em]; try discriminate;
      cbn [SFmul SFadd]; unfold SFeqb; rewrite SFcompare_refl; reflexivity.
Qed.

(** The loop of [getEMA] pushes one value for each price it is given. *)
Lemma ema_loop_shape multiplier (prices acc : list float) :
  exists rest,
    fold_left (ema_step multiplier) prices acc = acc ++ rest /\
    length rest = length prices.
Proof.
  revert acc. induction prices as [|price prices IH]; intros acc.
  - exists []. rewrite app_nil_r. split; reflexivity.
  - simpl. destruct (IH (ema_step multiplier acc price)) as (rest & Hfold & Hlen).
    exists (((price - at_back acc 1) * multiplier + at_back acc 1) :: rest). split.
    + rewrite Hfold. unfold ema_step. rewrite <- app_assoc. reflexivity.
    + simpl. rewrite Hlen. reflexivity.
Qed.

(** On a constant series, once the last value equals the price, so does
    every value the loop pushes. *)
Lemma ema_loop_constant v multiplier :
  is_finite v = true -> is_finite multiplier = true ->
  forall (k : nat) (acc : list float) (x : float),
    (x =? v) = true ->
    exists rest,
      fold_left (ema_step multiplier) (repeat v k) (acc ++ [x]) = (acc ++ [x]) ++ rest /\
      length rest = k /\
      Forall (fun y => (y =? v) = true) rest.
Proof.
  intros Hv Hm. induction k as [|k IH]; intros acc x Hx.
  - exists []. rewrite app_nil_r. repeat split; constructor.
  - simpl.
    assert (Hstep : ema_step multiplier (acc ++ [x]) v
                    = (acc ++ [x]) ++ [(v - x) * multiplier + x])
      by (unfold ema_step; rewrite at_back_last; reflexivity).
    rewrite Hstep.
    destruct (IH (acc ++ [x]) ((v - x) * multiplier + x)
                 (ema_fixed_point v x multiplier Hv Hm Hx)) as (rest & Hfold & Hlen & Hall).
    exists (((v - x) * multiplier + x) :: rest).
    rewrite Hfold, <- app_assoc. simpl. repeat split.
    + rewrite Hlen. reflexivity.
    + constructor; [apply ema_fixed_point; assumption | assumption].
Qed.

(** C8, as the code has it. For a period of at least one and a series of
    [n >= period] closes all equal to a finite [v], [getEMA] returns [n]
    values: zeros before the seed position, then at position [period - 1]
    the seed, which is the running sum of the first [period] closes divided
    by the period, both in binary64 arithmetic; and if that seed equals
    [v], every value from the seed position onward equals [v]. *)
Theorem getEMA_constant (period n : nat) (v : float) :
  (1 <= period)%nat -> (period <= n)%nat ->
  is_finite v = true ->
  let seed := sum_from_zero (repeat v period) / n2f period in
  exists emaValues,
    getEMA (repeat v n) period = Ok emaValues /\
    length emaValues = n /\
    (forall i, (i < period - 1)%nat -> get emaValues i = 0) /\
    get emaValues (period - 1) = seed /\
    ((seed =? v) = true ->
     forall i, (period - 1 <= i < n)%nat -> (get emaValues i =? v) = true).
Proof.
  intros Hp Hn Hv seed. pose proof (multiplier_finite period) as Hm.
  unfold getEMA. rewrite repeat_length.
  destruct (Nat.ltb_spec n period) as [Hlt|_]; [lia|].
  rewrite firstn_repeat_le, skipn_repeat_le by assumption. fold seed.
  destruct period as [|k]; [lia|].
  set (multiplier := 2 / (n2f (S k) + 1)) in *.
  destruct (ema_loop_shape multiplier (repeat v (n - S k)) (repeat 0 k ++ [seed]))
    as (rest & Hfold & Hlen).
  rewrite repeat_length in Hlen.
  exists ((repeat 0 k ++ [seed]) ++ rest). split; [rewrite Hfold; reflexivity|].
  replace (S k - 1)%nat with k by lia.
  assert (Hseed : get ((repeat 0 k ++ [seed]) ++ rest) k = seed).
  { unfold get. rewrite <- app_assoc. simpl.
    rewrite <- (repeat_length 0 k) at 1. apply nth_middle. }
  repeat split.
  - rewrite !length_app, repeat_length, Hlen. simpl. lia.
  - intros i Hi. unfold get. rewrite <- app_assoc, app_nth1 by (rewrite repeat_length; lia).
    rewrite (nth_indep _ nan 0) by (rewrite repeat_length; lia). apply nth_repeat.
  - exact Hseed.
  - intros Hs i Hi.
    destruct (ema_loop_constant v multiplier Hv Hm (n - S k) (repeat 0 k) seed Hs)
      as (rest' & Hfold' & _ & Hall).
    rewrite Hfold in Hfold'. apply app_inv_head in Hfold'. subst rest'.
    destruct (Nat.eq_dec i k) as [->|Hne]; [rewrite Hseed; exact Hs|].
    unfold get. rewrite app_nth2 by (rewrite length_app, repeat_length; simpl; lia).
    rewrite Forall_forall in Hall. apply Hall, nth_In.
    rewrite length_app, repeat_length. simpl. lia.
Qed.

(** Twenty-five closes at one, period twenty: the seed is one, and so is
    every value after it. *)
Lemma getEMA_constant_witness :
  exists emaValues,
    getEMA (repeat 1 25) 20 = Ok emaValues /\
    length emaValues = 25%nat /\
    (forall i, (i < 20 - 1)%nat -> get emaValues i = 0) /\
    get emaValues (20 - 1) = sum_from_zero (repeat 1 20) / n2f 20 /\
    forall i, (20 - 1 <= i < 25)%nat -> (get emaValues i =? 1) = true.
Proof.
  destruct (getEMA_constant 20 25 1) as (emaValues & H1 & H2 & H3 & H4 & H5);
    [lia | lia | reflexivity |].
  exists emaValues. repeat split; try assumption.
  apply H5. reflexivity.
Defined.

(** C8 fails as stated. Twenty-five closes at 0.1, period twenty: the
    running sum of twenty closes is 2.0000000000000004, the seed is
    0.10000000000000002, and the values from the seed position to the last
    one all differ from the price. Likewise for three closes and period
    three, where the running sum is 0.30000000000000004. *)
Lemma getEMA_constant_counterexample :
  tenths = repeat 0.1 25 /\
  (sum_from_zero (repeat 0.1 20) / n2f 20 =? 0.1) = false /\
  (exists emaValues,
      getEMA tenths 20 = Ok emaValues /\
      (get emaValues 19 =? 0.1) = false /\
      (get emaValues 24 =? 0.1) = false) /\
  sum_from_zero (repeat 0.1 3) = 0.30000000000000004 /\
  getEMA (repeat 0.1 3) 3 = Ok [0; 0; 0.10000000000000002].
Proof.
  split; [reflexivity|]. split; [vm_compute; reflexivity|].
  split; [|split; vm_compute; reflexivity].
  eexists. split; [vm_compute; reflexivity|]. split; vm_compute; reflexivity.
Qed.

(** A period of zero: the array of the values cannot be made. *)
Example getEMA_period_zero : getEMA three_closes 0 = Throw RangeError.
Proof. reflexivity. Qed.

(** ** Short series *)

(** C3, as the code has it. A series shorter than the lookback gets the
    fixed default of the indicator: an array of zeros for the EMA, 50 for
    the RSI, zeros and the position ['middle'] for the bands, zeros for the
    MACD, zeros and ['stable'] for the volume, and, below thirty candles,
    the whole of [getEmptyIndicators]; nothing in the result says that data
    was missing. *)
Theorem insufficient_history_defaults :
  (forall prices period,
      (length prices < period)%nat ->
      getEMA prices period = Ok (map (fun _ => 0) prices)) /\
  (forall prices period,
      (length prices < period + 1)%nat ->
      calculateRSI prices period = {| value := 50 |}) /\
  (forall prices period multiplier,
      (length prices < period)%nat ->
      calculateBollingerBands prices period multiplier
      = {| upper := 0; middle := 0; lower := 0; width := 0; position := "middle" |}) /\
  (forall prices,
      (length prices < 26)%nat ->
      calculateMACD prices
      = {| line := 0; signal := 0; histogram := 0; previousHistogram := 0 |}) /\
  (forall volumes prices,
      (length volumes < 10)%nat ->
      analyzeVolume volumes prices
      = {| current := 0; average := 0; trend := "stable" |}) /\
  (forall candles,
      (length candles < 30)%nat ->
      calculateAllIndicators candles = getEmptyIndicators).
Proof.
  repeat split; intros.
  - unfold getEMA. destruct (Nat.ltb_spec (length prices) period); [reflexivity | lia].
  - unfold calculateRSI.
    destruct (Nat.ltb_spec (length prices) (period + 1)); [reflexivity | lia].
  - unfold calculateBollingerBands.
    destruct (Nat.ltb_spec (length prices) period); [reflexivity | lia].
  - unfold calculateMACD.
    destruct (Nat.ltb_spec (length prices) 26); [reflexivity | lia].
  - unfold analyzeVolume.
    destruct (Nat.ltb_spec (length volumes) 10); [reflexivity | lia].
  - unfold calculateAllIndicators.
    destruct (Nat.ltb_spec (length candles) 30); [reflexivity | lia].
Qed.

Lemma insufficient_history_defaults_witness :
  getEMA three_closes 20 = Ok [0; 0; 0] /\
  calculateRSI three_closes 14 = {| value := 50 |} /\
  calculateBollingerBands three_closes 20 2
  = {| upper := 0; middle := 0; lower := 0; width := 0; position := "middle" |} /\
  calculateMACD three_closes
  = {| line := 0; signal := 0; histogram := 0; previousHistogram := 0 |} /\
  analyzeVolume three_closes three_closes
  = {| current := 0; average := 0; trend := "stable" |} /\
  calculateAllIndicators [] = getEmptyIndicators.
Proof.
  destruct insufficient_history_defaults as (H1 & H2 & H3 & H4 & H5 & H6).
  split; [apply (H1 three_closes 20%nat); simpl; lia|].
  split; [apply (H2 three_closes 14%nat); simpl; lia|].
  split; [apply (H3 three_closes 20%nat 2); simpl; lia|].
  split; [apply (H4 three_closes); simpl; lia|].
  split; [apply (H5 three_closes three_closes); simpl; lia|].
  apply (H6 []); simpl; lia.
Defined.

(** C3 fails as stated. Three closes are too few for the RSI of period
    14, and the value returned for them, 50, is the value computed for
    fifteen closes whose gains and losses balance; the same three closes
    give an EMA of zeros and the position ['middle']. *)
Lemma insufficient_history_counterexample :
  (length three_closes < 14 + 1)%nat /\
  (14 + 1 <= length alternating)%nat /\
  calculateRSI three_closes 14 = calculateRSI alternating 14 /\
  calculateRSI three_closes 14 = {| value := 50 |} /\
  getEMA three_closes 20 = Ok [0; 0; 0] /\
  position (calculateBollingerBands three_closes 20 2) = "middle".
Proof.
  vm_compute. repeat split; repeat constructor.
Qed.

(** ** The RSI without losses *)

(** A finite number minus itself is [+0]. *)
Lemma sub_self v : is_finite v = true -> Prim2SF (v - v) = S754_zero false.
Proof.
  rewrite is_finite_spec, sub_spec. unfold SF64sub, SFsub.
  destruct (Prim2SF v) as [s|s| |s m e]; try discriminate; intros _.
  - destruct s; reflexivity.
  - rewrite Z.sub_diag. reflexivity.
Qed.

Lemma sub_self_not_positive v : is_finite v = true -> (v - v >? 0) = false.
Proof.
  intros H. unfold gtb. rewrite ltb_spec, (sub_self v H). reflexivity.
Qed.

Lemma sub_self_not_negative v : is_finite v = true -> (v - v <? 0) = false.
Proof.
  intros H. rewrite ltb_spec, (sub_self v H). reflexivity.
Qed.

Lemma price_changes_repeat_S v n :
  price_changes (repeat v (S n)) = repeat (v - v) n.
Proof.
  induction n as [|n IH]; [reflexivity|].
  change (price_changes (repeat v (S (S n))))
    with ((v - v) :: price_changes (repeat v (S n))).
  rewrite IH. reflexivity.
Qed.

Lemma price_changes_repeat v n :
  price_changes (repeat v n) = repeat (v - v) (n - 1).
Proof.
  destruct n as [|n]; [reflexivity|].
  rewrite price_changes_repeat_S. replace (S n - 1)%nat with n by lia. reflexivity.
Qed.

Lemma smooth_zeros k : fold_left (smooth 14) (repeat 0 k) 0 = 0.
Proof.
  induction k as [|k IH]; [reflexivity|].
  simpl. change (smooth 14 0 0) with 0. exact IH.
Qed.

Lemma smoothed_average_zeros k :
  (14 <= k)%nat -> smoothed_average 14 (repeat 0 k) = 0.
Proof.
  intros Hk. unfold smoothed_average.
  assert (Hseed : map (get (repeat 0 k)) (seq 0 14) = repeat 0 14).
  { change (repeat 0 14) with (map (fun _ : nat => 0) (seq 0 14)).
    apply map_ext_in. intros i Hi. apply in_seq in Hi. unfold get.
    rewrite (nth_indep _ nan 0) by (rewrite repeat_length; lia). apply nth_repeat. }
  rewrite Hseed, skipn_repeat_le by assumption.
  change (sum_from_zero (repeat 0 14) / n2f 14) with 0.
  apply smooth_zeros.
Qed.

(** C4 at the failing inputs. On a flat series of at least fifteen finite
    closes every change is zero, the average gain and the average loss are
    both zero, their quotient is NaN, and NaN is what [calculateRSI]
    returns. *)
Theorem calculateRSI_flat_is_NaN (v : float) (n : nat) :
  is_finite v = true -> (15 <= n)%nat ->
  is_nan (value (calculateRSI (repeat v n) 14)) = true.
Proof.
  intros Hv Hn. unfold calculateRSI. rewrite repeat_length.
  destruct (Nat.ltb_spec n (14 + 1)) as [Hlt|_]; [lia|].
  rewrite price_changes_repeat, !map_repeat.
  rewrite (sub_self_not_positive v Hv), (sub_self_not_negative v Hv).
  rewrite smoothed_average_zeros by lia.
  reflexivity.
Qed.

(** Fifteen closes at one. *)
Lemma calculateRSI_flat_is_NaN_witness :
  is_nan (value (calculateRSI (repeat 1 15) 14)) = true.
Proof.
  apply (calculateRSI_flat_is_NaN 1 15); [reflexivity | lia].
Defined.

Example calculateRSI_flat_forty :
  calculateRSI (repeat 100.5 40) 14 = {| value := nan |}.
Proof. vm_compute. reflexivity. Qed.

(** The last two lines of [calculateRSI] when there is a gain and no
    loss: the quotient is infinite, and the value is exactly 100. *)
Lemma rsi_without_loss avgGain avgLoss :
  (avgGain >? 0) = true -> (avgLoss =? 0) = true ->
  100 - (100 / (1 + avgGain / avgLoss)) = 100.
Proof.
  unfold gtb. rewrite ltb_spec, eqb_spec. intros Hg Hl.
  apply Prim2SF_inj. rewrite sub_spec, div_spec, add_spec, div_spec.
  assert (H100 : Prim2SF 100 = S754_finite false 7036874417766400 (-46)) by reflexivity.
  assert (H1 : Prim2SF 1 = S754_finite false 4503599627370496 (-52)) by reflexivity.
  assert (H0 : Prim2SF 0 = S754_zero false) by reflexivity.
  rewrite H100, H1. rewrite H0 in Hg, Hl.
  destruct (SFeqb_zero_shape _ _ Hl) as [sl ->].
  unfold SFltb in Hg.
  destruct (Prim2SF avgGain) as [sg|sg| |sg mg eg]; cbn [SFcompare] in Hg;
    try discriminate; destruct sg; try discriminate; destruct sl; reflexivity.
Qed.

(** Hence [calculateRSI] returns exactly 100 whenever the smoothed loss
    is zero and the smoothed gain is positive. *)
Lemma calculateRSI_without_loss (prices : list float) :
  (15 <= length prices)%nat ->
  let changes := price_changes prices in
  let avgGain :=
    smoothed_average 14 (map (fun change => if change >? 0 then change else 0) changes) in
  let avgLoss :=
    smoothed_average 14 (map (fun change => if change <? 0 then Math_abs change else 0)
                             changes) in
  (avgGain >? 0) = true -> (avgLoss =? 0) = true ->
  calculateRSI prices 14 = {| value := 100 |}.
Proof.
  intros Hlen changes avgGain avgLoss Hg Hl. unfold calculateRSI.
  destruct (Nat.ltb_spec (length prices) (14 + 1)) as [Hlt|_]; [lia|].
  fold changes. fold avgGain. fold avgLoss.
  rewrite (rsi_without_loss avgGain avgLoss Hg Hl). reflexivity.
Qed.
(** The closes 1, 2, ..., 15: gains only, and the value returned is 100. *)
Example calculateRSI_rising_is_100 :
  calculateRSI (map n2f (seq 1 15)) 14 = {| value := 100 |}.
Proof. vm_compute. reflexivity. Qed.

(** ** The position of the price in the Bollinger Bands *)

Lemma bbSMA_length prices period :
  length (bbSMA prices period) = (length prices - (period - 1))%nat.
Proof. unfold bbSMA. rewrite length_map, length_seq. reflexivity. Qed.

Lemma bbStdDev_length prices period sma :
  length (bbStdDev prices period sma) = (length prices - (period - 1))%nat.
Proof. unfold bbStdDev. rewrite length_map, length_seq. reflexivity. Qed.





End IndicatorLibrary.


(* ================================================================== *)
(** * The indicator library: warm-up and closed forms *)
(* ================================================================== *)

Section IndicatorWarmup.

Import JS Model Notions Indicators.
Local Open Scope string_scope.
Local Open Scope list_scope.
Local Open Scope float_scope.

(** ** The values of the EMA *)

(** For a period of at least one [getEMA] returns an array as long as the
    prices. *)
Lemma getEMA_length (prices : list float) (period : nat) :
  (1 <= period)%nat ->
  exists emaValues,
    getEMA prices period = Ok emaValues /\ length emaValues = length prices.
Proof.
  intros Hp. unfold getEMA.
  destruct (Nat.ltb_spec (length prices) period) as [Hlt|Hge].
  - eexists. split; [reflexivity|]. apply length_map.
  - destruct period as [|k]; [lia|].
    destruct (ema_loop_shape (2 / (n2f (S k) + 1)) (skipn (S k) prices)
                (repeat 0 k ++ [sum_from_zero (firstn (S k) prices) / n2f (S k)]))
      as (rest & Hfold & Hlen).
    eexists. split; [reflexivity|].
    rewrite Hfold, !length_app, repeat_length, Hlen, length_skipn. simpl. lia.
Qed.

(** X1. [getEMA] throws exactly when the period is zero, whatever the
    prices: the array of the values cannot be made then. With every other
    period it returns an array. *)
Theorem getEMA_throws_iff (prices : list float) (period : nat) :
  (exists e, getEMA prices period = Throw e) <-> period = 0%nat.
Proof.
  split.
  - intros [e He]. destruct period as [|k]; [reflexivity|].
    destruct (getEMA_length prices (S k)) as (l & Hl & _); [lia|].
    rewrite Hl in He. discriminate.
  - intros ->. exists RangeError. unfold getEMA.
    destruct (Nat.ltb_spec (length prices) 0); [lia | reflexivity].
Qed.

(** The loop of [getEMA] leaves the values it was given where they are,
    and computes each value it pushes from the one before it. *)
Lemma ema_loop_get multiplier (prices acc : list float) :
  (1 <= length acc)%nat ->
  let emaValues := fold_left (ema_step multiplier) prices acc in
  (forall i, (i < length acc)%nat -> get emaValues i = get acc i) /\
  (forall j, (j < length prices)%nat ->
     get emaValues (length acc + j)
     = (get prices j - get emaValues (length acc + j - 1)) * multiplier
       + get emaValues (length acc + j - 1)).
Proof.
  revert acc. induction prices as [|price prices IH]; intros acc Hacc emaValues.
  - split; [reflexivity | simpl; lia].
  - subst emaValues. cbn [fold_left].
    set (x := (price - at_back acc 1) * multiplier + at_back acc 1).
    assert (Hstep : ema_step multiplier acc price = acc ++ [x]) by reflexivity.
    rewrite Hstep.
    destruct (IH (acc ++ [x])) as [Hpre Hrec]; [rewrite length_app; simpl; lia|].
    rewrite length_app in Hpre, Hrec. cbn [length] in Hpre, Hrec.
    assert (Hold : forall i, (i < length acc)%nat ->
               get (fold_left (ema_step multiplier) prices (acc ++ [x])) i = get acc i).
    { intros i Hi. rewrite Hpre by lia. unfold get. apply app_nth1, Hi. }
    split; [exact Hold|].
    intros j Hj. destruct j as [|j].
    + replace (length acc + 0)%nat with (length acc) by lia.
      rewrite Hpre by lia. rewrite Hold by lia.
      rewrite <- at_back_get by lia.
      unfold get at 1. rewrite nth_middle. reflexivity.
    + cbn [length] in Hj.
      replace (length acc + S j)%nat with (length acc + 1 + j)%nat by lia.
      rewrite Hrec by lia. reflexivity.
Qed.

(** X2. For a period of at least one and at least that many prices,
    [getEMA] returns one value for each price: zeros before the seed
    position, at the seed position the running sum of the first [period]
    prices divided by the period, and after it the value given by the
    recurrence [(prices[i] - ema[i-1]) * multiplier + ema[i-1]] with the
    multiplier [2 / (period + 1)]. *)
Theorem getEMA_recurrence (prices : list float) (period : nat) :
  (1 <= period)%nat -> (period <= length prices)%nat ->
  let multiplier := 2 / (n2f period + 1) in
  exists emaValues,
    getEMA prices period = Ok emaValues /\
    length emaValues = length prices /\
    (forall i, (i < period - 1)%nat -> get emaValues i = 0) /\
    get emaValues (period - 1) = sum_from_zero (firstn period prices) / n2f period /\
    (forall i, (period <= i < length prices)%nat ->
       get emaValues i
       = (get prices i - get emaValues (i - 1)) * multiplier + get emaValues (i - 1)).
Proof.
  intros Hp Hn multiplier. unfold getEMA.
  destruct (Nat.ltb_spec (length prices) period) as [Hlt|_]; [lia|].
  destruct period as [|k]; [lia|]. fold multiplier.
  set (seed := sum_from_zero (firstn (S k) prices) / n2f (S k)).
  set (rest := skipn (S k) prices).
  assert (Hrest : length rest = (length prices - S k)%nat) by apply length_skipn.
  destruct (ema_loop_shape multiplier rest (repeat 0 k ++ [seed])) as (tail & Hfold & Htail).
  destruct (ema_loop_get multiplier rest (repeat 0 k ++ [seed]))
    as [Hpre Hrec]; [rewrite length_app; simpl; lia|].
  rewrite length_app, repeat_length in Hpre, Hrec. cbn [length] in Hpre, Hrec.
  exists (fold_left (ema_step multiplier) rest (repeat 0 k ++ [seed])).
  split; [reflexivity|].
  replace (S k - 1)%nat with k by lia.
  split; [|split; [|split]].
  - rewrite Hfold, !length_app, repeat_length, Htail, Hrest. simpl. lia.
  - intros i Hi. rewrite Hpre by lia. unfold get.
    rewrite app_nth1 by (rewrite repeat_length; lia).
    rewrite (nth_indep _ nan 0) by (rewrite repeat_length; lia). apply nth_repeat.
  - rewrite Hpre by lia. unfold get.
    rewrite <- (repeat_length 0 k) at 1. apply nth_middle.
  - intros i Hi.
    specialize (Hrec (i - S k)%nat ltac:(lia)).
    replace (k + 1 + (i - S k))%nat with i in Hrec by lia.
    rewrite Hrec. f_equal. f_equal. f_equal.
    unfold get, rest. rewrite nth_skipn. f_equal. lia.
Qed.

(** Three closes and a period of two: the third value comes from the
    second by the recurrence. *)
Lemma getEMA_recurrence_witness :
  exists emaValues,
    getEMA three_closes 2 = Ok emaValues /\
    length emaValues = 3%nat /\
    get emaValues 2 = (3 - get emaValues 1) * (2 / (n2f 2 + 1)) + get emaValues 1.
Proof.
  destruct (getEMA_recurrence three_closes 2) as (emaValues & H1 & H2 & _ & _ & H5);
    [lia | simpl; lia |].
  exists emaValues. split; [exact H1|]. split; [exact H2|].
  apply (H5 2%nat). simpl. lia.
Defined.

Example getEMA_three_closes :
  getEMA three_closes 2 = Ok [0; 1.5; (3 - 1.5) * (2 / 3) + 1.5].
Proof. vm_compute. reflexivity. Qed.

(** ** Series too short for a crossover or for a histogram *)

(** X3. With fewer than 52 prices [calculateEMA] reports no crossover,
    whatever the prices; with fewer than 50 its [ema50] is 0, and with
    fewer than 20 its [ema20] is 0 too. *)
Theorem calculateEMA_warmup (prices : list float) :
  (length prices < 52)%nat ->
  crossover (calculateEMA prices) = "none" /\
  ((1 <= length prices < 50)%nat -> ema50 (calculateEMA prices) = 0) /\
  ((1 <= length prices < 20)%nat -> ema20 (calculateEMA prices) = 0).
Proof.
  intros Hn. unfold calculateEMA.
  destruct (getEMA_length prices 20) as (l20 & E20 & _); [lia|].
  destruct (getEMA_length prices 50) as (l50 & E50 & _); [lia|].
  rewrite E20, E50. cbn [JS.bind recover crossover ema50 ema20].
  destruct (Nat.leb_spec 52 (length prices)) as [|_]; [lia|].
  split; [reflexivity|]. split; intros H.
  - unfold getEMA in E50.
    destruct (Nat.ltb_spec (length prices) 50) as [_|]; [|lia].
    injection E50 as <-. apply at_back_zeros. lia.
  - unfold getEMA in E20.
    destruct (Nat.ltb_spec (length prices) 20) as [_|]; [|lia].
    injection E20 as <-. apply at_back_zeros. lia.
Qed.

Lemma calculateEMA_warmup_witness :
  crossover (calculateEMA three_closes) = "none" /\
  ema50 (calculateEMA three_closes) = 0 /\
  ema20 (calculateEMA three_closes) = 0.
Proof.
  destruct (calculateEMA_warmup three_closes) as (H1 & H2 & H3); [simpl; lia|].
  split; [exact H1|]. split; [apply H2 | apply H3]; simpl; lia.
Defined.

(** X4. With fewer than 34 prices the histogram of [calculateMACD] and
    the histogram before it are both 0, whatever the prices: the line and
    the signal may already hold values, the histogram does not. *)
Theorem calculateMACD_warmup (prices : list float) :
  (length prices < 34)%nat ->
  histogram (calculateMACD prices) = 0 /\
  previousHistogram (calculateMACD prices) = 0.
Proof.
  intros Hn. unfold calculateMACD.
  destruct (Nat.ltb_spec (length prices) 26) as [Hlt|Hge]; [split; reflexivity|].
  destruct (getEMA_length prices 12) as (ema12 & E12 & _); [lia|].
  destruct (getEMA_length prices 26) as (ema26 & E26 & _); [lia|].
  rewrite E12, E26. cbn [JS.bind].
  set (macdLine := map _ (seq 0 (length prices))).
  destruct (getEMA_length macdLine 9) as (signalLine & E9 & _); [lia|].
  rewrite E9. cbn [JS.bind recover histogram previousHistogram].
  rewrite at_back_map_seq, at_back_two_map_seq by lia.
  destruct (Nat.ltb_spec (length prices - 1) 33) as [_|]; [|lia].
  destruct (Nat.ltb_spec (length prices - 2) 33) as [_|]; [|lia].
  split; reflexivity.
Qed.

Lemma calculateMACD_warmup_witness :
  histogram (calculateMACD thirty_closes) = 0 /\
  previousHistogram (calculateMACD thirty_closes) = 0.
Proof. apply (calculateMACD_warmup thirty_closes). simpl. lia. Defined.

(** On thirty rising closes the line is there already. *)
Example calculateMACD_thirty_closes :
  (line (calculateMACD thirty_closes) >? 0) = true.
Proof. vm_compute. reflexivity. Qed.

(** ** The RSI of a series that only rises, or only falls *)

Lemma price_changes_length (prices : list float) :
  length (price_changes prices) = (length prices - 1)%nat.
Proof.
  induction prices as [|a [|b rest] IH]; try reflexivity.
  change (price_changes (a :: b :: rest)) with ((b - a) :: price_changes (b :: rest)).
  cbn [length] in *. rewrite IH. lia.
Qed.

(** The last two lines of [calculateRSI] when there is a loss and no
    gain: the quotient is zero, and so is the value. *)
Lemma rsi_without_gain avgLoss :
  (avgLoss >? 0) = true -> 100 - (100 / (1 + 0 / avgLoss)) = 0.
Proof.
  unfold gtb. rewrite ltb_spec. intros Hl.
  apply Prim2SF_inj. rewrite sub_spec, div_spec, add_spec, div_spec.
  assert (H100 : Prim2SF 100 = S754_finite false 7036874417766400 (-46)) by reflexivity.
  assert (H1 : Prim2SF 1 = S754_finite false 4503599627370496 (-52)) by reflexivity.
  assert (H0 : Prim2SF 0 = S754_zero false) by reflexivity.
  rewrite H100, H1, H0. rewrite H0 in Hl.
  unfold SFltb in Hl.
  destruct (Prim2SF avgLoss) as [sl|sl| |sl ml el]; cbn [SFcompare] in Hl;
    try discriminate; destruct sl; try discriminate; reflexivity.
Qed.

(** X5. When no change of the series is negative and the smoothed gain
    is positive, [calculateRSI] returns exactly 100: every loss is 0, so
    is their smoothed average, and the division by it gives an infinite
    quotient. *)
Theorem calculateRSI_no_loss (prices : list float) :
  (15 <= length prices)%nat ->
  let changes := price_changes prices in
  let avgGain :=
    smoothed_average 14 (map (fun change => if change >? 0 then change else 0) changes) in
  Forall (fun change => (change <? 0) = false) changes ->
  (avgGain >? 0) = true ->
  calculateRSI prices 14 = {| value := 100 |}.
Proof.
  intros Hlen changes avgGain Hnone Hgain. unfold calculateRSI.
  destruct (Nat.ltb_spec (length prices) (14 + 1)) as [Hlt|_]; [lia|].
  fold changes. fold avgGain.
  assert (Hloss : map (fun change => if change <? 0 then Math_abs change else 0) changes
                  = repeat 0 (length changes)).
  { apply map_const. eapply Forall_impl; [|exact Hnone].
    cbv beta. intros change ->. reflexivity. }
  rewrite Hloss, smoothed_average_zeros
    by (unfold changes; rewrite price_changes_length; lia).
  rewrite (rsi_without_loss avgGain 0 Hgain eq_refl). reflexivity.
Qed.

Lemma calculateRSI_no_loss_witness :
  calculateRSI rising_closes 14 = {| value := 100 |}.
Proof.
  apply (calculateRSI_no_loss rising_closes);
    [simpl; lia | vm_compute; repeat constructor | vm_compute; reflexivity].
Defined.

(** X6. When no change of the series is positive and the smoothed loss
    is positive, [calculateRSI] returns exactly 0. *)
Theorem calculateRSI_no_gain (prices : list float) :
  (15 <= length prices)%nat ->
  let changes := price_changes prices in
  let avgLoss :=
    smoothed_average 14 (map (fun change => if change <? 0 then Math_abs change else 0)
                             changes) in
  Forall (fun change => (change >? 0) = false) changes ->
  (avgLoss >? 0) = true ->
  calculateRSI prices 14 = {| value := 0 |}.
Proof.
  intros Hlen changes avgLoss Hnone Hloss. unfold calculateRSI.
  destruct (Nat.ltb_spec (length prices) (14 + 1)) as [Hlt|_]; [lia|].
  fold changes. fold avgLoss.
  assert (Hgain : map (fun change => if change >? 0 then change else 0) changes
                  = repeat 0 (length changes)).
  { apply map_const. eapply Forall_impl; [|exact Hnone].
    cbv beta. intros change ->. reflexivity. }
  rewrite Hgain, smoothed_average_zeros
    by (unfold changes; rewrite price_changes_length; lia).
  rewrite (rsi_without_gain avgLoss Hloss). reflexivity.
Qed.

Lemma calculateRSI_no_gain_witness :
  calculateRSI falling_closes 14 = {| value := 0 |}.
Proof.
  apply (calculateRSI_no_gain falling_closes);
    [simpl; lia | vm_compute; repeat constructor | vm_compute; reflexivity].
Defined.

(** ** The bands, from the last twenty closes *)

(** The last window of the inner loops is the last [period] prices, the
    latest first. *)
Lemma window_last (prices : list float) (period : nat) :
  (period <= length prices)%nat ->
  window prices period (length prices - 1) = rev (skipn (length prices - period) prices).
Proof.
  intros Hp. unfold window.
  apply (nth_ext _ _ nan nan).
  - rewrite length_map, length_seq, length_rev, length_skipn. lia.
  - intros j Hj. rewrite length_map, length_seq in Hj.
    rewrite (nth_indep _ nan (get prices (length prices - 1 - 0)))
      by (rewrite length_map, length_seq; exact Hj).
    rewrite (map_nth (fun j => get prices (length prices - 1 - j))), seq_nth by exact Hj.
    rewrite rev_nth by (rewrite length_skipn; lia).
    rewrite length_skipn, nth_skipn. unfold get. f_equal. lia.
Qed.

(** X7. For at least twenty closes the result of
    [calculateBollingerBands] is made of the last twenty closes alone,
    taken from the latest to the oldest: the middle is their running sum
    divided by 20, the deviation is the square root of the twentieth of
    the sum of their squared distances to the middle, the bands are the
    middle plus and minus twice the deviation, and the width is the
    distance between the bands divided by the middle. *)
Theorem calculateBollingerBands_last_window (prices : list float) :
  (20 <= length prices)%nat ->
  let recent := rev (skipn (length prices - 20) prices) in
  let mean := sum_from_zero recent / 20 in
  let deviation :=
    Math_sqrt (sum_from_zero (map (fun price => Math_pow2 (price - mean)) recent) / 20) in
  let r := calculateBollingerBands prices 20 2 in
  middle r = mean /\
  upper r = mean + 2 * deviation /\
  lower r = mean - 2 * deviation /\
  width r = (upper r - lower r) / mean.
Proof.
  intros Hlen recent mean deviation r.
  subst r. unfold calculateBollingerBands.
  destruct (Nat.ltb_spec (length prices) 20) as [Hlt|_]; [lia|].
  cbn [upper middle lower width].
  set (sma := bbSMA prices 20). set (stdDev := bbStdDev prices 20 sma).
  assert (Hsma : length sma = (length prices - 19)%nat) by apply bbSMA_length.
  assert (Hstd : length stdDev = (length prices - 19)%nat) by apply bbStdDev_length.
  assert (Hmean : at_back sma 1 = mean).
  { rewrite at_back_get by lia. rewrite Hsma. unfold sma, bbSMA, get.
    change (20 - 1)%nat with 19%nat.
    rewrite (nth_indep _ nan (sum_from_zero (window prices 20 0) / n2f 20))
      by (rewrite length_map, length_seq; lia).
    rewrite (map_nth (fun i => sum_from_zero (window prices 20 i) / n2f 20)).
    rewrite seq_nth by lia.
    replace (19 + (length prices - 19 - 1))%nat with (length prices - 1)%nat by lia.
    rewrite window_last by lia. reflexivity. }
  assert (Hdev : at_back stdDev 1 = deviation).
  { rewrite at_back_get by lia. rewrite Hstd. unfold stdDev, bbStdDev.
    change (20 - 1)%nat with 19%nat. unfold get at 1.
    set (f := fun i : nat => Math_sqrt _).
    rewrite (nth_indep _ nan (f 0%nat)) by (rewrite length_map, length_seq; lia).
    rewrite (map_nth f), seq_nth by lia. unfold f.
    replace (19 + (length prices - 19 - 1))%nat with (length prices - 1)%nat by lia.
    replace (length prices - 1 - 19)%nat with (length sma - 1)%nat by lia.
    rewrite <- at_back_get by lia. rewrite Hmean, window_last by lia. reflexivity. }
  rewrite !at_back_map_seq by lia.
  rewrite <- !at_back_get by lia.
  replace (get stdDev (length sma - 1)) with (at_back stdDev 1)
    by (rewrite at_back_get by lia; rewrite Hstd, Hsma; reflexivity).
  rewrite Hmean, Hdev. repeat split; reflexivity.
Qed.

Lemma calculateBollingerBands_last_window_witness :
  let prices := thirty_closes in
  let recent := rev (skipn (length prices - 20) prices) in
  let mean := sum_from_zero recent / 20 in
  let deviation :=
    Math_sqrt (sum_from_zero (map (fun price => Math_pow2 (price - mean)) recent) / 20) in
  let r := calculateBollingerBands prices 20 2 in
  middle r = mean /\
  upper r = mean + 2 * deviation /\
  lower r = mean - 2 * deviation /\
  width r = (upper r - lower r) / mean.
Proof. apply (calculateBollingerBands_last_window thirty_closes). simpl. lia. Defined.

(** The closes 11 to 30 have a mean of 20.5. *)
Example calculateBollingerBands_thirty_closes :
  middle (calculateBollingerBands thirty_closes 20 2) = 20.5.
Proof. vm_compute. reflexivity. Qed.

(** ** Candles without volume *)

(** X8. When no candle has a volume (each is 0 or NaN, as for the
    candles read from the page), the volume analysis is that of too short
    a series: 0 for the current and the average volume, and the trend
    ['stable']. *)
Theorem calculateAllIndicators_without_volume (candles : list candle) :
  Forall (fun candle => truthy (Candle.volume candle) = false) candles ->
  volume (calculateAllIndicators candles)
  = {| current := 0; average := 0; trend := "stable" |}.
Proof.
  intros Hvol. unfold calculateAllIndicators.
  destruct (Nat.ltb_spec (length candles) 30) as [Hlt|Hge]; [reflexivity|].
  cbn [volume].
  assert (Hzeros : map (fun candle => or_zero (Candle.volume candle)) candles
                   = repeat 0 (length candles)).
  { apply map_const. eapply Forall_impl; [|exact Hvol].
    cbv beta. intros candle H. unfold or_zero. rewrite H. reflexivity. }
  rewrite Hzeros. unfold analyzeVolume. rewrite repeat_length.
  destruct (Nat.ltb_spec (length candles) 10) as [|_]; [lia|].
  rewrite skipn_repeat_le by lia.
  replace (length candles - (length candles - 10))%nat with 10%nat by lia.
  rewrite at_back_repeat by lia. reflexivity.
Qed.

Lemma calculateAllIndicators_without_volume_witness :
  volume (calculateAllIndicators (repeat flat_candle 30))
  = {| current := 0; average := 0; trend := "stable" |}.
Proof.
  apply (calculateAllIndicators_without_volume (repeat flat_candle 30)).
  apply Forall_repeat. reflexivity.
Defined.

End IndicatorWarmup.

(* ================================================================== *)
(** * Normalising raw candles *)
(* ================================================================== *)

Section CandleValidation.

Import JS Notions DataExtractor.
Local Open Scope string_scope.
Local Open Scope list_scope.
Local Open Scope float_scope.
Local Open Scope js_scope.

Variable StringToNumber : string -> float.

(** The loop keeps, in their order and after what it had already kept,
    the valid ones among the candles it reads. *)
Lemma normalize_loop_filter interval data timestamp acc :
  normalize_loop StringToNumber interval data timestamp acc
  = (candles <- read_candles interval data timestamp ;;
     Ok (acc ++ filter (isValidCandle StringToNumber) candles)).
Proof.
  revert timestamp acc. induction data as [|it rest IH]; intros timestamp acc.
  - simpl. rewrite app_nil_r. reflexivity.
  - simpl. destruct (candle_of_item it timestamp) as [candle|e]; [|reflexivity].
    simpl. rewrite IH.
    destruct (read_candles interval rest (timestamp + interval)) as [candles|e];
      [|reflexivity].
    simpl. destruct (isValidCandle StringToNumber candle);
      [rewrite <- app_assoc|]; reflexivity.
Qed.

(** What the two tests of [isValidCandle] on one price come to: the
    price is [undefined], a number that is NaN, or a string that converts
    to NaN; [null] and the booleans convert to 0 and 1 and pass. *)
Lemma price_tests (v : field) :
  defined v && negb (isNaN StringToNumber v)
  = negb match v with
         | Undefined => true
         | Null => false
         | Bool _ => false
         | Num x => is_nan x
         | Str s => is_nan (StringToNumber s)
         end.
Proof.
  unfold isNaN. destruct v as [| |[|]|x|s]; try reflexivity.
Qed.

(** [isValidCandle] as the conjunction of the two tests on each price. *)
Lemma isValidCandle_prices (candle : candle) :
  isValidCandle StringToNumber candle
  = (defined (open candle) && negb (isNaN StringToNumber (open candle)))
    && (defined (high candle) && negb (isNaN StringToNumber (high candle)))
    && (defined (low candle) && negb (isNaN StringToNumber (low candle)))
    && (defined (close candle) && negb (isNaN StringToNumber (close candle))).
Proof.
  unfold isValidCandle.
  destruct (defined (open candle)), (defined (high candle)),
    (defined (low candle)), (defined (close candle)),
    (isNaN StringToNumber (open candle)), (isNaN StringToNumber (high candle)),
    (isNaN StringToNumber (low candle)), (isNaN StringToNumber (close candle));
    reflexivity.
Qed.

(** C5, as the code has it. [normalizeCandleData] returns, in their order
    and as they were read, the candles that [isValidCandle] accepts, or
    nothing at all when reading an element throws.  [isValidCandle]
    rejects a candle exactly when one of its open, high, low and close is
    unusable: [undefined], a number that is NaN, or a string that
    converts to NaN ([null] and the booleans convert to 0 and 1).  So no
    candle that is returned has an unusable price, and every candle whose
    four prices are numbers other than NaN is accepted, whatever their
    order. *)
Theorem normalizeCandleData_keeps_valid (now : float) (data : list item)
    (timeframe : string) :
  let interval := getTimeframeInMs timeframe in
  let timestamp := now - (n2f (length data) * interval) in
  let unusable (price : field) : bool :=
    match price with
    | Undefined => true
    | Null => false
    | Bool _ => false
    | Num x => is_nan x
    | Str s => is_nan (StringToNumber s)
    end in
  normalizeCandleData StringToNumber now data timeframe
  = match read_candles interval data timestamp with
    | Ok candles => filter (isValidCandle StringToNumber) candles
    | Throw _ => []
    end
  /\
  (forall candle, numeric_ohlc candle -> isValidCandle StringToNumber candle = true)
  /\
  (forall candle,
     isValidCandle StringToNumber candle
     = negb (unusable (open candle) || unusable (high candle)
             || unusable (low candle) || unusable (close candle)))
  /\
  (forall candle,
     In candle (normalizeCandleData StringToNumber now data timeframe) ->
     unusable (open candle) = false /\ unusable (high candle) = false /\
     unusable (low candle) = false /\ unusable (close candle) = false).
Proof.
  intros interval timestamp unusable.
  assert (Hfilter : normalizeCandleData StringToNumber now data timeframe
                    = match read_candles interval data timestamp with
                      | Ok candles => filter (isValidCandle StringToNumber) candles
                      | Throw _ => []
                      end).
  { unfold normalizeCandleData. destruct data as [|it rest]; [reflexivity|].
    rewrite normalize_loop_filter.
    destruct (read_candles _ _ _); reflexivity. }
  assert (Hvalid : forall candle,
     isValidCandle StringToNumber candle
     = negb (unusable (open candle) || unusable (high candle)
             || unusable (low candle) || unusable (close candle))).
  { intros candle. rewrite isValidCandle_prices, !price_tests.
    change (negb (unusable (open candle)) && negb (unusable (high candle))
            && negb (unusable (low candle)) && negb (unusable (close candle))
            = negb (unusable (open candle) || unusable (high candle)
                    || unusable (low candle) || unusable (close candle))).
    destruct (unusable (open candle)), (unusable (high candle)),
      (unusable (low candle)), (unusable (close candle)); reflexivity. }
  split; [exact Hfilter|]. split; [|split; [exact Hvalid|]].
  - intros candle (o & h & l & c & Ho & Hh & Hl & Hc & No & Nh & Nl & Nc).
    unfold isValidCandle, isNaN. rewrite Ho, Hh, Hl, Hc. simpl.
    rewrite No, Nh, Nl, Nc. reflexivity.
  - intros candle Hin. rewrite Hfilter in Hin.
    destruct (read_candles interval data timestamp) as [candles|e]; [|destruct Hin].
    apply filter_In in Hin. destruct Hin as [_ Hin]. rewrite Hvalid in Hin.
    destruct (unusable (open candle)), (unusable (high candle)),
      (unusable (low candle)), (unusable (close candle));
      try discriminate Hin. repeat split.
Qed.

End CandleValidation.

Section CandleValidationExamples.

Import JS Notions DataExtractor.
Local Open Scope string_scope.
Local Open Scope list_scope.
Local Open Scope float_scope.

(** The candle with its low above its high is accepted; the one whose
    high is NaN and the one without a close are rejected. *)
Lemma normalizeCandleData_keeps_valid_witness :
  isValidCandle no_numeral inverted = true /\
  isValidCandle no_numeral nan_high = false /\
  isValidCandle no_numeral no_close = false.
Proof.
  destruct (normalizeCandleData_keeps_valid no_numeral 0 [] "M1")
    as (_ & Hnumeric & Hvalid & _).
  split; [|split].
  - apply Hnumeric. exists 1, 0, 5, 2. repeat split; reflexivity.
  - rewrite Hvalid. reflexivity.
  - rewrite Hvalid. reflexivity.
Defined.

(** C5 fails as stated. The raw candle with open 1, high 0, low 5 and
    close 2 breaks the invariant, and it is returned as it was read, alone
    or between two candles that are rejected for an unusable price. *)
Lemma normalizeCandleData_ohlc_counterexample :
  ohlc_invariant 1 0 5 2 = false /\
  normalizeCandleData no_numeral 0 [inverted_item] "M1" = [inverted] /\
  normalizeCandleData no_numeral 0 [nan_high_item; inverted_item; no_close_item] "M1"
  = [inverted].
Proof. vm_compute. repeat split; reflexivity. Qed.

(** One [null] among the elements and nothing is returned, the valid
    candles before it included. *)
Example normalizeCandleData_null_element :
  normalizeCandleData no_numeral 0 [inverted_item; ItemNull] "M1" = [].
Proof. vm_compute. reflexivity. Qed.

End CandleValidationExamples.


(* ================================================================== *)
(** * The data extractor: what is kept, and from which source *)
(* ================================================================== *)

Section Extraction.

Import JS Notions DataExtractor.
Local Open Scope string_scope.
Local Open Scope list_scope.
Local Open Scope float_scope.
Local Open Scope js_scope.

Variable StringToNumber : string -> float.

(** [normalizeCandleData] in terms of the candles read from the elements. *)
Lemma normalizeCandleData_read (now : float) (data : list item) (timeframe : string) :
  normalizeCandleData StringToNumber now data timeframe
  = match read_candles (getTimeframeInMs timeframe) data
            (now - (n2f (length data) * getTimeframeInMs timeframe)) with
    | Ok candles => filter (isValidCandle StringToNumber) candles
    | Throw _ => []
    end.
Proof.
  unfold normalizeCandleData. destruct data as [|it rest]; [reflexivity|].
  rewrite normalize_loop_filter.
  destruct (read_candles _ _ _); reflexivity.
Qed.

Lemma read_candles_null interval data timestamp :
  In ItemNull data -> exists e, read_candles interval data timestamp = Throw e.
Proof.
  revert timestamp. induction data as [|it rest IH]; intros timestamp Hin; [destruct Hin|].
  destruct Hin as [->|Hin].
  - exists TypeError. reflexivity.
  - simpl. destruct (candle_of_item it timestamp) as [candle|e]; [|exists e; reflexivity].
    destruct (IH (timestamp + interval) Hin) as [e He].
    exists e. simpl. rewrite He. reflexivity.
Qed.

Lemma read_candles_length interval data timestamp candles :
  read_candles interval data timestamp = Ok candles -> length candles = length data.
Proof.
  revert timestamp candles. induction data as [|it rest IH]; intros timestamp candles H.
  - injection H as <-. reflexivity.
  - simpl in H. destruct (candle_of_item it timestamp) as [candle|e]; [|discriminate].
    simpl in H.
    destruct (read_candles interval rest (timestamp + interval)) as [cs|e] eqn:E;
      [|discriminate].
    injection H as <-. simpl. f_equal. eapply IH, E.
Qed.

(** X9. One [null] among the elements of the raw data, wherever it
    stands, and [normalizeCandleData] returns the empty array: reading it
    throws, and the handler drops the candles already kept. *)
Theorem normalizeCandleData_null_discards_all (now : float) (data : list item)
    (timeframe : string) :
  In ItemNull data -> normalizeCandleData StringToNumber now data timeframe = [].
Proof.
  intros Hin. rewrite normalizeCandleData_read.
  destruct (read_candles_null (getTimeframeInMs timeframe) data
              (now - (n2f (length data) * getTimeframeInMs timeframe)) Hin) as [e ->].
  reflexivity.
Qed.

(** X10. Every candle that [normalizeCandleData] returns passes
    [isValidCandle], and it returns at most one candle for each element
    of the raw data. *)
Theorem normalizeCandleData_all_valid (now : float) (data : list item)
    (timeframe : string) :
  let normalizedData := normalizeCandleData StringToNumber now data timeframe in
  Forall (fun candle => isValidCandle StringToNumber candle = true) normalizedData /\
  (length normalizedData <= length data)%nat.
Proof.
  cbv zeta. rewrite normalizeCandleData_read.
  destruct (read_candles _ _ _) as [candles|e] eqn:E.
  - split.
    + apply Forall_forall. intros candle Hin. apply filter_In in Hin. apply Hin.
    + rewrite <- (read_candles_length _ _ _ _ E). apply filter_length_le.
  - split; [constructor | simpl; lia].
Qed.

Lemma read_candles_rows interval (rows : list row) timestamp :
  forallb row_ok rows = true ->
  read_candles interval (map row_item rows) timestamp = Ok (map row_candle rows).
Proof.
  revert timestamp. induction rows as [|r rows IH]; intros timestamp H; [reflexivity|].
  cbn [forallb] in H. apply andb_true_iff in H. destruct H as [Hr Hrows].
  cbn [map read_candles]. rewrite (IH _ Hrows).
  destruct r as [[[[t o] h] l] c]. unfold row_ok in Hr.
  repeat (apply andb_true_iff in Hr; destruct Hr as [Hr ?]).
  cbn [row_item row_candle candle_of_item JS.bind element nth].
  unfold or. cbn [truthy_field]. rewrite Hr. reflexivity.
Qed.

Lemma isValidCandle_row (r : row) :
  row_ok r = true -> isValidCandle StringToNumber (row_candle r) = true.
Proof.
  destruct r as [[[[t o] h] l] c]. unfold row_ok. intros Hr.
  repeat (apply andb_true_iff in Hr; destruct Hr as [Hr ?]).
  unfold isValidCandle, isNaN. cbn.
  repeat match goal with H : negb _ = true |- _ => rewrite H; clear H end.
  reflexivity.
Qed.

(** X11. Raw data made of rows [[timestamp, open, high, low, close]] of
    numbers, with a timestamp other than zero and no price NaN, is
    recognised by [isCandleDataArray] and converted by
    [normalizeCandleData] row for row: each candle takes its five numbers
    from its row, in that order, and a volume of 0. *)
Theorem normalizeCandleData_rows (now : float) (rows : list row) (timeframe : string) :
  forallb row_ok rows = true ->
  normalizeCandleData StringToNumber now (map row_item rows) timeframe
  = map row_candle rows /\
  (rows <> [] -> isCandleDataArray (map row_item rows) = true).
Proof.
  intros Hrows. split.
  - rewrite normalizeCandleData_read, read_candles_rows by exact Hrows.
    rewrite forallb_forall in Hrows.
    induction rows as [|r rows IH]; [reflexivity|].
    cbn [map filter]. rewrite isValidCandle_row by (apply Hrows; left; reflexivity).
    f_equal. apply IH. intros x Hx. apply Hrows. right. exact Hx.
  - intros Hne. destruct rows as [|[[[[t o] h] l] c] rows]; [congruence|]. reflexivity.
Qed.

(** X12. [extractCandleData] returns [null] exactly when neither the
    window object nor the page gave a candle; what the window object gave
    is normalised whenever it is not empty, and what the page gave only
    when the window object gave nothing. *)
Theorem extractCandleData_sources (now : float)
    (fromWindowObject fromDOM : option (list item)) (timeframe : string) :
  let extracted := extractCandleData StringToNumber now fromWindowObject fromDOM timeframe in
  (extracted = None <-> found fromWindowObject = false /\ found fromDOM = false) /\
  (forall data,
      fromWindowObject = Some data -> data <> [] ->
      extracted = Some (normalizeCandleData StringToNumber now data timeframe)) /\
  (forall data,
      found fromWindowObject = false -> fromDOM = Some data -> data <> [] ->
      extracted = Some (normalizeCandleData StringToNumber now data timeframe)).
Proof.
  cbv zeta. unfold extractCandleData, extractFromNetworkRequests.
  split; [|split].
  - destruct fromWindowObject as [[|w ws]|], fromDOM as [[|d ds]|]; cbn;
      split; try (intros [? ?]); try intros ?; try discriminate; try reflexivity;
      try (split; reflexivity).
  - intros data -> Hne. destruct data as [|w ws]; [congruence|]. reflexivity.
  - intros data Hw -> Hne. destruct data as [|d ds]; [congruence|].
    destruct fromWindowObject as [[|w ws]|]; try discriminate; reflexivity.
Qed.

End Extraction.

Section ExtractionExamples.

Import JS Notions DataExtractor.
Local Open Scope string_scope.
Local Open Scope list_scope.
Local Open Scope float_scope.

Lemma normalizeCandleData_null_discards_all_witness :
  normalizeCandleData no_numeral 0 [inverted_item; ItemNull] "M1" = [].
Proof.
  apply (normalizeCandleData_null_discards_all no_numeral 0 [inverted_item; ItemNull] "M1").
  right. left. reflexivity.
Defined.

Lemma normalizeCandleData_rows_witness :
  normalizeCandleData no_numeral 0 (map row_item two_rows) "M5" = map row_candle two_rows /\
  isCandleDataArray (map row_item two_rows) = true.
Proof.
  destruct (normalizeCandleData_rows no_numeral 0 two_rows "M5") as [H1 H2];
    [reflexivity|].
  split; [exact H1 | apply H2; discriminate].
Defined.

(** Data that was found but holds no valid candle gives the empty array,
    not [null]. *)
Example extractCandleData_found_invalid :
  extractCandleData no_numeral 0 (Some [ItemOther]) None "M1" = Some [].
Proof. reflexivity. Qed.

End ExtractionExamples.

(* ================================================================== *)
(** * The pattern detector and the fallback prediction *)
(* ================================================================== *)

Section PatternDetector.

Import JS Model Notions AIAnalysis.
Local Open Scope string_scope.
Local Open Scope list_scope.
Local Open Scope float_scope.

(** C10. With fewer than five candles the detector returns a score of
    zero and a confidence of zero; it is a total function, and that case
    returns before any candle is read. *)
Theorem detectCandlestickPatterns_short (candles : list candle) :
  (length candles < 5)%nat ->
  detectCandlestickPatterns candles = {| score := 0; pattern_confidence := 0 |}.
Proof.
  intros H. unfold detectCandlestickPatterns.
  destruct (Nat.ltb_spec (length candles) 5) as [_|Hge]; [reflexivity | lia].
Qed.

Lemma detectCandlestickPatterns_short_witness :
  detectCandlestickPatterns [flat_candle; flat_candle; flat_candle; flat_candle]
  = {| score := 0; pattern_confidence := 0 |}.
Proof.
  apply detectCandlestickPatterns_short. simpl. lia.
Defined.

(** The six objects the detector can return. *)
Lemma detectCandlestickPatterns_cases (candles : list candle) :
  In (detectCandlestickPatterns candles)
     [ {| score := 0; pattern_confidence := 0 |};
       {| score := 0; pattern_confidence := 0.02 |};
       {| score := 10; pattern_confidence := 0.04 |};
       {| score := -10; pattern_confidence := 0.04 |};
       {| score := 10; pattern_confidence := 0.05 |};
       {| score := -10; pattern_confidence := 0.05 |} ].
Proof.
  unfold detectCandlestickPatterns, detectEngulfing, detectThree.
  repeat match goal with
         | |- context [if ?b then _ else _] => destruct b
         end; simpl; tauto.
Qed.

(** The thresholds and the clamp, in terms of the two running totals. *)
Lemma getPatternBasedPrediction_of_scores
    (candles : list candle) (indicators : indicators) :
  let r := getPatternBasedPrediction candles indicators in
  let predictionScore := fst (patternScores candles indicators) in
  let confidenceScore := snd (patternScores candles indicators) in
  (prediction r = "up" <-> (predictionScore >? 15) = true) /\
  (prediction r = "down" <-> (predictionScore <? -15) = true) /\
  (prediction r = "neutral" <->
     (predictionScore >? 15) = false /\ (predictionScore <? -15) = false) /\
  confidence r = Math_min (Math_max confidenceScore 0.3) 0.85 /\
  (0.3 <=? confidence r) = true /\ (confidence r <=? 0.85) = true.
Proof.
  unfold getPatternBasedPrediction, patternScores.
  generalize (detectCandlestickPatterns_cases candles).
  generalize (detectCandlestickPatterns candles). intros p Hp.
  unfold gtb.
  set (b1 := String.eqb (crossover (ema indicators)) "bullish").
  set (b2 := String.eqb (crossover (ema indicators)) "bearish").
  set (b3 := (0 <? histogram (macd indicators)) &&
             (previousHistogram (macd indicators) <? histogram (macd indicators))).
  set (b4 := (histogram (macd indicators) <? 0) &&
             (histogram (macd indicators) <? previousHistogram (macd indicators))).
  set (b5 := Model.value (rsi indicators) <? 30).
  set (b6 := 70 <? Model.value (rsi indicators)).
  set (b7 := String.eqb (position (bb indicators)) "lower").
  set (b8 := String.eqb (position (bb indicators)) "upper").
  set (b9 := String.eqb (trend (volume indicators)) "increasing").
  clearbody b1 b2 b3 b4 b5 b6 b7 b8 b9.
  destruct Hp as [<-|[<-|[<-|[<-|[<-|[<-|[]]]]]]];
    destruct b1, b2, b3, b4, b5, b6, b7, b8, b9; vm_compute;
    intuition (discriminate || reflexivity).
Qed.

(** The two running totals of the fallback, written out: 25, 20, 15 and
    20 points for the crossover, the histogram, the RSI and the band, each
    with the sign of its direction; 10 with the sign of that sum for an
    increasing volume; the score of the pattern.  The confidence starts
    at 0.5 and gains 0.1, 0.08, 0.06, 0.08 and 0.04 for the categories
    that fired, then the confidence of the pattern. *)
Lemma patternScores_weights (candles : list candle) (indicators : indicators) :
  let emaUp := String.eqb (crossover (ema indicators)) "bullish" in
  let emaDown := String.eqb (crossover (ema indicators)) "bearish" in
  let macdUp := (histogram (macd indicators) >? 0) &&
                (histogram (macd indicators) >? previousHistogram (macd indicators)) in
  let macdDown := (histogram (macd indicators) <? 0) &&
                  (histogram (macd indicators) <? previousHistogram (macd indicators)) in
  let rsiUp := Model.value (rsi indicators) <? 30 in
  let rsiDown := Model.value (rsi indicators) >? 70 in
  let bbUp := String.eqb (position (bb indicators)) "lower" in
  let bbDown := String.eqb (position (bb indicators)) "upper" in
  let four := (if emaUp then 25 else if emaDown then -25 else 0)
              + (if macdUp then 20 else if macdDown then -20 else 0)
              + (if rsiUp then 15 else if rsiDown then -15 else 0)
              + (if bbUp then 20 else if bbDown then -20 else 0) in
  let increasing := String.eqb (trend (volume indicators)) "increasing" in
  let volumeUp := increasing && (four >? 0) in
  let volumeDown := increasing && (four <? 0) in
  let pattern := detectCandlestickPatterns candles in
  patternScores candles indicators
  = (four + (if volumeUp then 10 else if volumeDown then -10 else 0) + score pattern,
     0.5 + (if emaUp || emaDown then 0.1 else 0)
     + (if macdUp || macdDown then 0.08 else 0)
     + (if rsiUp || rsiDown then 0.06 else 0)
     + (if bbUp || bbDown then 0.08 else 0)
     + (if volumeUp || volumeDown then 0.04 else 0)
     + pattern_confidence pattern).
Proof.
  cbv zeta. unfold patternScores.
  generalize (detectCandlestickPatterns_cases candles).
  generalize (detectCandlestickPatterns candles). intros p Hp.
  unfold gtb.
  set (b1 := String.eqb (crossover (ema indicators)) "bullish").
  set (b2 := String.eqb (crossover (ema indicators)) "bearish").
  set (b3 := (0 <? histogram (macd indicators)) &&
             (previousHistogram (macd indicators) <? histogram (macd indicators))).
  set (b4 := (histogram (macd indicators) <? 0) &&
             (histogram (macd indicators) <? previousHistogram (macd indicators))).
  set (b5 := Model.value (rsi indicators) <? 30).
  set (b6 := 70 <? Model.value (rsi indicators)).
  set (b7 := String.eqb (position (bb indicators)) "lower").
  set (b8 := String.eqb (position (bb indicators)) "upper").
  set (b9 := String.eqb (trend (volume indicators)) "increasing").
  clearbody b1 b2 b3 b4 b5 b6 b7 b8 b9.
  destruct Hp as [<-|[<-|[<-|[<-|[<-|[<-|[]]]]]]];
    destruct b1, b2, b3, b4, b5, b6, b7, b8, b9; vm_compute; reflexivity.
Qed.

(** C7. The score of the fallback is the sum of: 25 for a bullish and
    -25 for a bearish crossover; 20 for a positive and rising histogram,
    -20 for a negative and falling one; 15 for an RSI below 30, -15 above
    70; 20 for the lower band, -20 for the upper; 10 with the sign of that
    sum when the volume is increasing; and the score of the candlestick
    pattern.  It predicts ['up'] exactly when the score is above 15,
    ['down'] exactly when it is below -15 and ['neutral'] otherwise.  Its
    confidence is 0.5, plus 0.1, 0.08, 0.06, 0.08 and 0.04 for the
    categories that fired, plus the confidence of the pattern, clamped by
    [Math.min(Math.max(., 0.3), 0.85)]; it lies between 0.3 and 0.85, and
    the source is ['pattern']. *)
Theorem getPatternBasedPrediction_direction_confidence
    (candles : list candle) (indicators : indicators) :
  let emaUp := String.eqb (crossover (ema indicators)) "bullish" in
  let emaDown := String.eqb (crossover (ema indicators)) "bearish" in
  let macdUp := (histogram (macd indicators) >? 0) &&
                (histogram (macd indicators) >? previousHistogram (macd indicators)) in
  let macdDown := (histogram (macd indicators) <? 0) &&
                  (histogram (macd indicators) <? previousHistogram (macd indicators)) in
  let rsiUp := Model.value (rsi indicators) <? 30 in
  let rsiDown := Model.value (rsi indicators) >? 70 in
  let bbUp := String.eqb (position (bb indicators)) "lower" in
  let bbDown := String.eqb (position (bb indicators)) "upper" in
  let four := (if emaUp then 25 else if emaDown then -25 else 0)
              + (if macdUp then 20 else if macdDown then -20 else 0)
              + (if rsiUp then 15 else if rsiDown then -15 else 0)
              + (if bbUp then 20 else if bbDown then -20 else 0) in
  let increasing := String.eqb (trend (volume indicators)) "increasing" in
  let volumeUp := increasing && (four >? 0) in
  let volumeDown := increasing && (four <? 0) in
  let pattern := detectCandlestickPatterns candles in
  let predictionScore :=
    four + (if volumeUp then 10 else if volumeDown then -10 else 0) + score pattern in
  let confidenceScore :=
    0.5 + (if emaUp || emaDown then 0.1 else 0)
    + (if macdUp || macdDown then 0.08 else 0)
    + (if rsiUp || rsiDown then 0.06 else 0)
    + (if bbUp || bbDown then 0.08 else 0)
    + (if volumeUp || volumeDown then 0.04 else 0)
    + pattern_confidence pattern in
  let r := getPatternBasedPrediction candles indicators in
  (prediction r = "up" <-> (predictionScore >? 15) = true) /\
  (prediction r = "down" <-> (predictionScore <? -15) = true) /\
  (prediction r = "neutral" <->
     (predictionScore >? 15) = false /\ (predictionScore <? -15) = false) /\
  confidence r = Math_min (Math_max confidenceScore 0.3) 0.85 /\
  (0.3 <=? confidence r) = true /\ (confidence r <=? 0.85) = true /\
  source r = "pattern".
Proof.
  cbv zeta.
  pose proof (getPatternBasedPrediction_of_scores candles indicators) as H.
  cbv zeta in H.
  pose proof (patternScores_weights candles indicators) as Hw. cbv zeta in Hw.
  rewrite Hw in H. cbn [fst snd] in H.
  destruct H as (Hup & Hdown & Hneutral & Hconfidence & Hlo & Hhi).
  repeat split; try apply Hup; try apply Hdown; try apply Hneutral; try assumption.
  unfold getPatternBasedPrediction.
  destruct (patternScores candles indicators). reflexivity.
Qed.

(** A bullish crossover alone: a score of 25, hence ['up'], with a
    confidence of 0.5 + 0.1. *)
Example getPatternBasedPrediction_bullish :
  getPatternBasedPrediction [] bullish_indicators
  = {| prediction := "up"; confidence := 0.5 + 0.1; source := "pattern" |}.
Proof. vm_compute. reflexivity. Qed.

End PatternDetector.


(* ================================================================== *)
(** * The AI analysis module: flat series, recent candles and doji *)
(* ================================================================== *)

Section TrendAndPatterns.

Import JS Model Notions AIAnalysis.
Local Open Scope string_scope.
Local Open Scope list_scope.
Local Open Scope float_scope.

(** ** Facts about numbers *)

(** A finite number minus itself is the number [0]. *)
Lemma sub_self_zero v : is_finite v = true -> v - v = 0.
Proof. intros H. apply Prim2SF_inj. rewrite (sub_self v H). reflexivity. Qed.

(** Adding a zero of either sign to [0] leaves [0]. *)
Lemma add_zero_zero z s : Prim2SF z = S754_zero s -> 0 + z = 0.
Proof.
  intros Hz. apply Prim2SF_inj. rewrite add_spec, Hz.
  destruct s; reflexivity.
Qed.

(** [0] divided by a finite number other than zero is a zero. *)
Lemma zero_div_finite v :
  is_finite v = true -> is_zero v = false -> exists s, Prim2SF (0 / v) = S754_zero s.
Proof.
  rewrite is_finite_spec. unfold is_zero. rewrite eqb_spec, div_spec.
  change (Prim2SF 0) with (S754_zero false).
  destruct (Prim2SF v) as [s|s| |s m e]; try discriminate;
    try (destruct s; discriminate).
  intros _ _. exists (xorb false s). reflexivity.
Qed.

(** [x || 0] is never NaN. *)
Lemma or_zero_not_nan x : is_nan (or_zero x) = false.
Proof.
  unfold or_zero, truthy. destruct (is_zero x); [reflexivity|].
  destruct (is_nan x) eqn:E; [reflexivity | exact E].
Qed.

(** The relative change of a series that ends where it began is neither
    above 2 nor below -2: it is a zero, or NaN when the price is zero. *)
Lemma flat_change_sideways v :
  is_finite v = true ->
  let priceChange := (v - v) / v * 100 in
  (priceChange >? 2) = false /\ (priceChange <? -2) = false.
Proof.
  intros Hv. cbv zeta. rewrite (sub_self_zero v Hv). unfold gtb.
  rewrite !ltb_spec, mul_spec, div_spec.
  rewrite is_finite_spec in Hv.
  change (Prim2SF 0) with (S754_zero false).
  assert (H100 : Prim2SF 100 = S754_finite false 7036874417766400 (-46)) by reflexivity.
  assert (H2 : Prim2SF 2 = S754_finite false 4503599627370496 (-51)) by reflexivity.
  assert (H2' : Prim2SF (-2) = S754_finite true 4503599627370496 (-51)) by reflexivity.
  rewrite H100, H2, H2'.
  destruct (Prim2SF v) as [s|s| |s m e]; try discriminate;
    destruct s; split; reflexivity.
Qed.

(** The last division of [prepareDataForAI] for two to twenty closes and
    a volatility of zero. *)
Lemma volatility_small j :
  (j <= 18)%nat -> (0 / (n2f (j + 2) - 1)) * 100 = 0.
Proof.
  intros H.
  do 19 (destruct j as [|j]; [vm_compute; reflexivity|]). lia.
Qed.

(** ** Facts about the last candles *)

Lemma slice_last_app (n : nat) (older candles : list candle) :
  (n <= length candles)%nat ->
  slice_last n (older ++ candles) = slice_last n candles.
Proof.
  intros H. unfold slice_last. rewrite length_app, skipn_app.
  rewrite skipn_all2 by lia. simpl. f_equal. lia.
Qed.

Lemma last_of_slice (candles : list candle) :
  (5 <= length candles)%nat ->
  candle_at (slice_last 5 candles) (length (slice_last 5 candles) - 1)
  = candle_at candles (length candles - 1).
Proof.
  intros H. unfold slice_last, candle_at. rewrite length_skipn, nth_skipn.
  f_equal. lia.
Qed.

Lemma closes_recent (candles : list candle) (v : float) (n : nat) :
  Forall (fun candle => Candle.close candle = v) candles ->
  map Candle.close (slice_last n candles)
  = repeat v (length candles - (length candles - n)).
Proof.
  intros Hflat. unfold slice_last.
  rewrite <- skipn_map, (map_const _ v candles Hflat).
  apply skipn_repeat_le. lia.
Qed.

Lemma candle_at_close (candles : list candle) (v : float) (i : nat) :
  Forall (fun candle => Candle.close candle = v) candles ->
  (i < length candles)%nat -> Candle.close (candle_at candles i) = v.
Proof.
  intros Hflat Hi. rewrite Forall_forall in Hflat. apply Hflat.
  unfold candle_at. apply nth_In, Hi.
Qed.

Lemma detectTrend_app (older candles : list candle) :
  (10 <= length candles)%nat ->
  detectTrend (older ++ candles) = detectTrend candles.
Proof.
  intros H. unfold detectTrend. rewrite slice_last_app by exact H.
  rewrite length_app.
  destruct (Nat.ltb_spec (length older + length candles) 10) as [|_]; [lia|].
  destruct (Nat.ltb_spec (length candles) 10) as [|_]; [lia|]. reflexivity.
Qed.

Lemma detectCandlestickPatterns_app (older candles : list candle) :
  (10 <= length candles)%nat ->
  detectCandlestickPatterns (older ++ candles) = detectCandlestickPatterns candles.
Proof.
  intros H. unfold detectCandlestickPatterns.
  rewrite slice_last_app by lia. rewrite detectTrend_app by exact H.
  rewrite length_app.
  destruct (Nat.ltb_spec (length older + length candles) 5) as [|_]; [lia|].
  destruct (Nat.ltb_spec (length candles) 5) as [|_]; [lia|]. reflexivity.
Qed.

(** ** The trend and the patterns *)

(** X13. Candles that all close at the same finite price show no trend,
    however many they are: [detectTrend] returns ['sideways'], also when
    the price is zero and the relative change is NaN. *)
Theorem detectTrend_flat (candles : list candle) (v : float) :
  is_finite v = true ->
  Forall (fun candle => Candle.close candle = v) candles ->
  detectTrend candles = "sideways".
Proof.
  intros Hv Hflat. unfold detectTrend.
  destruct (Nat.ltb_spec (length candles) 10) as [Hlt|Hge]; [reflexivity|].
  assert (Hrecent : Forall (fun candle => Candle.close candle = v) (slice_last 10 candles)).
  { unfold slice_last. apply Forall_forall. intros c Hc.
    rewrite Forall_forall in Hflat. apply Hflat. eapply in_skipn, Hc. }
  assert (Hlen : length (slice_last 10 candles) = 10%nat)
    by (unfold slice_last; rewrite length_skipn; lia).
  rewrite !(candle_at_close _ v) by (try exact Hrecent; rewrite Hlen; lia).
  destruct (flat_change_sideways v Hv) as [-> ->]. reflexivity.
Qed.

Lemma detectTrend_flat_witness :
  detectTrend (repeat flat_candle 12) = "sideways".
Proof.
  apply (detectTrend_flat (repeat flat_candle 12) 1); [reflexivity|].
  apply Forall_repeat. reflexivity.
Defined.

(** X14. With at least ten candles, the trend, the pattern detected and
    the fallback prediction are those of the last ten candles: candles
    older than these change none of the three. *)
Theorem getPatternBasedPrediction_last_ten (older candles : list candle)
    (indicators : indicators) :
  (10 <= length candles)%nat ->
  detectTrend (older ++ candles) = detectTrend candles /\
  detectCandlestickPatterns (older ++ candles) = detectCandlestickPatterns candles /\
  getPatternBasedPrediction (older ++ candles) indicators
  = getPatternBasedPrediction candles indicators.
Proof.
  intros H. split; [apply detectTrend_app, H|].
  split; [apply detectCandlestickPatterns_app, H|].
  unfold getPatternBasedPrediction, patternScores.
  rewrite detectCandlestickPatterns_app by exact H. reflexivity.
Qed.

Lemma getPatternBasedPrediction_last_ten_witness :
  getPatternBasedPrediction ([flat_candle] ++ rising) bullish_indicators
  = getPatternBasedPrediction rising bullish_indicators.
Proof.
  apply (getPatternBasedPrediction_last_ten [flat_candle] rising bullish_indicators).
  simpl. lia.
Defined.

(** X15. When the last of at least five candles closes exactly where it
    opened, at a finite price, and its high is above its low, the detector
    reports a doji, a score of 0 with a confidence of 0.02, whatever the
    candles before it. *)
Theorem detectCandlestickPatterns_doji (candles : list candle) :
  (5 <= length candles)%nat ->
  let lastCandle := candle_at candles (length candles - 1) in
  is_finite (Candle.open lastCandle) = true ->
  Candle.close lastCandle = Candle.open lastCandle ->
  (Candle.high lastCandle - Candle.low lastCandle >? 0) = true ->
  detectCandlestickPatterns candles = {| score := 0; pattern_confidence := 0.02 |}.
Proof.
  intros Hlen lastCandle Hfin Hbody Hrange. unfold detectCandlestickPatterns.
  destruct (Nat.ltb_spec (length candles) 5) as [|_]; [lia|].
  rewrite (last_of_slice candles Hlen). fold lastCandle.
  rewrite Hbody, (sub_self_zero _ Hfin). change (Math_abs 0) with 0.
  assert (Hdoji : (0 / (Candle.high lastCandle - Candle.low lastCandle) <? 0.1) = true).
  { unfold gtb in Hrange. rewrite ltb_spec in Hrange. rewrite ltb_spec, div_spec.
    change (Prim2SF 0) with (S754_zero false) in *.
    assert (H01 : Prim2SF 0.1 = S754_finite false 7205759403792794 (-56)) by reflexivity.
    rewrite H01. unfold SFltb in Hrange.
    destruct (Prim2SF (Candle.high lastCandle - Candle.low lastCandle)) as [s|s| |s m e];
      cbn [SFcompare] in Hrange; try discriminate; destruct s; try discriminate;
      reflexivity. }
  rewrite Hdoji. reflexivity.
Qed.

Lemma detectCandlestickPatterns_doji_witness :
  detectCandlestickPatterns ending_in_doji = {| score := 0; pattern_confidence := 0.02 |}.
Proof.
  apply (detectCandlestickPatterns_doji ending_in_doji);
    [simpl; lia | reflexivity | reflexivity | reflexivity].
Defined.

(** A last candle whose four prices are equal is no doji: its body
    divided by its range is NaN. *)
Example detectCandlestickPatterns_flat :
  detectCandlestickPatterns (repeat flat_candle 5) = {| score := 0; pattern_confidence := 0 |}.
Proof. vm_compute. reflexivity. Qed.

(** X16. With fewer than thirty candles, the snapshot of the indicators
    is the default one and the fallback prediction made from it is always
    ['neutral'], from the source ['pattern'], with a confidence between
    0.5 and 0.55: a candlestick pattern alone never gives a direction. *)
Theorem getPatternBasedPrediction_insufficient_history (candles : list candle) :
  (length candles < 30)%nat ->
  let r := getPatternBasedPrediction candles (Indicators.calculateAllIndicators candles) in
  prediction r = "neutral" /\
  source r = "pattern" /\
  (0.5 <=? confidence r) = true /\ (confidence r <=? 0.55) = true.
Proof.
  intros Hlen. unfold Indicators.calculateAllIndicators.
  destruct (Nat.ltb_spec (length candles) 30) as [_|]; [|lia].
  unfold getPatternBasedPrediction, patternScores.
  generalize (detectCandlestickPatterns_cases candles).
  generalize (detectCandlestickPatterns candles). intros p Hp.
  destruct Hp as [<-|[<-|[<-|[<-|[<-|[<-|[]]]]]]]; vm_compute; repeat split.
Qed.

Lemma getPatternBasedPrediction_insufficient_history_witness :
  let r := getPatternBasedPrediction ending_in_doji
             (Indicators.calculateAllIndicators ending_in_doji) in
  prediction r = "neutral" /\
  source r = "pattern" /\
  (0.5 <=? confidence r) = true /\ (confidence r <=? 0.55) = true.
Proof.
  apply (getPatternBasedPrediction_insufficient_history ending_in_doji). simpl. lia.
Defined.

(** X17. The confidence of the fallback prediction is never below 0.5,
    whatever the candles and the snapshot: the running confidence starts
    at 0.5 and only grows, so that the lower bound 0.3 of the clamp is
    never what limits it, and the confidence is the running confidence
    capped at 0.85. *)
Theorem getPatternBasedPrediction_confidence_floor
    (candles : list candle) (indicators : indicators) :
  let r := getPatternBasedPrediction candles indicators in
  let confidenceScore := snd (patternScores candles indicators) in
  (0.5 <=? confidenceScore) = true /\
  (0.5 <=? confidence r) = true /\
  confidence r = Math_min confidenceScore 0.85.
Proof.
  unfold getPatternBasedPrediction, patternScores.
  generalize (detectCandlestickPatterns_cases candles).
  generalize (detectCandlestickPatterns candles). intros p Hp.
  unfold gtb.
  set (b1 := String.eqb (crossover (ema indicators)) "bullish").
  set (b2 := String.eqb (crossover (ema indicators)) "bearish").
  set (b3 := (0 <? histogram (macd indicators)) &&
             (previousHistogram (macd indicators) <? histogram (macd indicators))).
  set (b4 := (histogram (macd indicators) <? 0) &&
             (histogram (macd indicators) <? previousHistogram (macd indicators))).
  set (b5 := Model.value (rsi indicators) <? 30).
  set (b6 := 70 <? Model.value (rsi indicators)).
  set (b7 := String.eqb (position (bb indicators)) "lower").
  set (b8 := String.eqb (position (bb indicators)) "upper").
  set (b9 := String.eqb (trend (volume indicators)) "increasing").
  clearbody b1 b2 b3 b4 b5 b6 b7 b8 b9.
  destruct Hp as [<-|[<-|[<-|[<-|[<-|[<-|[]]]]]]];
    destruct b1, b2, b3, b4, b5, b6, b7, b8, b9; vm_compute;
    repeat split.
Qed.

(** When every category fires the running confidence is above 0.85, and
    the cap applies. *)
Example getPatternBasedPrediction_capped :
  getPatternBasedPrediction [] all_bullish
  = {| prediction := "up"; confidence := 0.85; source := "pattern" |} /\
  (snd (patternScores [] all_bullish) >? 0.85) = true.
Proof. vm_compute. split; reflexivity. Qed.

(** ** The summary made for the model *)

(** X18. For at least two candles that all close at the same finite
    price other than zero, the statistics of [prepareDataForAI] are a
    price change of 0, a relative change that is a zero and a volatility
    of 0. *)
Theorem prepareDataForAI_flat (candles : list candle) (indicators : indicators)
    (timeframe : string) (v : float) :
  (2 <= length candles)%nat ->
  is_finite v = true -> is_zero v = false ->
  Forall (fun candle => Candle.close candle = v) candles ->
  let s := statistics (prepareDataForAI candles indicators timeframe) in
  priceChange s = 0 /\
  (priceChangePercent s =? 0) = true /\
  volatility s = 0.
Proof.
  intros Hlen Hv Hnz Hflat. unfold prepareDataForAI.
  cbn [statistics priceChange priceChangePercent volatility].
  rewrite map_map. cbn [Candle.close].
  change (map (fun x : candle => Candle.close x) (slice_last 20 candles))
    with (map Candle.close (slice_last 20 candles)).
  rewrite (closes_recent candles v 20 Hflat).
  set (k := (length candles - (length candles - 20))%nat).
  assert (Hk : (2 <= k <= 20)%nat) by (unfold k; lia).
  rewrite repeat_length, at_back_repeat, get_repeat by lia.
  rewrite (sub_self_zero v Hv).
  destruct (zero_div_finite v Hv Hnz) as [s Hs].
  split; [reflexivity|]. split.
  - rewrite eqb_spec, mul_spec, Hs. destruct s; reflexivity.
  - assert (Hloop : forall l, Forall (fun i => (1 <= i < k)%nat) l ->
        fold_left (fun volatility i =>
                     volatility + Math_abs (get (repeat v k) i - get (repeat v k) (i - 1))
                                  / get (repeat v k) (i - 1)) l 0 = 0).
    { induction 1 as [|i l Hi _ IH]; [reflexivity|].
      cbn [fold_left]. rewrite !get_repeat by lia. rewrite (sub_self_zero v Hv).
      change (Math_abs 0) with 0. rewrite (add_zero_zero _ s Hs). exact IH. }
    rewrite Hloop.
    + replace k with (k - 2 + 2)%nat by lia. apply volatility_small. lia.
    + apply Forall_forall. intros i Hi. apply in_seq in Hi. lia.
Qed.

Lemma prepareDataForAI_flat_witness :
  let s := statistics (prepareDataForAI (repeat flat_candle 3)
                                        Indicators.getEmptyIndicators "M1") in
  priceChange s = 0 /\ (priceChangePercent s =? 0) = true /\ volatility s = 0.
Proof.
  apply (prepareDataForAI_flat (repeat flat_candle 3) Indicators.getEmptyIndicators "M1" 1);
    [simpl; lia | reflexivity | reflexivity |].
  apply Forall_repeat. reflexivity.
Defined.

(** With a single candle the volatility is NaN, the quotient of two
    zeros. *)
Example prepareDataForAI_single :
  is_nan (volatility (statistics (prepareDataForAI [flat_candle]
                                    Indicators.getEmptyIndicators "M1"))) = true.
Proof. vm_compute. reflexivity. Qed.

(** X19. The candles that [prepareDataForAI] passes on are the last
    twenty, or all of them when there are fewer: as many as that, closing
    at the same prices in the same order, and with a volume that is never
    NaN. *)
Theorem prepareDataForAI_recent (candles : list candle) (indicators : indicators)
    (timeframe : string) :
  let recent := recentCandles (prepareDataForAI candles indicators timeframe) in
  length recent = Nat.min 20 (length candles) /\
  map Candle.close recent = skipn (length candles - 20) (map Candle.close candles) /\
  Forall (fun candle => is_nan (Candle.volume candle) = false) recent.
Proof.
  cbv zeta. unfold prepareDataForAI. cbn [recentCandles]. unfold slice_last.
  split; [|split].
  - rewrite length_map, length_skipn. lia.
  - rewrite map_map. cbn [Candle.close]. symmetry. apply skipn_map.
  - apply Forall_forall. intros c Hc. apply in_map_iff in Hc.
    destruct Hc as (c0 & <- & _). cbn [Candle.volume]. apply or_zero_not_nan.
Qed.

End TrendAndPatterns.

(* ================================================================== *)
(** * Prediction fusion *)
(* ================================================================== *)

Section BraceSearch.

Import JS Notions.
Local Open Scope string_scope.

(** The suffix from the first opening brace, and the prefix to the last
    closing brace. *)
Lemma from_first_brace_spec (s suffix : string) :
  from_first_brace s = Some suffix <->
  exists before rest,
    s = before ++ String "{" rest /\ suffix = String "{" rest /\ occurs "{" before = false.
Proof.
  revert suffix. induction s as [|c s IH]; intros suffix; simpl.
  - split; [discriminate|]. intros (before & rest & H & _). destruct before; discriminate.
  - destruct (Ascii.eqb_spec c "{") as [->|Hne].
    + split.
      * intros H. injection H as <-. exists "", s. repeat split.
      * intros (before & rest & H & -> & Hno). destruct before as [|b before].
        -- simpl in H. rewrite H. reflexivity.
        -- simpl in H, Hno. injection H as <- _. rewrite Ascii.eqb_refl in Hno. discriminate.
    + rewrite IH. split.
      * intros (before & rest & -> & -> & Hno). exists (String c before), rest.
        repeat split. simpl. rewrite Hno.
        destruct (Ascii.eqb_spec c "{"); [contradiction | reflexivity].
      * intros (before & rest & H & -> & Hno). destruct before as [|b before].
        -- simpl in H. injection H as -> _. contradiction.
        -- simpl in H, Hno. injection H as <- ->. apply orb_false_iff in Hno.
           exists before, rest. repeat split. apply Hno.
Qed.

Lemma to_last_brace_none (s : string) :
  to_last_brace s = None <-> occurs "}" s = false.
Proof.
  induction s as [|c s IH]; simpl; [split; reflexivity|].
  destruct (to_last_brace s) as [p|].
  - split; [discriminate|]. intros H. apply orb_false_iff in H.
    destruct H as [_ H]. apply IH in H. discriminate.
  - destruct IH as [IH _]. rewrite (IH eq_refl), orb_false_r.
    destruct (Ascii.eqb c "}"); split; congruence.
Qed.

Lemma to_last_brace_spec (s prefix : string) :
  to_last_brace s = Some prefix <->
  exists inner after,
    s = inner ++ String "}" after /\ prefix = inner ++ "}" /\ occurs "}" after = false.
Proof.
  revert prefix. induction s as [|c s IH]; intros prefix; simpl.
  - split; [discriminate|]. intros (inner & after & H & _). destruct inner; discriminate.
  - destruct (to_last_brace s) as [p|] eqn:E.
    + split.
      * intros H. injection H as <-.
        destruct (proj1 (IH p) eq_refl) as (inner & after & -> & -> & Hno).
        exists (String c inner), after. repeat split. exact Hno.
      * intros (inner & after & H & -> & Hno).
        destruct inner as [|i inner].
        -- simpl in H. injection H as -> ->.
           apply to_last_brace_none in Hno. congruence.
        -- simpl in H. injection H as <- ->. simpl. f_equal. f_equal.
           assert (Hp : Some p = Some (inner ++ "}")).
           { apply IH. exists inner, after. repeat split. exact Hno. }
           congruence.
    + apply to_last_brace_none in E. split.
      * destruct (Ascii.eqb_spec c "}") as [->|Hne]; [|discriminate].
        intros H. injection H as <-. exists "", s. repeat split. exact E.
      * intros (inner & after & H & -> & Hno). destruct inner as [|i inner].
        -- simpl in H. injection H as -> ->. reflexivity.
        -- simpl in H. injection H as <- ->. exfalso.
           clear -E. induction inner as [|i' inner IHi]; simpl in E.
           ++ discriminate.
           ++ apply orb_false_iff in E. apply IHi, E.
Qed.

(** The match of the braces is the text between the first opening brace
    and the last closing brace. *)
Lemma match_braces_braced (text matched : string) :
  match_braces text = Some matched <-> braced text matched.
Proof.
  unfold match_braces, braced. split.
  - destruct (from_first_brace text) as [[|open rest]|] eqn:E; try discriminate.
    destruct (to_last_brace rest) as [p|] eqn:E2; [|discriminate].
    intros H. injection H as <-.
    apply from_first_brace_spec in E. destruct E as (before & rest' & -> & Heq & Hno).
    injection Heq as -> ->.
    apply to_last_brace_spec in E2. destruct E2 as (inner & after & -> & -> & Hno2).
    exists before, inner, after. repeat split; assumption.
  - intros (before & inner & after & -> & -> & Hno & Hno2).
    assert (E : from_first_brace (before ++ "{" ++ inner ++ "}" ++ after)
                = Some (String "{" (inner ++ String "}" after))).
    { apply from_first_brace_spec. exists before, (inner ++ String "}" after).
      repeat split. exact Hno. }
    rewrite E.
    assert (E2 : to_last_brace (inner ++ String "}" after) = Some (inner ++ "}")).
    { apply to_last_brace_spec. exists inner, after. repeat split. exact Hno2. }
    rewrite E2. reflexivity.
Qed.

(** Without such a cut of the text there is no match. *)
Lemma match_braces_none (text : string) :
  (forall matched, ~ braced text matched) -> match_braces text = None.
Proof.
  intros H. destruct (match_braces text) as [matched|] eqn:E; [|reflexivity].
  exfalso. apply (H matched), match_braces_braced, E.
Qed.

End BraceSearch.

Section Fusion.

Import JS Model Notions.
Local Open Scope string_scope.
Local Open Scope list_scope.
Local Open Scope float_scope.

Variable JSON_parse : string -> option json.

(** A reply is only passed on when the body holds a text, the text holds
    braces and what stands between them parses; it then carries the two
    fields of the parsed object, or their defaults, and the model as its
    source. *)
Lemma parseReply_inversion (body : json) (reply : AIAnalysis.reply_t) :
  AIAnalysis.parseReply JSON_parse body = Ok (Some reply) ->
  exists text matched aiResponse prediction confidence,
    match_braces text = Some matched /\
    JSON_parse matched = Some aiResponse /\
    prop (Some aiResponse) "prediction" = Ok prediction /\
    prop (Some aiResponse) "confidence" = Ok confidence /\
    reply = {| AIAnalysis.reply_prediction := or_default prediction (JsonString "neutral");
               AIAnalysis.reply_confidence := or_default confidence (JsonNumber 0.5);
               AIAnalysis.reply_source := "gemini" |}.
Proof.
  intros H. unfold AIAnalysis.parseReply in H.
  destruct (prop (Some body) "candidates") as [candidates|]; [|discriminate].
  cbn [JS.bind] in H.
  destruct (first candidates) as [candidate|]; [|discriminate]. cbn [JS.bind] in H.
  destruct (prop candidate "content") as [content|]; [|discriminate]. cbn [JS.bind] in H.
  destruct (prop content "parts") as [parts|]; [|discriminate]. cbn [JS.bind] in H.
  destruct (first parts) as [part|]; [|discriminate]. cbn [JS.bind] in H.
  destruct (prop part "text") as [textContent|]; [|discriminate]. cbn [JS.bind] in H.
  destruct textContent as [[| | |text| |]|]; try discriminate. cbn [JS.bind match_text] in H.
  destruct (match_braces text) as [matched|] eqn:Hmatch; [|discriminate].
  unfold AIAnalysis.parse in H.
  destruct (JSON_parse matched) as [aiResponse|] eqn:Hparse; [|discriminate].
  cbn [JS.bind] in H.
  destruct (prop (Some aiResponse) "prediction") as [prediction|] eqn:Hp; [|discriminate].
  cbn [JS.bind] in H.
  destruct (prop (Some aiResponse) "confidence") as [confidence|] eqn:Hc; [|discriminate].
  cbn [JS.bind] in H. injection H as <-.
  exists text, matched, aiResponse, prediction, confidence. repeat split; assumption.
Qed.

Lemma parseReply_source (body : json) (reply : AIAnalysis.reply_t) :
  AIAnalysis.parseReply JSON_parse body = Ok (Some reply) ->
  AIAnalysis.reply_source reply = "gemini".
Proof.
  intros H. destruct (parseReply_inversion body reply H) as (? & ? & ? & ? & ? & _ & _ & _ & _ & ->).
  reflexivity.
Qed.
(** The two readers, from the text of the reply on. *)
Lemma AIAnalysis_parseReply_text (body : json) :
  AIAnalysis.parseReply JSON_parse body
  = JS.bind (reply_text body) (fun textContent =>
    JS.bind (match_text textContent) (fun jsonMatch =>
    match jsonMatch with
    | Some matched =>
        JS.bind (AIAnalysis.parse JSON_parse matched) (fun aiResponse =>
        JS.bind (prop (Some aiResponse) "prediction") (fun prediction =>
        JS.bind (prop (Some aiResponse) "confidence") (fun confidence =>
        Ok (Some {| AIAnalysis.reply_prediction :=
                      or_default prediction (JsonString "neutral");
                    AIAnalysis.reply_confidence :=
                      or_default confidence (JsonNumber 0.5);
                    AIAnalysis.reply_source := "gemini" |}))))
    | None => Ok None
    end)).
Proof.
  unfold AIAnalysis.parseReply, reply_text.
  destruct (prop (Some body) "candidates") as [candidates|]; [|reflexivity].
  cbn [JS.bind].
  destruct (first candidates) as [candidate|]; [|reflexivity]. cbn [JS.bind].
  destruct (prop candidate "content") as [content|]; [|reflexivity]. cbn [JS.bind].
  destruct (prop content "parts") as [parts|]; [|reflexivity]. cbn [JS.bind].
  destruct (first parts) as [part|]; [|reflexivity]. cbn [JS.bind].
  reflexivity.
Qed.

Lemma Background_parseReply_text (body : json) :
  Background.parseReply JSON_parse body
  = JS.bind (reply_text body) (fun textContent =>
    JS.bind (match_text textContent) (fun jsonMatch =>
    match jsonMatch with
    | Some matched =>
        JS.bind (Background.parse JSON_parse matched) (fun aiResponse =>
        JS.bind (prop (Some aiResponse) "prediction") (fun prediction =>
        JS.bind (prop (Some aiResponse) "confidence") (fun confidence =>
        Ok (Some {| Background.reply_prediction :=
                      or_default prediction (JsonString "neutral");
                    Background.reply_confidence :=
                      or_default confidence (JsonNumber 0.5) |}))))
    | None => Ok None
    end)).
Proof.
  unfold Background.parseReply, reply_text.
  destruct (prop (Some body) "candidates") as [candidates|]; [|reflexivity].
  cbn [JS.bind].
  destruct (first candidates) as [candidate|]; [|reflexivity]. cbn [JS.bind].
  destruct (prop candidate "content") as [content|]; [|reflexivity]. cbn [JS.bind].
  destruct (prop content "parts") as [parts|]; [|reflexivity]. cbn [JS.bind].
  destruct (first parts) as [part|]; [|reflexivity]. cbn [JS.bind].
  reflexivity.
Qed.

(** A reply that is passed on was read from the text of the body, from
    what stands between its braces, which parsed. *)
Lemma parseReply_from_text (body : json) (reply : AIAnalysis.reply_t) :
  AIAnalysis.parseReply JSON_parse body = Ok (Some reply) ->
  exists text matched aiResponse,
    reply_text body = Ok (Some (JsonString text)) /\
    braced text matched /\
    match_braces text = Some matched /\
    JSON_parse matched = Some aiResponse.
Proof.
  rewrite AIAnalysis_parseReply_text. intros H.
  destruct (reply_text body) as [[[| | |text| |]|]|e]; try discriminate H.
  cbn [JS.bind match_text] in H.
  destruct (match_braces text) as [matched|] eqn:Hmatch; [|discriminate H].
  unfold AIAnalysis.parse in H.
  destruct (JSON_parse matched) as [aiResponse|] eqn:Hparse; [|discriminate H].
  exists text, matched, aiResponse.
  repeat split; try assumption. apply match_braces_braced, Hmatch.
Qed.

(** No reply is read from a body without a text, from a text without
    braces, nor from braces between which nothing parses. *)
Lemma AIAnalysis_parseReply_unread (body : json) :
  (forall text, reply_text body <> Ok (Some (JsonString text))) \/
  (exists text, reply_text body = Ok (Some (JsonString text)) /\
     ((forall matched, ~ braced text matched) \/
      exists matched, braced text matched /\ JSON_parse matched = None)) ->
  recover (AIAnalysis.parseReply JSON_parse body) (fun _ => None) = None.
Proof.
  rewrite AIAnalysis_parseReply_text.
  intros [Hmissing|(text & -> & [Hnone|(matched & Hbraced & Hparse)])].
  - destruct (reply_text body) as [[[| | |text| |]|]|e]; try reflexivity.
    exfalso. apply (Hmissing text). reflexivity.
  - cbn [JS.bind match_text]. rewrite (match_braces_none text Hnone). reflexivity.
  - cbn [JS.bind match_text]. apply match_braces_braced in Hbraced. rewrite Hbraced.
    unfold AIAnalysis.parse. rewrite Hparse. reflexivity.
Qed.

Lemma Background_parseReply_unread (body : json) :
  (forall text, reply_text body <> Ok (Some (JsonString text))) \/
  (exists text, reply_text body = Ok (Some (JsonString text)) /\
     ((forall matched, ~ braced text matched) \/
      exists matched, braced text matched /\ JSON_parse matched = None)) ->
  recover (Background.parseReply JSON_parse body) (fun _ => None) = None.
Proof.
  rewrite Background_parseReply_text.
  intros [Hmissing|(text & -> & [Hnone|(matched & Hbraced & Hparse)])].
  - destruct (reply_text body) as [[[| | |text| |]|]|e]; try reflexivity.
    exfalso. apply (Hmissing text). reflexivity.
  - cbn [JS.bind match_text]. rewrite (match_braces_none text Hnone). reflexivity.
  - cbn [JS.bind match_text]. apply match_braces_braced in Hbraced. rewrite Hbraced.
    unfold Background.parse. rewrite Hparse. reflexivity.
Qed.

(** The reply read from braces between which an object parses. *)
Lemma AIAnalysis_parseReply_object (body : json) (text matched : string)
    (properties : list (string * json)) :
  reply_text body = Ok (Some (JsonString text)) ->
  braced text matched ->
  JSON_parse matched = Some (JsonObject properties) ->
  AIAnalysis.parseReply JSON_parse body
  = Ok (Some {| AIAnalysis.reply_prediction :=
                  or_default (lookup "prediction" properties) (JsonString "neutral");
                AIAnalysis.reply_confidence :=
                  or_default (lookup "confidence" properties) (JsonNumber 0.5);
                AIAnalysis.reply_source := "gemini" |}).
Proof.
  intros Htext Hbraced Hparse. rewrite AIAnalysis_parseReply_text, Htext.
  cbn [JS.bind match_text]. apply match_braces_braced in Hbraced. rewrite Hbraced.
  unfold AIAnalysis.parse. rewrite Hparse. reflexivity.
Qed.

(** C1, as the code has it. [getAIPrediction] of the AI module never
    throws. It resolves to the local pattern-based estimate when no key is
    given; when the request is rejected, the response is not OK or its
    body does not decode; when the body holds no text at
    [candidates[0].content.parts[0].text]; when the text holds no opening
    brace followed by a closing one; and when [JSON.parse] throws on what
    stands from the first opening brace to the last closing one.  When an
    object parses there, the reply is passed on with the source
    ['gemini']: its prediction if truthy and ['neutral'] otherwise, its
    confidence if truthy and 0.5 otherwise, so that an object without
    either field gives ['neutral'] and 0.5.  [getAIPrediction] of
    background.js never throws either, and resolves to the constant
    neutral estimate with confidence 0.5 instead, on each of these
    failures whatever the key, and always with the key of the file, which
    is empty. *)
Theorem getAIPrediction_fallback (fetch : fetch_outcome) (apiKey : string)
    (candles : list candle) (indicators : indicators) (timeframe : string) :
  let local :=
    AIAnalysis.reply_of (AIAnalysis.getPatternBasedPrediction candles indicators) in
  let answer :=
    AIAnalysis.getAIPrediction JSON_parse fetch apiKey candles indicators timeframe in
  let constant :=
    Background.getAIPredictionWith JSON_parse apiKey fetch candles indicators timeframe in
  (exists reply, answer = Ok reply) /\
  (apiKey = "" -> answer = Ok local) /\
  (request_failed fetch -> answer = Ok local) /\
  (forall status body,
      fetch = Response true status (Ok body) ->
      (forall reply, AIAnalysis.parseReply JSON_parse body <> Ok (Some reply)) ->
      answer = Ok local) /\
  (forall status body reply,
      apiKey <> "" ->
      fetch = Response true status (Ok body) ->
      AIAnalysis.parseReply JSON_parse body = Ok (Some reply) ->
      answer = Ok reply /\ AIAnalysis.reply_source reply = "gemini" /\
      exists text matched aiResponse,
        reply_text body = Ok (Some (JsonString text)) /\
        braced text matched /\
        match_braces text = Some matched /\ JSON_parse matched = Some aiResponse) /\
  (forall status body,
      fetch = Response true status (Ok body) ->
      (forall text, reply_text body <> Ok (Some (JsonString text))) ->
      answer = Ok local /\ constant = Ok Background.neutral_reply) /\
  (forall status body text,
      fetch = Response true status (Ok body) ->
      reply_text body = Ok (Some (JsonString text)) ->
      (forall matched, ~ braced text matched) ->
      answer = Ok local /\ constant = Ok Background.neutral_reply) /\
  (forall status body text matched,
      fetch = Response true status (Ok body) ->
      reply_text body = Ok (Some (JsonString text)) ->
      braced text matched ->
      JSON_parse matched = None ->
      answer = Ok local /\ constant = Ok Background.neutral_reply) /\
  (forall status body text matched properties,
      apiKey <> "" ->
      fetch = Response true status (Ok body) ->
      reply_text body = Ok (Some (JsonString text)) ->
      braced text matched ->
      JSON_parse matched = Some (JsonObject properties) ->
      answer
      = Ok {| AIAnalysis.reply_prediction :=
                or_default (lookup "prediction" properties) (JsonString "neutral");
              AIAnalysis.reply_confidence :=
                or_default (lookup "confidence" properties) (JsonNumber 0.5);
              AIAnalysis.reply_source := "gemini" |} /\
      (lookup "prediction" properties = None ->
       lookup "confidence" properties = None ->
       answer = Ok {| AIAnalysis.reply_prediction := JsonString "neutral";
                      AIAnalysis.reply_confidence := JsonNumber 0.5;
                      AIAnalysis.reply_source := "gemini" |})) /\
  (exists reply, constant = Ok reply) /\
  (request_failed fetch -> constant = Ok Background.neutral_reply) /\
  Background.getAIPrediction JSON_parse fetch candles indicators timeframe
  = Ok Background.neutral_reply.
Proof.
  cbv zeta.
  assert (Hunread : forall status body,
    fetch = Response true status (Ok body) ->
    (forall text, reply_text body <> Ok (Some (JsonString text))) \/
    (exists text, reply_text body = Ok (Some (JsonString text)) /\
       ((forall matched, ~ braced text matched) \/
        exists matched, braced text matched /\ JSON_parse matched = None)) ->
    AIAnalysis.getAIPrediction JSON_parse fetch apiKey candles indicators timeframe
    = Ok (AIAnalysis.reply_of (AIAnalysis.getPatternBasedPrediction candles indicators)) /\
    Background.getAIPredictionWith JSON_parse apiKey fetch candles indicators timeframe
    = Ok Background.neutral_reply).
  { intros status body -> H.
    unfold AIAnalysis.getAIPrediction, Background.getAIPredictionWith.
    destruct (String.eqb apiKey ""); [split; reflexivity|].
    cbn [negb JS.bind JS.try_catch].
    rewrite (AIAnalysis_parseReply_unread body H), (Background_parseReply_unread body H).
    split; reflexivity. }
  unfold AIAnalysis.getAIPrediction.
  split; [|split; [|split; [|split; [|split; [|split; [|split; [|split;
    [|split; [|split; [|split]]]]]]]]]].
  - destruct (String.eqb apiKey ""); [eexists; reflexivity|].
    destruct fetch as [e|[] status [body|e]]; simpl; try (eexists; reflexivity).
    destruct (AIAnalysis.parseReply JSON_parse body) as [[reply|]|e]; simpl;
      eexists; reflexivity.
  - intros ->. reflexivity.
  - intros Hfail. destruct (String.eqb apiKey ""); [reflexivity|].
    destruct fetch as [e|ok status body]; simpl in *; [reflexivity|].
    destruct Hfail as [->|[e ->]]; [reflexivity|].
    destruct ok; reflexivity.
  - intros status body -> Hnone.
    destruct (String.eqb apiKey ""); [reflexivity|]. simpl.
    destruct (AIAnalysis.parseReply JSON_parse body) as [[reply|]|e]; simpl;
      try reflexivity.
    exfalso. apply (Hnone reply). reflexivity.
  - intros status body reply Hkey -> Hreply. split; [|split].
    + destruct (String.eqb_spec apiKey "") as [->|_]; [congruence|].
      simpl. rewrite Hreply. reflexivity.
    + apply (parseReply_source body), Hreply.
    + apply (parseReply_from_text body reply), Hreply.
  - intros status body Hfetch Hmissing.
    apply (Hunread status body Hfetch). left. exact Hmissing.
  - intros status body text Hfetch Htext Hnone.
    apply (Hunread status body Hfetch). right. exists text. split; [exact Htext|].
    left. exact Hnone.
  - intros status body text matched Hfetch Htext Hbraced Hparse.
    apply (Hunread status body Hfetch). right. exists text. split; [exact Htext|].
    right. exists matched. split; assumption.
  - intros status body text matched properties Hkey -> Htext Hbraced Hparse.
    assert (Hanswer :
      try_catch
        (if String.eqb apiKey ""
         then Ok (AIAnalysis.reply_of
                    (AIAnalysis.getPatternBasedPrediction candles indicators))
         else
           JS.bind (if negb true then Throw (Error "Gemini API error") else Ok body)
             (fun result =>
                match recover (AIAnalysis.parseReply JSON_parse result)
                              (fun _ => None) with
                | Some reply => Ok reply
                | None => Ok (AIAnalysis.reply_of
                                (AIAnalysis.getPatternBasedPrediction candles indicators))
                end))
        (fun _ => Ok (AIAnalysis.reply_of
                        (AIAnalysis.getPatternBasedPrediction candles indicators)))
      = Ok {| AIAnalysis.reply_prediction :=
                or_default (lookup "prediction" properties) (JsonString "neutral");
              AIAnalysis.reply_confidence :=
                or_default (lookup "confidence" properties) (JsonNumber 0.5);
              AIAnalysis.reply_source := "gemini" |}).
    { destruct (String.eqb_spec apiKey "") as [->|_]; [congruence|].
      cbn [negb JS.bind].
      rewrite (AIAnalysis_parseReply_object body text matched properties
                 Htext Hbraced Hparse).
      reflexivity. }
    split; [exact Hanswer|].
    intros Hp Hc. rewrite Hanswer, Hp, Hc. reflexivity.
  - unfold Background.getAIPredictionWith.
    destruct (String.eqb apiKey ""); [eexists; reflexivity|].
    destruct fetch as [e|[] status [body|e]]; simpl; try (eexists; reflexivity).
    destruct (Background.parseReply JSON_parse body) as [[reply|]|e]; simpl;
      eexists; reflexivity.
  - intros Hfail. unfold Background.getAIPredictionWith.
    destruct (String.eqb apiKey ""); [reflexivity|].
    destruct fetch as [e|ok status body]; simpl in *; [reflexivity|].
    destruct Hfail as [->|[e ->]]; [reflexivity|].
    destruct ok; reflexivity.
  - reflexivity.
Qed.

End Fusion.

Section FusionExamples.

Import JS Model Notions.
Local Open Scope string_scope.
Local Open Scope list_scope.
Local Open Scope float_scope.

(** Five requests with a key, for a snapshot whose local estimate is
    ['up']: a rejected request, a body without a text, a text without
    braces and braces between which nothing parses all give the local
    estimate; an empty object gives ['neutral'] and 0.5 from ['gemini'].
    The reader of background.js answers the text without braces with
    its neutral constant. *)
Lemma getAIPrediction_fallback_witness :
  AIAnalysis.getAIPrediction parse_empty_object (Rejected NetworkError) "key" []
                             bullish_indicators "M1"
  = Ok (AIAnalysis.reply_of (AIAnalysis.getPatternBasedPrediction [] bullish_indicators))
  /\
  AIAnalysis.getAIPrediction parse_empty_object (Response true 200 (Ok (JsonObject [])))
                             "key" [] bullish_indicators "M1"
  = Ok (AIAnalysis.reply_of (AIAnalysis.getPatternBasedPrediction [] bullish_indicators))
  /\
  AIAnalysis.getAIPrediction parse_empty_object
                             (Response true 200 (Ok (body_with_text "no idea")))
                             "key" [] bullish_indicators "M1"
  = Ok (AIAnalysis.reply_of (AIAnalysis.getPatternBasedPrediction [] bullish_indicators))
  /\
  AIAnalysis.getAIPrediction parse_empty_object
                             (Response true 200 (Ok (body_with_text "{oops}")))
                             "key" [] bullish_indicators "M1"
  = Ok (AIAnalysis.reply_of (AIAnalysis.getPatternBasedPrediction [] bullish_indicators))
  /\
  AIAnalysis.getAIPrediction parse_empty_object
                             (Response true 200 (Ok (body_with_text "Here: {}")))
                             "key" [] bullish_indicators "M1"
  = Ok {| AIAnalysis.reply_prediction := JsonString "neutral";
          AIAnalysis.reply_confidence := JsonNumber 0.5;
          AIAnalysis.reply_source := "gemini" |}
  /\
  Background.getAIPredictionWith parse_empty_object "key"
                                 (Response true 200 (Ok (body_with_text "no idea")))
                                 [] bullish_indicators "M1"
  = Ok Background.neutral_reply.
Proof.
  split; [|split; [|split; [|split; [|split]]]].
  - destruct (getAIPrediction_fallback parse_empty_object (Rejected NetworkError) "key" []
                bullish_indicators "M1") as (_ & _ & Hfailed & _).
    apply Hfailed. exact I.
  - destruct (getAIPrediction_fallback parse_empty_object
                (Response true 200 (Ok (JsonObject []))) "key" []
                bullish_indicators "M1") as (_ & _ & _ & _ & _ & Hmissing & _).
    apply (Hmissing 200%nat (JsonObject []) eq_refl).
    intros text H. discriminate H.
  - destruct (getAIPrediction_fallback parse_empty_object
                (Response true 200 (Ok (body_with_text "no idea"))) "key" []
                bullish_indicators "M1") as (_ & _ & _ & _ & _ & _ & Hbraces & _).
    apply (Hbraces 200%nat (body_with_text "no idea") "no idea" eq_refl eq_refl).
    intros matched H. apply match_braces_braced in H. discriminate H.
  - destruct (getAIPrediction_fallback parse_empty_object
                (Response true 200 (Ok (body_with_text "{oops}"))) "key" []
                bullish_indicators "M1") as (_ & _ & _ & _ & _ & _ & _ & Hparse & _).
    apply (Hparse 200%nat (body_with_text "{oops}") "{oops}" "{oops}" eq_refl eq_refl).
    + exists "", "oops", "". repeat split.
    + reflexivity.
  - destruct (getAIPrediction_fallback parse_empty_object
                (Response true 200 (Ok (body_with_text "Here: {}"))) "key" []
                bullish_indicators "M1")
      as (_ & _ & _ & _ & _ & _ & _ & _ & Hobject & _).
    apply (Hobject 200%nat (body_with_text "Here: {}") "Here: {}" "{}" []).
    + discriminate.
    + reflexivity.
    + reflexivity.
    + exists "Here: ", "", "". repeat split.
    + reflexivity.
    + reflexivity.
    + reflexivity.
  - destruct (getAIPrediction_fallback parse_empty_object
                (Response true 200 (Ok (body_with_text "no idea"))) "key" []
                bullish_indicators "M1") as (_ & _ & _ & _ & _ & _ & Hbraces & _).
    apply (Hbraces 200%nat (body_with_text "no idea") "no idea" eq_refl eq_refl).
    intros matched H. apply match_braces_braced in H. discriminate H.
Defined.

(** C1 fails as stated. For a snapshot with a bullish crossover the local
    estimate is ['up'], yet background.js answers a rejected request with
    the neutral constant, and the AI module answers a reply whose object is
    empty, hence without its required fields, with the defaults ['neutral']
    and 0.5 under the source ['gemini']. *)
Lemma getAIPrediction_not_local_counterexample :
  AIAnalysis.getPatternBasedPrediction [] bullish_indicators
  = {| AIAnalysis.prediction := "up";
       AIAnalysis.confidence := 0.5 + 0.1;
       AIAnalysis.source := "pattern" |} /\
  Background.getAIPrediction parse_empty_object (Rejected NetworkError) []
                             bullish_indicators "M1"
  = Ok {| Background.reply_prediction := JsonString "neutral";
          Background.reply_confidence := JsonNumber 0.5 |} /\
  AIAnalysis.getAIPrediction parse_empty_object (Response true 200 (Ok empty_object_body))
                             "key" [] bullish_indicators "M1"
  = Ok {| AIAnalysis.reply_prediction := JsonString "neutral";
          AIAnalysis.reply_confidence := JsonNumber 0.5;
          AIAnalysis.reply_source := "gemini" |}.
Proof. vm_compute. repeat split; reflexivity. Qed.

(** The braces are matched from the first opening one to the last closing
    one. *)
Example match_braces_greedy :
  match_braces "Sure: {a: {}} and then {b: 1}." = Some "{a: {}} and then {b: 1}".
Proof. reflexivity. Qed.

End FusionExamples.


(* ================================================================== *)
(** * The replies of the model: defaults, the two readers, the braces *)
(* ================================================================== *)

Section Replies.

Import JS Notions.
Local Open Scope string_scope.
Local Open Scope list_scope.
Local Open Scope float_scope.
Local Open Scope js_scope.

Variable JSON_parse : string -> option json.

(** [v || d] is truthy as soon as [d] is. *)
Lemma or_default_truthy (v : JS.value) (d : json) :
  truthy_value (Some d) = true -> truthy_value (Some (or_default v d)) = true.
Proof.
  intros Hd. unfold or_default. destruct v as [j|]; [|exact Hd].
  destruct (truthy_value (Some j)) eqn:E; [exact E | exact Hd].
Qed.

(** X20. The two fields of a reply that [getAIPrediction] passes on from
    the model are always truthy: a prediction that is missing or empty has
    been replaced by ['neutral'], and a confidence that is missing, NaN or
    zero by 0.5, so that a confidence of 0 is never reported. *)
Theorem parseReply_fields_truthy (body : json) (reply : AIAnalysis.reply_t) :
  AIAnalysis.parseReply JSON_parse body = Ok (Some reply) ->
  truthy_value (Some (AIAnalysis.reply_prediction reply)) = true /\
  truthy_value (Some (AIAnalysis.reply_confidence reply)) = true /\
  AIAnalysis.reply_prediction reply <> JsonString "" /\
  AIAnalysis.reply_confidence reply <> JsonNumber 0.
Proof.
  intros H.
  destruct (parseReply_inversion JSON_parse body reply H)
    as (text & matched & aiResponse & prediction & confidence & _ & _ & _ & _ & ->).
  cbn [AIAnalysis.reply_prediction AIAnalysis.reply_confidence].
  assert (Hp : truthy_value (Some (or_default prediction (JsonString "neutral"))) = true)
    by (apply or_default_truthy; reflexivity).
  assert (Hc : truthy_value (Some (or_default confidence (JsonNumber 0.5))) = true)
    by (apply or_default_truthy; reflexivity).
  split; [exact Hp|]. split; [exact Hc|]. split.
  - intros Heq. rewrite Heq in Hp. discriminate Hp.
  - intros Heq. rewrite Heq in Hc. discriminate Hc.
Qed.

(** X21. The reader of background.js and the reader of the AI module
    agree on every body: they throw on the same bodies, find no reply in
    the same bodies, and otherwise pass on the same prediction and the
    same confidence, the AI module adding its source. *)
Theorem parseReply_agree (body : json) :
  Background.parseReply JSON_parse body
  = match AIAnalysis.parseReply JSON_parse body with
    | Ok (Some reply) => Ok (Some (without_source reply))
    | Ok None => Ok None
    | Throw e => Throw e
    end.
Proof.
  unfold Background.parseReply, AIAnalysis.parseReply.
  destruct (prop (Some body) "candidates") as [candidates|]; [|reflexivity].
  cbn [JS.bind].
  destruct (first candidates) as [candidate|]; [|reflexivity]. cbn [JS.bind].
  destruct (prop candidate "content") as [content|]; [|reflexivity]. cbn [JS.bind].
  destruct (prop content "parts") as [parts|]; [|reflexivity]. cbn [JS.bind].
  destruct (first parts) as [part|]; [|reflexivity]. cbn [JS.bind].
  destruct (prop part "text") as [textContent|]; [|reflexivity]. cbn [JS.bind].
  destruct (match_text textContent) as [[matched|]|]; try reflexivity. cbn [JS.bind].
  unfold Background.parse, AIAnalysis.parse.
  destruct (JSON_parse matched) as [aiResponse|]; [|reflexivity]. cbn [JS.bind].
  destruct (prop (Some aiResponse) "prediction") as [prediction|]; [|reflexivity].
  cbn [JS.bind].
  destruct (prop (Some aiResponse) "confidence") as [confidence|]; reflexivity.
Qed.

End Replies.

Section RepliesExamples.

Import JS Notions.
Local Open Scope string_scope.
Local Open Scope list_scope.
Local Open Scope float_scope.

(** A reply of the model that gives a confidence of 0: it is passed on
    with a confidence of 0.5. *)
Lemma parseReply_fields_truthy_witness :
  AIAnalysis.parseReply parse_zero_confidence zero_confidence_body
  = Ok (Some {| AIAnalysis.reply_prediction := JsonString "up";
                AIAnalysis.reply_confidence := JsonNumber 0.5;
                AIAnalysis.reply_source := "gemini" |}) /\
  truthy_value (Some (JsonNumber 0.5)) = true.
Proof.
  split; [reflexivity|].
  apply (parseReply_fields_truthy parse_zero_confidence zero_confidence_body
           {| AIAnalysis.reply_prediction := JsonString "up";
              AIAnalysis.reply_confidence := JsonNumber 0.5;
              AIAnalysis.reply_source := "gemini" |}).
  reflexivity.
Defined.

End RepliesExamples.

Section Braces.

Import JS Notions.
Local Open Scope string_scope.

(** X22. The text matched in a reply of the model runs from the first
    opening brace of the text to its last closing brace: [matched] is the
    match exactly when the text is some [before], without opening brace,
    then [matched], which starts and ends with a brace, then some [after],
    without closing brace. There is no match exactly when no such cut of
    the text exists. *)
Theorem match_braces_span (text matched : string) :
  match_braces text = Some matched <->
  exists before inner after,
    text = before ++ "{" ++ inner ++ "}" ++ after /\
    matched = "{" ++ inner ++ "}" /\
    occurs "{" before = false /\ occurs "}" after = false.
Proof.
  unfold match_braces. split.
  - destruct (from_first_brace text) as [[|open rest]|] eqn:E; try discriminate.
    destruct (to_last_brace rest) as [p|] eqn:E2; [|discriminate].
    intros H. injection H as <-.
    apply from_first_brace_spec in E. destruct E as (before & rest' & -> & Heq & Hno).
    injection Heq as -> ->.
    apply to_last_brace_spec in E2. destruct E2 as (inner & after & -> & -> & Hno2).
    exists before, inner, after. repeat split; assumption.
  - intros (before & inner & after & -> & -> & Hno & Hno2).
    assert (E : from_first_brace (before ++ "{" ++ inner ++ "}" ++ after)
                = Some (String "{" (inner ++ String "}" after))).
    { apply from_first_brace_spec. exists before, (inner ++ String "}" after).
      repeat split. exact Hno. }
    rewrite E.
    assert (E2 : to_last_brace (inner ++ String "}" after) = Some (inner ++ "}")).
    { apply to_last_brace_spec. exists inner, after. repeat split. exact Hno2. }
    rewrite E2. reflexivity.
Qed.

End Braces.

(* ================================================================== *)
(** * The signal scorer and the accuracy tracker *)
(* ================================================================== *)

Section Scorer.

Import JS Model Notions Background.
Local Open Scope string_scope.
Local Open Scope list_scope.
Local Open Scope float_scope.

(** The points of the five indicators are one of finitely many sums of
    20, 20, 15, 15 and 10, all of them finite. *)
Lemma indicatorPoints_finite (indicators : indicators) :
  is_finite (indicatorPoints indicators) = true.
Proof.
  unfold indicatorPoints, gtb.
  set (b1 := String.eqb (crossover (ema indicators)) "bullish").
  set (b2 := String.eqb (crossover (ema indicators)) "bearish").
  set (b3 := (0 <? histogram (macd indicators)) &&
             (previousHistogram (macd indicators) <? histogram (macd indicators))).
  set (b4 := (histogram (macd indicators) <? 0) &&
             (histogram (macd indicators) <? previousHistogram (macd indicators))).
  set (b5 := Model.value (rsi indicators) <? 30).
  set (b6 := 70 <? Model.value (rsi indicators)).
  set (b7 := String.eqb (position (bb indicators)) "lower").
  set (b8 := String.eqb (position (bb indicators)) "upper").
  set (b9 := String.eqb (trend (volume indicators)) "increasing").
  clearbody b1 b2 b3 b4 b5 b6 b7 b8 b9.
  destruct b1, b2, b3, b4, b5, b6, b7, b8, b9; vm_compute; reflexivity.
Qed.

(** The score is a number as soon as the confidence is one. *)
Lemma signalPoints_not_nan (indicators : indicators) (aiAnalysis : aiAnalysis_t) :
  is_nan (confidence aiAnalysis) = false ->
  is_nan (signalPoints indicators aiAnalysis) = false.
Proof.
  intros Hc. unfold signalPoints.
  pose proof (indicatorPoints_finite indicators) as Hk.
  destruct (String.eqb (prediction aiAnalysis) "up");
    [|destruct (String.eqb (prediction aiAnalysis) "down")].
  - apply add_not_nan; [assumption | apply mul_twenty_not_nan, Hc].
  - apply sub_not_nan; [assumption | apply mul_twenty_not_nan, Hc].
  - apply is_finite_not_nan, Hk.
Qed.

(** The points of the five indicators, written out: 20 for the crossover,
    20 for the histogram, 15 for the RSI, 15 for the band, each with the
    sign of its direction, and 10 for an increasing volume with the sign
    of the sum so far. *)
Lemma indicatorPoints_weights (indicators : indicators) :
  let emaPoints :=
    if String.eqb (crossover (ema indicators)) "bullish" then 20
    else if String.eqb (crossover (ema indicators)) "bearish" then -20 else 0 in
  let macdPoints :=
    if (histogram (macd indicators) >? 0) &&
       (histogram (macd indicators) >? previousHistogram (macd indicators)) then 20
    else if (histogram (macd indicators) <? 0) &&
            (histogram (macd indicators) <? previousHistogram (macd indicators)) then -20
    else 0 in
  let rsiPoints :=
    if Model.value (rsi indicators) <? 30 then 15
    else if Model.value (rsi indicators) >? 70 then -15 else 0 in
  let bbPoints :=
    if String.eqb (position (bb indicators)) "lower" then 15
    else if String.eqb (position (bb indicators)) "upper" then -15 else 0 in
  let four := emaPoints + macdPoints + rsiPoints + bbPoints in
  let volumePoints :=
    if String.eqb (trend (volume indicators)) "increasing"
    then if four >? 0 then 10 else if four <? 0 then -10 else 0
    else 0 in
  indicatorPoints indicators = four + volumePoints.
Proof.
  unfold indicatorPoints, gtb.
  set (b1 := String.eqb (crossover (ema indicators)) "bullish").
  set (b2 := String.eqb (crossover (ema indicators)) "bearish").
  set (b3 := (0 <? histogram (macd indicators)) &&
             (previousHistogram (macd indicators) <? histogram (macd indicators))).
  set (b4 := (histogram (macd indicators) <? 0) &&
             (histogram (macd indicators) <? previousHistogram (macd indicators))).
  set (b5 := Model.value (rsi indicators) <? 30).
  set (b6 := 70 <? Model.value (rsi indicators)).
  set (b7 := String.eqb (position (bb indicators)) "lower").
  set (b8 := String.eqb (position (bb indicators)) "upper").
  set (b9 := String.eqb (trend (volume indicators)) "increasing").
  clearbody b1 b2 b3 b4 b5 b6 b7 b8 b9.
  destruct b1, b2, b3, b4, b5, b6, b7, b8, b9; vm_compute; reflexivity.
Qed.

(** The thresholds and the strength, in terms of the running total. *)
Lemma generateSignal_of_points
    (indicators : indicators) (aiAnalysis : aiAnalysis_t) :
  is_nan (confidence aiAnalysis) = false ->
  let s := generateSignal indicators aiAnalysis in
  let score := signalPoints indicators aiAnalysis in
  (type s = "buy" <-> (score >? 30) = true) /\
  (type s = "sell" <-> (score <? -30) = true) /\
  (type s = "neutral" <-> (score >? 30) = false /\ (score <? -30) = false) /\
  strength s = Math_min (Math_abs score) 100 /\
  (0 <=? strength s) = true /\ (strength s <=? 100) = true.
Proof.
  intros Hc s score.
  assert (Hstrength : strength s = Math_min (Math_abs score) 100).
  { unfold s, generateSignal. fold score.
    destruct (score >? 30); [|destruct (score <? -30)]; reflexivity. }
  assert (Hnan : is_nan score = false) by (apply signalPoints_not_nan, Hc).
  assert (Hexcl : (score <? -30) = true -> (score >? 30) = false).
  { unfold gtb. apply ltb_negative_positive
      with (mlo := 8444249301319680%positive) (elo := (-48)%Z)
           (mhi := 8444249301319680%positive) (ehi := (-48)%Z); reflexivity. }
  assert (Htype : type s = if score >? 30 then "buy"
                           else if score <? -30 then "sell" else "neutral").
  { unfold s, generateSignal. fold score.
    destruct (score >? 30); [|destruct (score <? -30)]; reflexivity. }
  rewrite Htype, Hstrength.
  pose proof (Math_min_hundred (Math_abs score) (abs_not_nan _ Hnan) (abs_nonneg _ Hnan))
    as [Hlo Hhi].
  destruct (score >? 30) eqn:Hbuy; destruct (score <? -30) eqn:Hsell;
    try (specialize (Hexcl eq_refl); discriminate);
    repeat split; intros; try assumption; try reflexivity; try discriminate;
    try (destruct H; discriminate).
Qed.

(** C6. For every snapshot and every estimate whose confidence is a
    number, the score is the sum of: 20 for a bullish and -20 for a
    bearish crossover; 20 for a positive and rising histogram, -20 for a
    negative and falling one; 15 for an RSI below 30, -15 above 70; 15 for
    the lower band, -15 for the upper; 10 with the sign of that sum when
    the volume is increasing; and 20 times the confidence, added for ['up']
    and subtracted for ['down'].  The signal is ['buy'] exactly when the
    score is above 30, ['sell'] exactly when it is below -30 and
    ['neutral'] otherwise; its strength is [Math.min(Math.abs(score), 100)]
    and lies between 0 and 100. *)
Theorem generateSignal_type_strength
    (indicators : indicators) (aiAnalysis : aiAnalysis_t) :
  is_nan (confidence aiAnalysis) = false ->
  let emaPoints :=
    if String.eqb (crossover (ema indicators)) "bullish" then 20
    else if String.eqb (crossover (ema indicators)) "bearish" then -20 else 0 in
  let macdPoints :=
    if (histogram (macd indicators) >? 0) &&
       (histogram (macd indicators) >? previousHistogram (macd indicators)) then 20
    else if (histogram (macd indicators) <? 0) &&
            (histogram (macd indicators) <? previousHistogram (macd indicators)) then -20
    else 0 in
  let rsiPoints :=
    if Model.value (rsi indicators) <? 30 then 15
    else if Model.value (rsi indicators) >? 70 then -15 else 0 in
  let bbPoints :=
    if String.eqb (position (bb indicators)) "lower" then 15
    else if String.eqb (position (bb indicators)) "upper" then -15 else 0 in
  let four := emaPoints + macdPoints + rsiPoints + bbPoints in
  let volumePoints :=
    if String.eqb (trend (volume indicators)) "increasing"
    then if four >? 0 then 10 else if four <? 0 then -10 else 0
    else 0 in
  let score :=
    if String.eqb (prediction aiAnalysis) "up"
    then four + volumePoints + 20 * confidence aiAnalysis
    else if String.eqb (prediction aiAnalysis) "down"
    then four + volumePoints - 20 * confidence aiAnalysis
    else four + volumePoints in
  let s := generateSignal indicators aiAnalysis in
  (type s = "buy" <-> (score >? 30) = true) /\
  (type s = "sell" <-> (score <? -30) = true) /\
  (type s = "neutral" <-> (score >? 30) = false /\ (score <? -30) = false) /\
  strength s = Math_min (Math_abs score) 100 /\
  (0 <=? strength s) = true /\ (strength s <=? 100) = true.
Proof.
  intros Hc. cbv zeta.
  pose proof (generateSignal_of_points indicators aiAnalysis Hc) as H. cbv zeta in H.
  unfold signalPoints in H.
  pose proof (indicatorPoints_weights indicators) as Hw. cbv zeta in Hw.
  rewrite Hw in H. exact H.
Qed.

(** A bullish crossover and an estimate up at 0.8: 20 + 20 * 0.8 = 36,
    a buy of strength 36. *)
Lemma generateSignal_type_strength_witness :
  type (generateSignal bullish_indicators confident_up) = "buy" /\
  strength (generateSignal bullish_indicators confident_up) = 36.
Proof.
  destruct (generateSignal_type_strength bullish_indicators confident_up eq_refl)
    as (Hbuy & _ & _ & Hstrength & _).
  split.
  - apply Hbuy. vm_compute. reflexivity.
  - rewrite Hstrength. vm_compute. reflexivity.
Defined.

Example generateSignal_bullish_up :
  type (generateSignal bullish_indicators confident_up) = "buy" /\
  strength (generateSignal bullish_indicators confident_up) = 36 /\
  recommendation (generateSignal bullish_indicators confident_up) = "Buy".
Proof. vm_compute. repeat split; reflexivity. Qed.

(** A confidence that is not a number makes the strength NaN. *)
Example generateSignal_nan_confidence :
  is_nan (strength (generateSignal bullish_indicators
                                   {| prediction := "up"; confidence := nan |})) = true.
Proof. vm_compute. reflexivity. Qed.

(** The whole evaluation of sixty rising candles: no crossover, a MACD
    histogram that is positive but falling, an RSI of 100 that counts
    against the rise, a close inside the bands and a stable volume; the
    signal is a hold of strength 15. *)
Example generateSignal_rising :
  let indicators := Indicators.calculateAllIndicators rising in
  crossover (ema indicators) = "none" /\
  Model.value (rsi indicators) = 100 /\
  position (bb indicators) = "middle" /\
  trend (volume indicators) = "stable" /\
  type (generateSignal indicators neutral_estimate) = "neutral" /\
  strength (generateSignal indicators neutral_estimate) = 15.
Proof. vm_compute. repeat split; reflexivity. Qed.

(** The test of [trackSignalAccuracy] on its two arguments. *)
Lemma counted_test signalType result :
  (String.eqb signalType "buy" && String.eqb result "win") ||
  (String.eqb signalType "sell" && String.eqb result "win") = true
  <-> counted signalType result.
Proof.
  unfold counted.
  destruct (String.eqb_spec signalType "buy"), (String.eqb_spec signalType "sell"),
    (String.eqb_spec result "win"); simpl; intuition congruence.
Qed.

(** C2, as the code has it. Every call adds one to [totalSignals]; it
    adds one to [correctSignals] exactly when the signal is a buy or a sell
    and the outcome a win, and leaves it as it was otherwise; the new
    counters are stored; and the number returned is the percentage
    [correctSignals / totalSignals * 100]. From zeroed counters, recording
    (buy, win) and then (sell, loss) gives [totalSignals = 2],
    [correctSignals = 1] and returns 50. *)
Theorem trackSignalAccuracy_percentage (state : state_t) (signalType result : string) :
  let state' := fst (trackSignalAccuracy state signalType result) in
  let returned := snd (trackSignalAccuracy state signalType result) in
  let stats := accuracyStats state in
  let stats' := accuracyStats state' in
  totalSignals stats' = (totalSignals stats + 1)%nat /\
  (correctSignals stats' = (correctSignals stats + 1)%nat
   <-> counted signalType result) /\
  (correctSignals stats' = correctSignals stats
   <-> ~ counted signalType result) /\
  stored_accuracyStats state' = Some stats' /\
  returned = (n2f (correctSignals stats') / n2f (totalSignals stats')) * 100 /\
  let after := fst (trackSignalAccuracy
                      (fst (trackSignalAccuracy initial_state "buy" "win"))
                      "sell" "loss") in
  totalSignals (accuracyStats after) = 2%nat /\
  correctSignals (accuracyStats after) = 1%nat /\
  snd (trackSignalAccuracy (fst (trackSignalAccuracy initial_state "buy" "win"))
                           "sell" "loss") = 50.
Proof.
  cbv zeta.
  pose proof (counted_test signalType result) as Hc.
  split; [|split; [|split; [|split; [|split]]]].
  6: { vm_compute. repeat split; reflexivity. }
  all: unfold trackSignalAccuracy;
    destruct ((String.eqb signalType "buy" && String.eqb result "win") ||
              (String.eqb signalType "sell" && String.eqb result "win")); simpl;
    try reflexivity; try lia.
  all: split; intros H;
    first [ lia
          | reflexivity
          | apply Hc; reflexivity
          | apply Hc in H; discriminate
          | exfalso; apply H, Hc; reflexivity
          | intros H'; apply Hc in H'; discriminate ].
Qed.

(** C2 fails as stated. After (buy, win) and then (sell, loss) from
    zeroed counters the number returned is 50, not 0.5. *)
Lemma trackSignalAccuracy_ratio_counterexample :
  let returned :=
    snd (trackSignalAccuracy (fst (trackSignalAccuracy initial_state "buy" "win"))
                             "sell" "loss") in
  (returned =? 0.5) = false /\ returned = 50.
Proof. vm_compute. split; reflexivity. Qed.

End Scorer.


(* ================================================================== *)
(** * The scorer without a direction, and the history of the tracker *)
(* ================================================================== *)

Section ScorerHistory.

Import JS Model Notions Background.
Local Open Scope string_scope.
Local Open Scope list_scope.
Local Open Scope float_scope.

(** X23. With fewer than thirty candles and an estimate that points
    neither up nor down, the signal made from the indicators of these
    candles is a hold of strength 0, and its details are those of the
    default snapshot, where the MACD reads ['bearish'] because its
    histogram, 0, is not positive. *)
Theorem generateSignal_insufficient_history
    (candles : list candle) (aiAnalysis : aiAnalysis_t) :
  (length candles < 30)%nat ->
  prediction aiAnalysis <> "up" -> prediction aiAnalysis <> "down" ->
  generateSignal (Indicators.calculateAllIndicators candles) aiAnalysis
  = {| type := "neutral";
       strength := 0;
       recommendation := "Hold";
       aiConfidence := confidence aiAnalysis;
       details := {| details_ema := "none";
                     details_macd := "bearish";
                     details_rsi := 50;
                     details_bb := "middle";
                     details_volume := "stable" |} |}.
Proof.
  intros Hlen Hup Hdown. unfold Indicators.calculateAllIndicators.
  destruct (Nat.ltb_spec (length candles) 30) as [_|]; [|lia].
  unfold generateSignal, signalPoints.
  destruct (String.eqb_spec (prediction aiAnalysis) "up") as [|_]; [contradiction|].
  destruct (String.eqb_spec (prediction aiAnalysis) "down") as [|_]; [contradiction|].
  reflexivity.
Qed.

Lemma generateSignal_insufficient_history_witness :
  recommendation (generateSignal (Indicators.calculateAllIndicators []) neutral_estimate)
  = "Hold" /\
  details_macd (details (generateSignal (Indicators.calculateAllIndicators [])
                                        neutral_estimate)) = "bearish".
Proof.
  rewrite (generateSignal_insufficient_history [] neutral_estimate);
    [split; reflexivity | simpl; lia | discriminate | discriminate].
Defined.

(** X24. For an estimate that points neither up nor down, as the neutral
    one that background.js always gets from its own [getAIPrediction], the
    score is that of the five indicators alone, the strength is its
    absolute value, and it is at most 80: the bound of 100 is never what
    limits it. *)
Theorem generateSignal_without_direction
    (indicators : indicators) (aiAnalysis : aiAnalysis_t) :
  prediction aiAnalysis <> "up" -> prediction aiAnalysis <> "down" ->
  let s := generateSignal indicators aiAnalysis in
  signalPoints indicators aiAnalysis = indicatorPoints indicators /\
  strength s = Math_abs (indicatorPoints indicators) /\
  (strength s <=? 80) = true.
Proof.
  intros Hup Hdown. cbv zeta. unfold generateSignal, signalPoints.
  destruct (String.eqb_spec (prediction aiAnalysis) "up") as [|_]; [contradiction|].
  destruct (String.eqb_spec (prediction aiAnalysis) "down") as [|_]; [contradiction|].
  split; [reflexivity|].
  unfold indicatorPoints, gtb.
  set (b1 := String.eqb (crossover (ema indicators)) "bullish").
  set (b2 := String.eqb (crossover (ema indicators)) "bearish").
  set (b3 := (0 <? histogram (macd indicators)) &&
             (previousHistogram (macd indicators) <? histogram (macd indicators))).
  set (b4 := (histogram (macd indicators) <? 0) &&
             (histogram (macd indicators) <? previousHistogram (macd indicators))).
  set (b5 := Model.value (rsi indicators) <? 30).
  set (b6 := 70 <? Model.value (rsi indicators)).
  set (b7 := String.eqb (position (bb indicators)) "lower").
  set (b8 := String.eqb (position (bb indicators)) "upper").
  set (b9 := String.eqb (trend (volume indicators)) "increasing").
  clearbody b1 b2 b3 b4 b5 b6 b7 b8 b9.
  destruct b1, b2, b3, b4, b5, b6, b7, b8, b9; vm_compute; split; reflexivity.
Qed.

Lemma generateSignal_without_direction_witness :
  strength (generateSignal bullish_indicators neutral_estimate) = 20 /\
  (strength (generateSignal bullish_indicators neutral_estimate) <=? 80) = true.
Proof.
  destruct (generateSignal_without_direction bullish_indicators neutral_estimate)
    as (_ & H2 & H3); [discriminate | discriminate |].
  split; [rewrite H2; reflexivity | exact H3].
Defined.

(** ** The fallback prediction as the estimate of the scorer *)

(** The score of the fallback and the points of the scorer, for the same
    snapshot: when the first is above 15 the second is not negative and
    adding the estimate keeps it from -30; when the first is below -15 the
    second is not positive and taking the estimate off keeps it from 30;
    otherwise the second lies between -30 and 30. *)
Lemma scores_agree (candles : list candle) (indicators : indicators) :
  let predictionScore := fst (AIAnalysis.patternScores candles indicators) in
  let confidence :=
    Math_min (Math_max (snd (AIAnalysis.patternScores candles indicators)) 0.3) 0.85 in
  let points := indicatorPoints indicators in
  if predictionScore >? 15
  then (0 <=? points) = true /\ (points + 20 * confidence <? -30) = false
  else if predictionScore <? -15
  then (points <=? 0) = true /\ (points - 20 * confidence >? 30) = false
  else (points >? 30) = false /\ (points <? -30) = false.
Proof.
  unfold AIAnalysis.patternScores, indicatorPoints.
  generalize (detectCandlestickPatterns_cases candles).
  generalize (AIAnalysis.detectCandlestickPatterns candles). intros p Hp.
  unfold gtb.
  set (b1 := String.eqb (crossover (ema indicators)) "bullish").
  set (b2 := String.eqb (crossover (ema indicators)) "bearish").
  set (b3 := (0 <? histogram (macd indicators)) &&
             (previousHistogram (macd indicators) <? histogram (macd indicators))).
  set (b4 := (histogram (macd indicators) <? 0) &&
             (histogram (macd indicators) <? previousHistogram (macd indicators))).
  set (b5 := Model.value (rsi indicators) <? 30).
  set (b6 := 70 <? Model.value (rsi indicators)).
  set (b7 := String.eqb (position (bb indicators)) "lower").
  set (b8 := String.eqb (position (bb indicators)) "upper").
  set (b9 := String.eqb (trend (volume indicators)) "increasing").
  clearbody b1 b2 b3 b4 b5 b6 b7 b8 b9.
  destruct Hp as [<-|[<-|[<-|[<-|[<-|[<-|[]]]]]]];
    destruct b1, b2, b3, b4, b5, b6, b7, b8, b9; vm_compute; split; reflexivity.
Qed.

(** X25. The fallback prediction and the scorer never point in opposite
    directions on the same snapshot: when [getPatternBasedPrediction]
    says ['up'] the points of the five indicators in [generateSignal] are
    not negative, and when it says ['down'] they are not positive; and the
    signal that [generateSignal] makes from the snapshot with that
    prediction as its estimate is a buy only if the prediction is ['up']
    and a sell only if it is ['down']. *)
Theorem fallback_agrees_with_scorer (candles : list candle) (indicators : indicators) :
  let r := AIAnalysis.getPatternBasedPrediction candles indicators in
  let points := indicatorPoints indicators in
  let s := generateSignal indicators (as_estimate r) in
  (AIAnalysis.prediction r = "up" -> (0 <=? points) = true) /\
  (AIAnalysis.prediction r = "down" -> (points <=? 0) = true) /\
  (type s = "buy" -> AIAnalysis.prediction r = "up") /\
  (type s = "sell" -> AIAnalysis.prediction r = "down").
Proof.
  cbv zeta. pose proof (scores_agree candles indicators) as H. cbv zeta in H.
  unfold as_estimate, generateSignal, signalPoints, AIAnalysis.getPatternBasedPrediction.
  destruct (AIAnalysis.patternScores candles indicators) as [predictionScore confidenceScore].
  cbn [fst snd] in H.
  cbn [AIAnalysis.prediction AIAnalysis.confidence prediction confidence].
  set (c := Math_min (Math_max confidenceScore 0.3) 0.85) in *.
  set (points := indicatorPoints indicators) in *.
  destruct (predictionScore >? 15) eqn:Hup.
  - destruct H as [H1 H2]. cbn [String.eqb Ascii.eqb Bool.eqb].
    split; [intros _; exact H1|]. split; [discriminate|].
    split; [reflexivity|].
    destruct (points + 20 * c >? 30); [discriminate|].
    rewrite H2. discriminate.
  - destruct (predictionScore <? -15) eqn:Hdown.
    + destruct H as [H1 H2]. cbn [String.eqb Ascii.eqb Bool.eqb].
      split; [discriminate|]. split; [intros _; exact H1|].
      rewrite H2. split; [|reflexivity].
      destruct (points - 20 * c <? -30); discriminate.
    + destruct H as [H1 H2]. cbn [String.eqb Ascii.eqb Bool.eqb].
      rewrite H1, H2.
      repeat split; discriminate.
Qed.

(** A snapshot in which every category points up is a buy of strength
    97 with the estimate of the fallback. *)
Example generateSignal_with_fallback :
  let r := AIAnalysis.getPatternBasedPrediction [] all_bullish in
  type (generateSignal all_bullish (as_estimate r)) = "buy" /\
  strength (generateSignal all_bullish (as_estimate r)) = 97.
Proof. vm_compute. split; reflexivity. Qed.

(** ** A series of recorded outcomes *)

Lemma is_counted_test (call : string * string) :
  (String.eqb (fst call) "buy" && String.eqb (snd call) "win") ||
  (String.eqb (fst call) "sell" && String.eqb (snd call) "win") = is_counted call.
Proof.
  unfold is_counted.
  destruct (String.eqb (fst call) "buy"), (String.eqb (fst call) "sell"),
    (String.eqb (snd call) "win"); reflexivity.
Qed.

Lemma trackSignalAccuracy_step (state : state_t) (call : string * string) :
  let state' := fst (trackSignalAccuracy state (fst call) (snd call)) in
  totalSignals (accuracyStats state') = (totalSignals (accuracyStats state) + 1)%nat /\
  correctSignals (accuracyStats state')
  = (correctSignals (accuracyStats state) + if is_counted call then 1 else 0)%nat /\
  stored_accuracyStats state' = Some (accuracyStats state').
Proof.
  cbv zeta. unfold trackSignalAccuracy. rewrite is_counted_test.
  destruct (is_counted call); cbn; repeat split; lia.
Qed.

Lemma record_all_counters (calls : list (string * string)) (state : state_t) :
  let stats := accuracyStats state in
  let stats' := accuracyStats (record_all state calls) in
  totalSignals stats' = (totalSignals stats + length calls)%nat /\
  correctSignals stats' = (correctSignals stats + length (filter is_counted calls))%nat /\
  (stored_accuracyStats state = Some stats \/ calls <> [] ->
   stored_accuracyStats (record_all state calls) = Some stats').
Proof.
  revert state. induction calls as [|call calls IH]; intros state; cbv zeta.
  - simpl. repeat split; try lia. intros [H|H]; [exact H | congruence].
  - change (record_all state (call :: calls))
      with (record_all (fst (trackSignalAccuracy state (fst call) (snd call))) calls).
    destruct (trackSignalAccuracy_step state call) as (Ht1 & Hc1 & Hs1).
    cbv zeta in Ht1, Hc1, Hs1.
    destruct (IH (fst (trackSignalAccuracy state (fst call) (snd call)))) as (Ht & Hc & Hs).
    cbv zeta in Ht, Hc, Hs. rewrite Ht, Hc, Ht1, Hc1.
    cbn [filter length].
    split; [lia|]. split; [destruct (is_counted call); cbn [length]; lia|].
    intros _. apply Hs. left. exact Hs1.
Qed.

(** X26. After any series of calls of [trackSignalAccuracy] from the
    initial state, [totalSignals] is the number of calls, [correctSignals]
    is the number of those that recorded a buy or a sell as won, hence at
    most [totalSignals], and the counters stored are the counters of the
    state. *)
Theorem trackSignalAccuracy_history (calls : list (string * string)) :
  let stats := accuracyStats (record_all initial_state calls) in
  totalSignals stats = length calls /\
  correctSignals stats = length (filter is_counted calls) /\
  (correctSignals stats <= totalSignals stats)%nat /\
  (calls <> [] -> stored_accuracyStats (record_all initial_state calls) = Some stats).
Proof.
  cbv zeta. destruct (record_all_counters calls initial_state) as (Ht & Hc & Hs).
  cbv zeta in Ht, Hc, Hs. simpl in Ht, Hc.
  rewrite Ht, Hc. repeat split; try reflexivity.
  - apply filter_length_le.
  - intros Hne. rewrite Hs by (right; exact Hne). reflexivity.
Qed.

Example trackSignalAccuracy_three_calls :
  accuracyStats (record_all initial_state
                            [("buy", "win"); ("sell", "loss"); ("neutral", "win")])
  = {| totalSignals := 3; correctSignals := 1 |}.
Proof. reflexivity. Qed.

End ScorerHistory.

(* ================================================================== *)
(** * The content script and the popup *)
(* ================================================================== *)

Section Timeframes.

Import ContentScript.
Local Open Scope string_scope.
Local Open Scope list_scope.

Lemma includes_startsWith (text pattern : string) :
  startsWith text pattern = true -> includes text pattern = true.
Proof.
  intros H. destruct text; cbn [includes]; rewrite H; reflexivity.
Qed.

(** A text that holds [15m] holds [5m], and likewise with a capital. *)
Lemma includes_fifteen (text : string) (unit : ascii) :
  includes text (String "1" (String "5" (String unit ""))) = true ->
  includes text (String "5" (String unit "")) = true.
Proof.
  induction text as [|c text IH]; [discriminate|].
  cbn [includes]. intros H. apply orb_true_iff in H. destruct H as [H|H].
  - cbn [startsWith] in H. apply andb_true_iff in H. destruct H as [_ H].
    fold (includes text (String "5" (String unit ""))).
    rewrite (includes_startsWith text _ H). apply orb_true_r.
  - fold (includes text (String "5" (String unit ""))).
    rewrite (IH H). apply orb_true_r.
Qed.

(** X27. [checkTimeframe] never switches to the timeframe M15: whatever
    the text of the active selector, if the current timeframe is not M15
    then neither is the new one, and M15 is never sent to the background
    script. A text that holds [15m] holds [5m] too, and is taken for M5. *)
Theorem checkTimeframe_never_fifteen (currentTimeframe : string)
    (activeTimeframe : option string) :
  currentTimeframe <> "M15" ->
  fst (checkTimeframe currentTimeframe activeTimeframe) <> "M15" /\
  snd (checkTimeframe currentTimeframe activeTimeframe) <> Some "M15".
Proof.
  intros Hcur. unfold checkTimeframe.
  destruct activeTimeframe as [timeframeText|]; [|split; [exact Hcur | discriminate]].
  assert (Hnew : newTimeframe currentTimeframe timeframeText <> "M15").
  { unfold newTimeframe.
    destruct (includes timeframeText "1m" || includes timeframeText "1M");
      [discriminate|].
    destruct (includes timeframeText "5m") eqn:E5; [discriminate|].
    destruct (includes timeframeText "5M") eqn:E5'; [discriminate|]. cbn [orb].
    destruct (includes timeframeText "15m") eqn:E15;
      [apply includes_fifteen in E15; congruence|].
    destruct (includes timeframeText "15M") eqn:E15';
      [apply includes_fifteen in E15'; congruence|].
    exact Hcur. }
  destruct (negb _); cbn [fst snd]; split; try assumption; try discriminate.
  intros H. injection H as H. contradiction.
Qed.

Lemma checkTimeframe_never_fifteen_witness :
  String.eqb (fst (checkTimeframe "M1" (Some "15m"))) "M15" = false.
Proof.
  apply String.eqb_neq.
  apply (checkTimeframe_never_fifteen "M1" (Some "15m")). discriminate.
Defined.

Example checkTimeframe_fifteen :
  checkTimeframe "M1" (Some "15m") = ("M5", Some "M5").
Proof. reflexivity. Qed.

End Timeframes.

Section SignalHistory.

Import Popup.
Local Open Scope list_scope.

Lemma addSignalToHistory_push (signalHistory : list entry_t) (signal : entry_t) :
  addSignalToHistory signalHistory signal
  = (if (20 <=? length signalHistory)%nat then tl signalHistory else signalHistory)
      ++ [signal].
Proof. unfold addSignalToHistory. destruct signal; reflexivity. Qed.

Lemma history_loop (signals signalHistory : list entry_t) :
  (length signalHistory <= 20)%nat ->
  fold_left addSignalToHistory signals signalHistory
  = skipn (length (signalHistory ++ signals) - 20) (signalHistory ++ signals).
Proof.
  revert signalHistory. induction signals as [|signal signals IH]; intros h Hh.
  - rewrite app_nil_r. replace (length h - 20)%nat with 0%nat by lia. reflexivity.
  - cbn [fold_left]. rewrite addSignalToHistory_push.
    destruct (Nat.leb_spec 20 (length h)) as [H20|Hlt].
    + destruct h as [|a t]; [simpl in H20; lia|]. cbn [tl]. cbn [length] in Hh, H20.
      rewrite IH by (rewrite length_app; simpl; lia).
      rewrite <- app_assoc. cbn [app length].
      set (l := t ++ signal :: signals).
      assert (Hl : (20 <= length l)%nat) by (unfold l; rewrite length_app; simpl; lia).
      replace (S (length l) - 20)%nat with (S (length l - 20)) by lia.
      reflexivity.
    + rewrite IH by (rewrite length_app; simpl; lia).
      rewrite <- app_assoc. reflexivity.
Qed.

(** X28. The history of the popup, filled from empty by
    [addSignalToHistory], holds the last twenty signals it was given, in
    the order they came, or all of them when they are fewer; it never
    holds more than twenty. *)
Theorem addSignalToHistory_last_twenty (signals : list entry_t) :
  let signalHistory := fold_left addSignalToHistory signals [] in
  signalHistory = skipn (length signals - 20) signals /\
  (length signalHistory <= 20)%nat.
Proof.
  cbv zeta. rewrite history_loop by (simpl; lia). cbn [app].
  split; [reflexivity|]. rewrite length_skipn. lia.
Qed.

End SignalHistory.
